(** * cudnn_util: descriptor builders, memory budget, algorithm selection

    A shallow embedding of
    [google_cudnn_test/nvidia_libs_test/cudnn_util.cc].

    Conventions.
    - A C++ [int] is a [Z] kept in the 32-bit signed range by [wrap_int];
      a [size_t] is a [Z] kept in the 64-bit unsigned range by
      [wrap_size_t].  Every arithmetic operation of the source is written
      with its wrap-around.
    - A [CHECK_*] / [LOG(FATAL)] failure terminates the process: it is the
      [Aborted] outcome.  A [Status] / [StatusOr<T>] is an ordinary value.
    - cuDNN, the CUDA runtime and the allocator of [cuda_util] are outside
      this file; they are the fields of the class [Platform]. *)

From Stdlib Require Import ZArith Lia Sorted.
From stdpp Require Import base tactics option list numbers strings pretty.

Local Open Scope Z_scope.

(** ** Machine integers *)

Definition INT_MIN : Z := - 2 ^ 31.
Definition INT_MAX : Z := 2 ^ 31 - 1.
Definition SIZE_MAX : Z := 2 ^ 64 - 1.

Definition wrap_int (z : Z) : Z := (z + 2 ^ 31) mod 2 ^ 32 - 2 ^ 31.
Definition wrap_size_t (z : Z) : Z := z mod 2 ^ 64.

Definition int_range (z : Z) : Prop := INT_MIN <= z <= INT_MAX.
Definition size_t_range (z : Z) : Prop := 0 <= z <= SIZE_MAX.

Definition int_add (a b : Z) : Z := wrap_int (a + b).
Definition int_sub (a b : Z) : Z := wrap_int (a - b).
Definition int_mul (a b : Z) : Z := wrap_int (a * b).

(** [static_cast<size_t>(i)] and the implicit conversion of an [int]
    operand in mixed [size_t] arithmetic. *)
Definition to_size_t (z : Z) : Z := wrap_size_t z.
Definition size_t_add (a b : Z) : Z := wrap_size_t (a + b).
Definition size_t_sub (a b : Z) : Z := wrap_size_t (a - b).
Definition size_t_mul (a b : Z) : Z := wrap_size_t (a * b).

(** ** Status, StatusOr and fatal checks *)

Inductive Status : Type :=
  | OkStatus
  | ErrorStatus (msg : string).

Inductive StatusOr (A : Type) : Type :=
  | Value (a : A)
  | Failure (msg : string).
Arguments Value {A} a.
Arguments Failure {A} msg.

Definition status_ok (s : Status) : bool :=
  match s with OkStatus => true | ErrorStatus _ => false end.

Definition status {A} (r : StatusOr A) : Status :=
  match r with Value _ => OkStatus | Failure msg => ErrorStatus msg end.

(** The result of running a piece of code that may hit a fatal check. *)
Inductive outcome (A : Type) : Type :=
  | Returned (a : A)
  | Aborted (msg : string).
Arguments Returned {A} a.
Arguments Aborted {A} msg.

Definition outcome_bind {A B} (m : outcome A) (k : A -> outcome B) : outcome B :=
  match m with
  | Returned a => k a
  | Aborted msg => Aborted msg
  end.

Declare Scope outcome_scope.
Delimit Scope outcome_scope with outcome.
Notation "x <- m ;; k" := (outcome_bind m (fun x => k))
  (at level 100, m at next level, right associativity) : outcome_scope.
Notation "m ;;; k" := (outcome_bind m (fun _ => k))
  (at level 100, right associativity) : outcome_scope.

Definition CHECK (cond : bool) (msg : string) : outcome unit :=
  if cond then Returned tt else Aborted msg.

Definition CHECK_OK_STATUS (s : Status) : outcome unit :=
  match s with
  | OkStatus => Returned tt
  | ErrorStatus msg => Aborted msg
  end.

(** ** Enumerations shared with cuDNN

    The source asserts (CHECK_ENUMERATOR) that the configuration's
    enumerators have the numeric values of cuDNN's, so one type serves
    for both sides of each [static_cast]. *)

Definition cudnnStatus_t : Type := Z.
Definition CUDNN_STATUS_SUCCESS : cudnnStatus_t := 0.

Inductive cudnnDataType_t : Type :=
  | CUDNN_DATA_FLOAT
  | CUDNN_DATA_DOUBLE
  | CUDNN_DATA_HALF
  | CUDNN_DATA_INT8
  | CUDNN_DATA_INT32
  | CUDNN_DATA_INT8x4.

Inductive cudnnTensorFormat_t : Type :=
  | CUDNN_TENSOR_NCHW
  | CUDNN_TENSOR_NHWC
  | CUDNN_TENSOR_NCHW_VECT_C.

Inductive cudnnConvolutionMode_t : Type :=
  | CUDNN_CONVOLUTION
  | CUDNN_CROSS_CORRELATION.

Inductive cudnnMathType_t : Type :=
  | CUDNN_DEFAULT_MATH
  | CUDNN_TENSOR_OP_MATH.

Inductive ConvolutionDirection : Type :=
  | CONVOLUTION_FWD
  | CONVOLUTION_BWD_DATA
  | CONVOLUTION_BWD_FILTER.

Global Instance cudnnDataType_eq_dec : EqDecision cudnnDataType_t.
Proof. solve_decision. Defined.
Global Instance cudnnTensorFormat_eq_dec : EqDecision cudnnTensorFormat_t.
Proof. solve_decision. Defined.
Global Instance ConvolutionDirection_eq_dec : EqDecision ConvolutionDirection.
Proof. solve_decision. Defined.

(** The number of enumerators of each algorithm enumeration, as fixed by
    the CHECK_ENUMERATOR / CHECK_ENUM_SIZE lists at the end of the
    source. *)
Definition CUDNN_CONVOLUTION_FWD_ALGO_COUNT : Z := 8.
Definition CUDNN_CONVOLUTION_BWD_DATA_ALGO_COUNT : Z := 6.
Definition CUDNN_CONVOLUTION_BWD_FILTER_ALGO_COUNT : Z := 7.

(** cuDNN's ceiling on the rank of a descriptor. *)
Definition CUDNN_DIM_MAX : nat := 8.

(** [ConvolutionAlgo] is a variant over the three algorithm enumerations;
    an enumerator is held by its numeric value. *)
Inductive ConvolutionAlgo : Type :=
  | FwdAlgo (algo : Z)
  | BwdDataAlgo (algo : Z)
  | BwdFilterAlgo (algo : Z).

Global Instance ConvolutionAlgo_eq_dec : EqDecision ConvolutionAlgo.
Proof. solve_decision. Defined.

(** ** Configuration records (the fields of the protocol-buffer messages
    that the source reads) *)

Record proto_TensorDescriptor : Type := {
  td_data_type_oneof : option cudnnDataType_t;
  td_dimension : list Z;
  td_stride : list Z;
  td_format_oneof : option cudnnTensorFormat_t;
}.

(** [proto.data_type()] and [proto.format()] return the first enumerator
    when the field is not set. *)
Definition td_data_type (p : proto_TensorDescriptor) : cudnnDataType_t :=
  default CUDNN_DATA_FLOAT (td_data_type_oneof p).
Definition td_format (p : proto_TensorDescriptor) : cudnnTensorFormat_t :=
  default CUDNN_TENSOR_NCHW (td_format_oneof p).
Definition td_dimension_size (p : proto_TensorDescriptor) : Z :=
  Z.of_nat (length (td_dimension p)).
Definition td_stride_size (p : proto_TensorDescriptor) : Z :=
  Z.of_nat (length (td_stride p)).

Record proto_FilterDescriptor : Type := {
  fd_data_type_oneof : option cudnnDataType_t;
  fd_format_oneof : option cudnnTensorFormat_t;
  fd_dimension : list Z;
}.

Definition fd_data_type (p : proto_FilterDescriptor) : cudnnDataType_t :=
  default CUDNN_DATA_FLOAT (fd_data_type_oneof p).
Definition fd_format (p : proto_FilterDescriptor) : cudnnTensorFormat_t :=
  default CUDNN_TENSOR_NCHW (fd_format_oneof p).

Record proto_ConvolutionDescriptor : Type := {
  cd_pad : list Z;
  cd_filter_stride : list Z;
  cd_dilation : list Z;
  cd_mode : cudnnConvolutionMode_t;
  cd_compute_mode_oneof : option cudnnDataType_t;
  cd_group_count : Z;
  cd_math_type : cudnnMathType_t;
}.

Definition cd_compute_mode (p : proto_ConvolutionDescriptor) : cudnnDataType_t :=
  default CUDNN_DATA_FLOAT (cd_compute_mode_oneof p).

Record proto_ConvolutionConfig : Type := {
  cfg_input : proto_TensorDescriptor;
  cfg_filter : proto_FilterDescriptor;
  cfg_convolution : proto_ConvolutionDescriptor;
  cfg_output : option proto_TensorDescriptor;
  cfg_workspace_oneof : option Z;
}.

(** ** Descriptors

    A descriptor handle owns what cuDNN has stored behind it: nothing
    between its creation and the first successful [cudnnSet*] call. *)

Record TensorDescriptorData : Type := {
  tensor_data_type : cudnnDataType_t;
  tensor_rank : Z;
  tensor_dimensions : list Z;
  tensor_strides : list Z;
}.

Record FilterDescriptorData : Type := {
  filter_data_type : cudnnDataType_t;
  filter_format : cudnnTensorFormat_t;
  filter_rank : Z;
  filter_dimensions : list Z;
}.

Record ConvolutionDescriptorData : Type := {
  conv_rank : Z;
  conv_pad : list Z;
  conv_stride : list Z;
  conv_dilation : list Z;
  conv_convolution_mode : cudnnConvolutionMode_t;
  conv_compute_type : cudnnDataType_t;
  conv_math_type : cudnnMathType_t;
  conv_group_count : Z;
}.

Record TensorDescriptor : Type := {
  tensor_contents : option TensorDescriptorData;
}.

Record FilterDescriptor : Type := {
  filter_contents : option FilterDescriptorData;
}.

(** What [cudnnSetConvolutionNdDescriptor] stores. *)
Record ConvolutionNdContents : Type := {
  nd_rank : Z;
  nd_pad : list Z;
  nd_stride : list Z;
  nd_dilation : list Z;
  nd_mode : cudnnConvolutionMode_t;
  nd_compute_type : cudnnDataType_t;
}.

(** The math type and the group count of a convolution descriptor are set
    by their own calls and start at what the engine gives a fresh
    descriptor. *)
Record ConvolutionDescriptor : Type := {
  convolution_contents : option ConvolutionNdContents;
  convolution_math_type : cudnnMathType_t;
  convolution_group_count : Z;
}.

Definition DeviceMemory : Type := Z.

Record AlgoPerf : Type := {
  perf_algo : Z;
  perf_status : cudnnStatus_t;
}.

(** The source's
<<
  union ScalingFactor { float float_value; double double_value; };
>>
    with the member that was written made explicit. *)
Inductive ScalingFactor (F D : Type) : Type :=
  | float_value (f : F)
  | double_value (d : D).
Arguments float_value {F D} f.
Arguments double_value {F D} d.

(** ** The platform: cuDNN, the CUDA runtime, [cuda_util]

    Each [cudnnSet*] entry point is represented by the status it reports
    for its arguments; what a successful call stores is written out in the
    wrappers below.  Query and execution entry points return their status
    together with what they write through their output pointers. *)

Class Platform : Type := {
  c_double : Type;
  c_float : Type;
  static_cast_float : c_double -> c_float;
  (** what an [int] array element holds before it is first written *)
  indeterminate_int : nat -> Z;
  cudnnGetErrorString : cudnnStatus_t -> string;
  cudnnCreateTensorDescriptor : cudnnStatus_t;
  cudnnCreateFilterDescriptor : cudnnStatus_t;
  cudnnCreateConvolutionDescriptor : cudnnStatus_t;
  (** the math type and the group count of a descriptor fresh from
      [cudnnCreateConvolutionDescriptor], which the source does not set *)
  cudnnCreateConvolutionDescriptor_math_type : cudnnMathType_t;
  cudnnCreateConvolutionDescriptor_group_count : Z;
  cudnnSetTensorNdDescriptor_status :
    cudnnDataType_t -> Z -> list Z -> list Z -> cudnnStatus_t;
  cudnnSetTensor4dDescriptor_status :
    cudnnTensorFormat_t -> cudnnDataType_t -> Z -> Z -> Z -> Z -> cudnnStatus_t;
  (** the strides [cudnnSetTensor4dDescriptor] derives from the format *)
  cudnnSetTensor4dDescriptor_strides :
    cudnnTensorFormat_t -> Z -> Z -> Z -> Z -> list Z;
  cudnnSetFilterNdDescriptor_status :
    cudnnDataType_t -> cudnnTensorFormat_t -> Z -> list Z -> cudnnStatus_t;
  cudnnSetConvolutionNdDescriptor_status :
    Z -> list Z -> list Z -> list Z ->
    cudnnConvolutionMode_t -> cudnnDataType_t -> cudnnStatus_t;
  cudnnSetConvolutionGroupCount_status : Z -> cudnnStatus_t;
  cudnnSetConvolutionMathType_status : cudnnMathType_t -> cudnnStatus_t;
  cudnnGetConvolution2dForwardOutputDim :
    ConvolutionDescriptor -> TensorDescriptor -> FilterDescriptor ->
    cudnnStatus_t * (Z * Z * Z * Z);
  cudnnGetConvolutionForwardWorkspaceSize :
    TensorDescriptor -> FilterDescriptor -> ConvolutionDescriptor ->
    TensorDescriptor -> Z -> cudnnStatus_t * Z;
  cudnnGetConvolutionBackwardDataWorkspaceSize :
    FilterDescriptor -> TensorDescriptor -> ConvolutionDescriptor ->
    TensorDescriptor -> Z -> cudnnStatus_t * Z;
  cudnnGetConvolutionBackwardFilterWorkspaceSize :
    TensorDescriptor -> TensorDescriptor -> ConvolutionDescriptor ->
    FilterDescriptor -> Z -> cudnnStatus_t * Z;
  cudnnFindConvolutionForwardAlgorithmEx :
    TensorDescriptor -> DeviceMemory -> FilterDescriptor -> DeviceMemory ->
    ConvolutionDescriptor -> TensorDescriptor -> DeviceMemory ->
    Z -> DeviceMemory -> Z -> cudnnStatus_t * Z * AlgoPerf;
  cudnnFindConvolutionBackwardDataAlgorithmEx :
    FilterDescriptor -> DeviceMemory -> TensorDescriptor -> DeviceMemory ->
    ConvolutionDescriptor -> TensorDescriptor -> DeviceMemory ->
    Z -> DeviceMemory -> Z -> cudnnStatus_t * Z * AlgoPerf;
  cudnnFindConvolutionBackwardFilterAlgorithmEx :
    TensorDescriptor -> DeviceMemory -> TensorDescriptor -> DeviceMemory ->
    ConvolutionDescriptor -> FilterDescriptor -> DeviceMemory ->
    Z -> DeviceMemory -> Z -> cudnnStatus_t * Z * AlgoPerf;
  cudnnConvolutionForward :
    ScalingFactor c_float c_double ->
    TensorDescriptor -> DeviceMemory -> FilterDescriptor -> DeviceMemory ->
    ConvolutionDescriptor -> Z -> DeviceMemory -> Z ->
    ScalingFactor c_float c_double ->
    TensorDescriptor -> DeviceMemory -> cudnnStatus_t;
  cudnnConvolutionBackwardData :
    ScalingFactor c_float c_double ->
    FilterDescriptor -> DeviceMemory -> TensorDescriptor -> DeviceMemory ->
    ConvolutionDescriptor -> Z -> DeviceMemory -> Z ->
    ScalingFactor c_float c_double ->
    TensorDescriptor -> DeviceMemory -> cudnnStatus_t;
  cudnnConvolutionBackwardFilter :
    ScalingFactor c_float c_double ->
    TensorDescriptor -> DeviceMemory -> TensorDescriptor -> DeviceMemory ->
    ConvolutionDescriptor -> Z -> DeviceMemory -> Z ->
    ScalingFactor c_float c_double ->
    FilterDescriptor -> DeviceMemory -> cudnnStatus_t;
  AllocateDeviceMemory : Z -> StatusOr DeviceMemory;
  RandomGenerator : Type;
  (** [CreateDeviceData<T>]; the element type [T] is named by its
      [cudnnDataType_t] *)
  CreateDeviceData :
    cudnnDataType_t -> Z -> c_double -> c_double -> RandomGenerator ->
    StatusOr DeviceMemory;
}.

(** ** Fixed-size arrays

    An [int name[CUDNN_DIM_MAX]] is a list of [CUDNN_DIM_MAX] entries.
    [fill_array init written] is such an array whose leading entries have
    been written and whose other entries still hold [init]: zero after a
    value-initialisation ([data{}]), an indeterminate value otherwise. *)

Definition fill_array (init : nat -> Z) (written : list Z) : list Z :=
  take CUDNN_DIM_MAX written
    ++ (init <$> seq (length written) (CUDNN_DIM_MAX - length written)).

Definition zero_init : nat -> Z := fun _ => 0.

(** [a[i]].  Every read of the source stays inside its array; a read past
    the entries of a list stands for a read of an entry that was
    value-initialised, and is 0. *)
Definition array_get (a : list Z) (i : nat) : Z := default 0 (a !! i).

Definition is_set {A} (o : option A) : bool :=
  match o with Some _ => true | None => false end.

Section DescriptorBuilder.
Context {P : Platform}.
Local Open Scope outcome_scope.

Definition GetStatus (st : cudnnStatus_t) : Status :=
  if decide (st = CUDNN_STATUS_SUCCESS) then OkStatus
  else ErrorStatus ("cuDNN error '" +:+ cudnnGetErrorString st +:+ "'").

(** *** Tensor descriptors *)

(** The overload without arguments. *)
Definition CreateEmptyTensorDescriptor : outcome TensorDescriptor :=
  CHECK_OK_STATUS (GetStatus cudnnCreateTensorDescriptor) ;;;
  Returned {| tensor_contents := None |}.

(** [cudnnSetTensorNdDescriptor] reads [rank] entries of each array and,
    when it reports success, stores what it has read. *)
Definition cudnnSetTensorNdDescriptor (desc : TensorDescriptor)
    (data_type : cudnnDataType_t) (rank : Z) (dims strides : list Z)
    : cudnnStatus_t * TensorDescriptor :=
  let dims := take (Z.to_nat rank) dims in
  let strides := take (Z.to_nat rank) strides in
  let st := cudnnSetTensorNdDescriptor_status data_type rank dims strides in
  (st,
   if decide (st = CUDNN_STATUS_SUCCESS)
   then {| tensor_contents := Some {| tensor_data_type := data_type;
                                      tensor_rank := rank;
                                      tensor_dimensions := dims;
                                      tensor_strides := strides |} |}
   else desc).

(** [cudnnSetTensor4dDescriptor] stores a rank-4 tensor whose strides it
    derives from the format. *)
Definition cudnnSetTensor4dDescriptor (desc : TensorDescriptor)
    (format : cudnnTensorFormat_t) (data_type : cudnnDataType_t)
    (n c h w : Z) : cudnnStatus_t * TensorDescriptor :=
  let st := cudnnSetTensor4dDescriptor_status format data_type n c h w in
  (st,
   if decide (st = CUDNN_STATUS_SUCCESS)
   then {| tensor_contents :=
             Some {| tensor_data_type := data_type;
                     tensor_rank := 4;
                     tensor_dimensions := [n; c; h; w];
                     tensor_strides :=
                       cudnnSetTensor4dDescriptor_strides format n c h w |} |}
   else desc).

(** Returns the strides for a fully packed tensor.
<<
for (int i = rank - 1, stride = 1; i >= 0; --i) {
  result[i] = stride;
  stride *= dims[i];
}
>>
    The first argument of the loop is [i + 1]. *)
Fixpoint GetFullyPackedStrides_loop (n : nat) (stride : Z) (dims : list Z)
    (result : list Z) : list Z :=
  match n with
  | O => result
  | S i =>
      GetFullyPackedStrides_loop i (int_mul stride (array_get dims i)) dims
        (<[i := stride]> result)
  end.

Definition GetFullyPackedStrides (dims : list Z) (rank : Z) : list Z :=
  GetFullyPackedStrides_loop (Z.to_nat rank) 1 dims
    (fill_array indeterminate_int []).

(** [CreateTensorDescriptor(proto::TensorDescriptor)], lines 138-163:
    explicit strides, or the 4-D setter with the format, or fully packed
    strides for the other ranks. *)
Definition CreateTensorDescriptor (proto : proto_TensorDescriptor)
    : outcome TensorDescriptor :=
  CHECK (is_set (td_data_type_oneof proto))
    "Check failed: proto.data_type_oneof_case() == proto::TensorDescriptor::kDataType" ;;;
  CHECK (bool_decide ((td_stride_size proto =? 0) = is_set (td_format_oneof proto)))
    "Check failed: !proto.stride_size() == (proto.format_oneof_case() == proto::TensorDescriptor::kFormat)" ;;;
  let rank := td_dimension_size proto in
  let data_type := td_data_type proto in
  result <- CreateEmptyTensorDescriptor ;;
  if negb (td_stride_size proto =? 0) then
    CHECK (rank =? td_stride_size proto)
      "Check failed: rank == proto.stride_size()" ;;;
    let '(st, result) :=
      cudnnSetTensorNdDescriptor result data_type rank
        (td_dimension proto) (td_stride proto) in
    CHECK_OK_STATUS (GetStatus st) ;;;
    Returned result
  else if rank =? 4 then
    let '(st, result) :=
      cudnnSetTensor4dDescriptor result (td_format proto) data_type
        (array_get (td_dimension proto) 0) (array_get (td_dimension proto) 1)
        (array_get (td_dimension proto) 2) (array_get (td_dimension proto) 3) in
    CHECK_OK_STATUS (GetStatus st) ;;;
    Returned result
  else
    CHECK (bool_decide (td_format proto = CUDNN_TENSOR_NCHW))
      "Check failed: proto.format() == proto::TENSOR_NCHW" ;;;
    let strides := GetFullyPackedStrides (td_dimension proto) rank in
    let '(st, result) :=
      cudnnSetTensorNdDescriptor result data_type rank
        (td_dimension proto) strides in
    CHECK_OK_STATUS (GetStatus st) ;;;
    Returned result.

(** [cudnnGetTensorNdDescriptor(tensor, CUDNN_DIM_MAX, ...)] into a
    [TensorDescriptorData] that was not initialised. *)
Definition GetTensorDescriptorData (tensor : TensorDescriptor)
    : outcome TensorDescriptorData :=
  match tensor_contents tensor with
  | Some stored =>
      Returned {| tensor_data_type := tensor_data_type stored;
                  tensor_rank := tensor_rank stored;
                  tensor_dimensions :=
                    fill_array indeterminate_int (tensor_dimensions stored);
                  tensor_strides :=
                    fill_array indeterminate_int (tensor_strides stored) |}
  | None => Aborted "cuDNN error: tensor descriptor was never set"
  end.

Fixpoint GetTensorNumElements_loop (n i : nat) (data : TensorDescriptorData)
    (result : Z) : Z :=
  match n with
  | O => result
  | S n' =>
      GetTensorNumElements_loop n' (S i) data
        (size_t_add result
           (size_t_mul
              (to_size_t (int_sub (array_get (tensor_dimensions data) i) 1))
              (to_size_t (array_get (tensor_strides data) i))))
  end.

(** [GetTensorNumElements], lines 197-204:
    [result += static_cast<size_t>(data.dimensions[i] - 1) * data.strides[i]]
    from [result = 1]. *)
Definition GetTensorNumElements (tensor : TensorDescriptor) : outcome Z :=
  data <- GetTensorDescriptorData tensor ;;
  Returned (GetTensorNumElements_loop (Z.to_nat (tensor_rank data)) 0 data 1).

Definition GetTensorDataType (tensor : TensorDescriptor)
    : outcome cudnnDataType_t :=
  data <- GetTensorDescriptorData tensor ;;
  Returned (tensor_data_type data).

Definition CreateDeviceDataHelper (data_type : cudnnDataType_t)
    (num_elements : Z) (lower upper : c_double) (rand_gen : RandomGenerator)
    : outcome (StatusOr DeviceMemory) :=
  match data_type with
  | CUDNN_DATA_FLOAT =>
      Returned (CreateDeviceData CUDNN_DATA_FLOAT num_elements lower upper rand_gen)
  | CUDNN_DATA_DOUBLE =>
      Returned (CreateDeviceData CUDNN_DATA_DOUBLE num_elements lower upper rand_gen)
  | CUDNN_DATA_HALF =>
      Returned (CreateDeviceData CUDNN_DATA_HALF num_elements lower upper rand_gen)
  | _ => Aborted "Not yet supported"
  end.

Definition CreateTensorData (tensor : TensorDescriptor)
    (lower upper : c_double) (rand_gen : RandomGenerator)
    : outcome (StatusOr DeviceMemory) :=
  data_type <- GetTensorDataType tensor ;;
  num_elements <- GetTensorNumElements tensor ;;
  CreateDeviceDataHelper data_type num_elements lower upper rand_gen.

(** *** Filter descriptors *)

Definition CreateEmptyFilterDescriptor : outcome FilterDescriptor :=
  CHECK_OK_STATUS (GetStatus cudnnCreateFilterDescriptor) ;;;
  Returned {| filter_contents := None |}.

Definition cudnnSetFilterNdDescriptor (desc : FilterDescriptor)
    (data_type : cudnnDataType_t) (format : cudnnTensorFormat_t)
    (rank : Z) (dims : list Z) : cudnnStatus_t * FilterDescriptor :=
  let dims := take (Z.to_nat rank) dims in
  let st := cudnnSetFilterNdDescriptor_status data_type format rank dims in
  (st,
   if decide (st = CUDNN_STATUS_SUCCESS)
   then {| filter_contents := Some {| filter_data_type := data_type;
                                      filter_format := format;
                                      filter_rank := rank;
                                      filter_dimensions := dims |} |}
   else desc).

(** [CreateFilterDescriptor(const proto::FilterDescriptor&)], lines
    250-260. *)
Definition CreateFilterDescriptor (proto : proto_FilterDescriptor)
    : outcome FilterDescriptor :=
  CHECK (is_set (fd_data_type_oneof proto))
    "Check failed: proto.data_type_oneof_case() == proto::FilterDescriptor::kDataType" ;;;
  CHECK (is_set (fd_format_oneof proto))
    "Check failed: proto.format_oneof_case() == proto::FilterDescriptor::kFormat" ;;;
  let rank := Z.of_nat (length (fd_dimension proto)) in
  result <- CreateEmptyFilterDescriptor ;;
  let '(st, result) :=
    cudnnSetFilterNdDescriptor result (fd_data_type proto) (fd_format proto)
      rank (fd_dimension proto) in
  CHECK_OK_STATUS (GetStatus st) ;;;
  Returned result.

(** [cudnnGetFilterNdDescriptor(filter, CUDNN_DIM_MAX, ...)] into a
    value-initialised [FilterDescriptorData data{}]. *)
Definition GetFilterDescriptorData (filter : FilterDescriptor)
    : outcome FilterDescriptorData :=
  match filter_contents filter with
  | Some stored =>
      Returned {| filter_data_type := filter_data_type stored;
                  filter_format := filter_format stored;
                  filter_rank := filter_rank stored;
                  filter_dimensions :=
                    fill_array zero_init (filter_dimensions stored) |}
  | None => Aborted "cuDNN error: filter descriptor was never set"
  end.

Fixpoint GetFilterNumElements_loop (n i : nat) (data : FilterDescriptorData)
    (result : Z) : Z :=
  match n with
  | O => result
  | S n' =>
      GetFilterNumElements_loop n' (S i) data
        (size_t_mul result (to_size_t (array_get (filter_dimensions data) i)))
  end.

(** [GetFilterNumElements], lines 293-300:
    [result *= data.dimensions[i]] from [result = 1]. *)
Definition GetFilterNumElements (filter : FilterDescriptor) : outcome Z :=
  data <- GetFilterDescriptorData filter ;;
  Returned (GetFilterNumElements_loop (Z.to_nat (filter_rank data)) 0 data 1).

Definition GetFilterDataType (filter : FilterDescriptor)
    : outcome cudnnDataType_t :=
  data <- GetFilterDescriptorData filter ;;
  Returned (filter_data_type data).

Definition CreateFilterData (filter : FilterDescriptor)
    (lower upper : c_double) (rand_gen : RandomGenerator)
    : outcome (StatusOr DeviceMemory) :=
  data_type <- GetFilterDataType filter ;;
  num_elements <- GetFilterNumElements filter ;;
  CreateDeviceDataHelper data_type num_elements lower upper rand_gen.

(** *** Convolution descriptors *)

Definition CreateEmptyConvolutionDescriptor : outcome ConvolutionDescriptor :=
  CHECK_OK_STATUS (GetStatus cudnnCreateConvolutionDescriptor) ;;;
  Returned {| convolution_contents := None;
              convolution_math_type :=
                cudnnCreateConvolutionDescriptor_math_type;
              convolution_group_count :=
                cudnnCreateConvolutionDescriptor_group_count |}.

Definition cudnnSetConvolutionNdDescriptor (desc : ConvolutionDescriptor)
    (rank : Z) (pad stride dilation : list Z)
    (mode : cudnnConvolutionMode_t) (compute_type : cudnnDataType_t)
    : cudnnStatus_t * ConvolutionDescriptor :=
  let pad := take (Z.to_nat rank) pad in
  let stride := take (Z.to_nat rank) stride in
  let dilation := take (Z.to_nat rank) dilation in
  let st :=
    cudnnSetConvolutionNdDescriptor_status rank pad stride dilation mode
      compute_type in
  (st,
   if decide (st = CUDNN_STATUS_SUCCESS)
   then {| convolution_contents :=
             Some {| nd_rank := rank;
                     nd_pad := pad;
                     nd_stride := stride;
                     nd_dilation := dilation;
                     nd_mode := mode;
                     nd_compute_type := compute_type |};
           convolution_math_type := convolution_math_type desc;
           convolution_group_count := convolution_group_count desc |}
   else desc).

Definition cudnnSetConvolutionGroupCount (desc : ConvolutionDescriptor)
    (group_count : Z) : cudnnStatus_t * ConvolutionDescriptor :=
  let st := cudnnSetConvolutionGroupCount_status group_count in
  (st,
   if decide (st = CUDNN_STATUS_SUCCESS)
   then {| convolution_contents := convolution_contents desc;
           convolution_math_type := convolution_math_type desc;
           convolution_group_count := group_count |}
   else desc).

Definition cudnnSetConvolutionMathType (desc : ConvolutionDescriptor)
    (math_type : cudnnMathType_t) : cudnnStatus_t * ConvolutionDescriptor :=
  let st := cudnnSetConvolutionMathType_status math_type in
  (st,
   if decide (st = CUDNN_STATUS_SUCCESS)
   then {| convolution_contents := convolution_contents desc;
           convolution_math_type := math_type;
           convolution_group_count := convolution_group_count desc |}
   else desc).

(** [while (proto.x_size() < rank) proto.add_x(value);] *)
Definition pad_to (rank : Z) (value : Z) (l : list Z) : list Z :=
  l ++ replicate (Z.to_nat rank - length l) value.

(** [CreateConvolutionDescriptor(proto::ConvolutionDescriptor)], lines
    353-383, for cuDNN 7 and later (the group count and the math type are
    the library's own entry points). *)
Definition CreateConvolutionDescriptor (proto : proto_ConvolutionDescriptor)
    : outcome ConvolutionDescriptor :=
  CHECK (is_set (cd_compute_mode_oneof proto))
    "Check failed: proto.compute_mode_oneof_case() == proto::ConvolutionDescriptor::kComputeMode" ;;;
  let rank :=
    Z.max (Z.of_nat (length (cd_pad proto)))
      (Z.max (Z.of_nat (length (cd_filter_stride proto)))
             (Z.of_nat (length (cd_dilation proto)))) in
  let pad := pad_to rank 0 (cd_pad proto) in
  let filter_stride := pad_to rank 1 (cd_filter_stride proto) in
  let dilation := pad_to rank 1 (cd_dilation proto) in
  result <- CreateEmptyConvolutionDescriptor ;;
  let '(st, result) :=
    cudnnSetConvolutionNdDescriptor result rank pad filter_stride dilation
      (cd_mode proto) (cd_compute_mode proto) in
  CHECK_OK_STATUS (GetStatus st) ;;;
  result <-
    (if 0 <? cd_group_count proto then
       let '(st, result) :=
         cudnnSetConvolutionGroupCount result (cd_group_count proto) in
       CHECK_OK_STATUS (GetStatus st) ;;;
       Returned result
     else Returned result) ;;
  let '(st, result) := cudnnSetConvolutionMathType result (cd_math_type proto) in
  CHECK_OK_STATUS (GetStatus st) ;;;
  Returned result.

(** [cudnnGetConvolutionNdDescriptor(convolution, 6, ...)] into a
    value-initialised [ConvolutionDescriptorData data{}], followed by
    the math-type and group-count queries. *)
Definition GetConvolutionDescriptorData (convolution : ConvolutionDescriptor)
    : outcome ConvolutionDescriptorData :=
  let array_length := 6%nat in
  match convolution_contents convolution with
  | Some stored =>
      Returned {| conv_rank := nd_rank stored;
                  conv_pad := fill_array zero_init (take array_length (nd_pad stored));
                  conv_stride := fill_array zero_init (take array_length (nd_stride stored));
                  conv_dilation := fill_array zero_init (take array_length (nd_dilation stored));
                  conv_convolution_mode := nd_mode stored;
                  conv_compute_type := nd_compute_type stored;
                  conv_math_type := convolution_math_type convolution;
                  conv_group_count := convolution_group_count convolution |}
  | None => Aborted "cuDNN error: convolution descriptor was never set"
  end.

(** *** Output descriptor *)

Definition all_ones (conv_rank : Z) (param : list Z) : bool :=
  forallb (fun value => value =? 1) (take (Z.to_nat conv_rank) param).

(** [input_data.dimensions[i] + 2 * conv_data.pad[i - 2]
     - filter_data.dimensions[i] + 1] *)
Definition output_axis (input_data : TensorDescriptorData)
    (filter_data : FilterDescriptorData)
    (conv_data : ConvolutionDescriptorData) (i : nat) : Z :=
  int_add
    (int_sub
       (int_add (array_get (tensor_dimensions input_data) i)
                (int_mul 2 (array_get (conv_pad conv_data) (i - 2))))
       (array_get (filter_dimensions filter_data) i))
    1.

(** [for (int i = 2; i < input_data.rank; ++i)
       output_dimensions[i] = input_data.dimensions[i]
          + 2 * conv_data.pad[i - 2] - filter_data.dimensions[i] + 1;] *)
Fixpoint output_dimensions_loop (n i : nat)
    (input_data : TensorDescriptorData) (filter_data : FilterDescriptorData)
    (conv_data : ConvolutionDescriptorData) (output_dimensions : list Z)
    : list Z :=
  match n with
  | O => output_dimensions
  | S n' =>
      output_dimensions_loop n' (S i) input_data filter_data conv_data
        (<[i := output_axis input_data filter_data conv_data i]>
           output_dimensions)
  end.

(** The body of the non-4-D branch, after its checks. *)
Definition packed_output_dimensions (input_data : TensorDescriptorData)
    (filter_data : FilterDescriptorData)
    (conv_data : ConvolutionDescriptorData) : list Z :=
  output_dimensions_loop (Z.to_nat (tensor_rank input_data - 2)) 2
    input_data filter_data conv_data
    (fill_array zero_init
       [array_get (tensor_dimensions input_data) 0;
        array_get (filter_dimensions filter_data) 0]).

Definition RETURN_IF_ERROR_STATUS {A} (s : Status)
    (k : outcome (StatusOr A)) : outcome (StatusOr A) :=
  match s with
  | OkStatus => k
  | ErrorStatus msg => Returned (Failure msg)
  end.

(** [CreateOutputDescriptor(format, input, filter, convolution)], lines
    431-474: the engine's closed form for a 4-D input, and for the other
    ranks ("TODO: Support other formats, dilations, strides, group
    counts") the NCHW format with unit strides, dilations and group
    count only. *)
Definition CreateOutputDescriptor (format : cudnnTensorFormat_t)
    (input : TensorDescriptor) (filter : FilterDescriptor)
    (convolution : ConvolutionDescriptor)
    : outcome (StatusOr TensorDescriptor) :=
  input_data <- GetTensorDescriptorData input ;;
  output <- CreateEmptyTensorDescriptor ;;
  if tensor_rank input_data =? 4 then
    let '(st, (n, c, h, w)) :=
      cudnnGetConvolution2dForwardOutputDim convolution input filter in
    RETURN_IF_ERROR_STATUS (GetStatus st) (
      data_type <- GetTensorDataType input ;;
      let '(st, output) :=
        cudnnSetTensor4dDescriptor output format data_type n c h w in
      RETURN_IF_ERROR_STATUS (GetStatus st) (
        Returned (Value output)))
  else
    if negb (bool_decide (format = CUDNN_TENSOR_NCHW)) then
      Returned (Failure "Can only create NCHW for non-4D output descriptor.")
    else
      filter_data <- GetFilterDescriptorData filter ;;
      CHECK (bool_decide (filter_format filter_data = CUDNN_TENSOR_NCHW))
        "Check failed: filter_data.format == CUDNN_TENSOR_NCHW not supported" ;;;
      conv_data <- GetConvolutionDescriptorData convolution ;;
      CHECK (all_ones (conv_rank conv_data) (conv_dilation conv_data))
        "Check failed: all_ones(conv_data.dilation) == true not supported" ;;;
      CHECK (all_ones (conv_rank conv_data) (conv_stride conv_data))
        "Check failed: all_ones(conv_data.stride) == true not supported" ;;;
      CHECK (conv_group_count conv_data =? 1)
        "Check failed: conv_data.group_count == 1 not supported" ;;;
      let output_dimensions :=
        packed_output_dimensions input_data filter_data conv_data in
      let output_strides :=
        GetFullyPackedStrides output_dimensions (tensor_rank input_data) in
      let '(st, output) :=
        cudnnSetTensorNdDescriptor output (tensor_data_type input_data)
          (tensor_rank input_data) output_dimensions output_strides in
      RETURN_IF_ERROR_STATUS (GetStatus st) (
        Returned (Value output)).

(** The overload that takes the whole configuration. *)
Definition CreateOutputDescriptor_config (proto : proto_ConvolutionConfig)
    (input : TensorDescriptor) (filter : FilterDescriptor)
    (convolution : ConvolutionDescriptor)
    : outcome (StatusOr TensorDescriptor) :=
  match cfg_output proto with
  | Some output_proto =>
      result <- CreateTensorDescriptor output_proto ;;
      Returned (Value result)
  | None =>
      CreateOutputDescriptor (td_format (cfg_input proto)) input filter
        convolution
  end.

End DescriptorBuilder.

(** ** Memory budget *)

(** The process-wide state the budget is computed from: the file-scope
    variable [device_memory_limit_bytes], set once by the flag validator,
    and the allocator's ledger, read by [GetAllocatedDeviceMemoryBytes]. *)
Record DeviceState : Type := {
  device_memory_limit_bytes : Z;
  allocated_device_memory_bytes : Z;
}.

Definition GetAllocatedDeviceMemoryBytes (s : DeviceState) : Z :=
  allocated_device_memory_bytes s.

(** Modelled from the spec: the allocator of [cuda_util] is not part of
    the sources at hand.  "DeviceBuffer ... allocated against the Memory
    Budget Tracker's ledger": an allocation of [bytes] bytes adds [bytes]
    to what [bytesAllocated()] reports. *)
Definition allocate_bytes (bytes : Z) (s : DeviceState) : DeviceState :=
  {| device_memory_limit_bytes := device_memory_limit_bytes s;
     allocated_device_memory_bytes :=
       size_t_add (allocated_device_memory_bytes s) bytes |}.

(** [std::max(device_memory_limit_bytes, allocated) - allocated], lines
    486-489. *)
Definition GetAvailableDeviceMemoryBytes (s : DeviceState) : Z :=
  let allocated := GetAllocatedDeviceMemoryBytes s in
  size_t_sub (Z.max (device_memory_limit_bytes s) allocated) allocated.

(** [GetWorkspaceLimit], lines 523-536. *)
Definition GetWorkspaceLimit (proto : proto_ConvolutionConfig)
    (s : DeviceState) : StatusOr Z :=
  let available := GetAvailableDeviceMemoryBytes s in
  match cfg_workspace_oneof proto with
  | None => Value available
  | Some workspace_limit =>
      let limit := to_size_t workspace_limit in
      if available <? limit then
        Failure ("Workspace limit (" +:+ pretty limit
                 +:+ " bytes) is larger than available memory ("
                 +:+ pretty available +:+ " bytes)")
      else Value limit
  end.

(** ** Algorithm selection and execution *)

Section Algorithms.
Context {P : Platform}.

(** The calls into the platform made by the functions of this section,
    with the arguments the claims are about. *)
Inductive EngineCall : Type :=
  | GetWorkspaceSizeCall (algo : ConvolutionAlgo)
  | AllocateDeviceMemoryCall (bytes : Z)
  | FindAlgorithmCall (direction : ConvolutionDirection)
      (requested_algo_count : Z) (workspace : DeviceMemory)
      (workspace_bytes : Z)
  | ConvolutionCall (algo : ConvolutionAlgo)
      (alpha beta : ScalingFactor c_float c_double) (workspace_size : Z).

(** Code that calls the platform: it extends the log of calls, and may
    hit a fatal check. *)
Definition io (A : Type) : Type :=
  list EngineCall -> outcome A * list EngineCall.

Definition io_ret {A} (a : A) : io A := fun log => (Returned a, log).

Definition io_bind {A B} (m : io A) (k : A -> io B) : io B :=
  fun log =>
    match m log with
    | (Returned a, log') => k a log'
    | (Aborted msg, log') => (Aborted msg, log')
    end.

Definition io_call (c : EngineCall) : io unit :=
  fun log => (Returned tt, log ++ [c]).

Definition io_lift {A} (o : outcome A) : io A := fun log => (o, log).

Declare Scope io_scope.
Delimit Scope io_scope with io.
Notation "x <- m ;; k" := (io_bind m (fun x => k))
  (at level 100, m at next level, right associativity) : io_scope.
Notation "m ;;; k" := (io_bind m (fun _ => k))
  (at level 100, right associativity) : io_scope.
Local Open Scope io_scope.

(** [GetWorkspaceSize], lines 491-521: the visitor picks the query of
    the algorithm's direction and orders the descriptors for it. *)
Definition GetWorkspaceSize (input : TensorDescriptor)
    (filter : FilterDescriptor) (convolution : ConvolutionDescriptor)
    (output : TensorDescriptor) (algo : ConvolutionAlgo) : io (StatusOr Z) :=
  io_call (GetWorkspaceSizeCall algo) ;;;
  let '(st, workspace_size) :=
    match algo with
    | FwdAlgo algo =>
        cudnnGetConvolutionForwardWorkspaceSize
          input filter convolution output algo
    | BwdDataAlgo algo =>
        cudnnGetConvolutionBackwardDataWorkspaceSize
          filter output convolution input algo
    | BwdFilterAlgo algo =>
        cudnnGetConvolutionBackwardFilterWorkspaceSize
          input output convolution filter algo
    end in
  match GetStatus st with
  | ErrorStatus msg => io_ret (Failure msg)
  | OkStatus => io_ret (Value workspace_size)
  end.

(** [for (int i = 0; i < num_elements; ++i)]; the template parameter [T]
    is the constructor of the variant. *)
Fixpoint GetSupportedConvolutionAlgosImpl_loop (n : nat) (i : Z)
    (T : Z -> ConvolutionAlgo)
    (input : TensorDescriptor) (filter : FilterDescriptor)
    (convolution : ConvolutionDescriptor) (output : TensorDescriptor)
    (workspace_limit : Z) (result : list ConvolutionAlgo)
    : io (list ConvolutionAlgo) :=
  match n with
  | O => io_ret result
  | S n' =>
      let algo := T i in
      size_or <- GetWorkspaceSize input filter convolution output algo ;;
      let result :=
        match size_or with
        | Value size =>
            if size <=? workspace_limit then result ++ [algo] else result
        | Failure _ => result
        end in
      GetSupportedConvolutionAlgosImpl_loop n' (int_add i 1) T
        input filter convolution output workspace_limit result
  end.

Definition GetSupportedConvolutionAlgosImpl (T : Z -> ConvolutionAlgo)
    (input : TensorDescriptor) (filter : FilterDescriptor)
    (convolution : ConvolutionDescriptor) (output : TensorDescriptor)
    (workspace_limit : Z) (num_elements : Z) : io (list ConvolutionAlgo) :=
  GetSupportedConvolutionAlgosImpl_loop (Z.to_nat num_elements) 0 T
    input filter convolution output workspace_limit [].

(** [GetSupportedConvolutionAlgos], lines 559-580. *)
Definition GetSupportedConvolutionAlgos (direction : ConvolutionDirection)
    (input : TensorDescriptor) (filter : FilterDescriptor)
    (convolution : ConvolutionDescriptor) (output : TensorDescriptor)
    (workspace_limit : Z) : io (list ConvolutionAlgo) :=
  match direction with
  | CONVOLUTION_FWD =>
      GetSupportedConvolutionAlgosImpl FwdAlgo
        input filter convolution output workspace_limit
        CUDNN_CONVOLUTION_FWD_ALGO_COUNT
  | CONVOLUTION_BWD_DATA =>
      GetSupportedConvolutionAlgosImpl BwdDataAlgo
        input filter convolution output workspace_limit
        CUDNN_CONVOLUTION_BWD_DATA_ALGO_COUNT
  | CONVOLUTION_BWD_FILTER =>
      GetSupportedConvolutionAlgosImpl BwdFilterAlgo
        input filter convolution output workspace_limit
        CUDNN_CONVOLUTION_BWD_FILTER_ALGO_COUNT
  end.

(** [ToConvolutionAlgo], lines 583-590. *)
Definition ToConvolutionAlgo (T : Z -> ConvolutionAlgo)
    (algo_perf : AlgoPerf) (num_algorithms : Z) : StatusOr ConvolutionAlgo :=
  if (num_algorithms =? 0)
     || negb (bool_decide (perf_status algo_perf = CUDNN_STATUS_SUCCESS))
  then Failure "No supported algorithm"
  else Value (T (perf_algo algo_perf)).

(** [FindConvolutionAlgo], lines 593-636.  The engine is asked for one
    result ([requestedAlgoCount = 1]) and writes the number of results
    and the result itself. *)
Definition FindConvolutionAlgo (direction : ConvolutionDirection)
    (input_desc : TensorDescriptor) (input_data : DeviceMemory)
    (filter_desc : FilterDescriptor) (filter_data : DeviceMemory)
    (convolution_desc : ConvolutionDescriptor)
    (output_desc : TensorDescriptor) (output_data : DeviceMemory)
    (workspace_limit : Z) : io (StatusOr ConvolutionAlgo) :=
  io_call (AllocateDeviceMemoryCall workspace_limit) ;;;
  match AllocateDeviceMemory workspace_limit with
  | Failure msg => io_ret (Failure msg)
  | Value workspace =>
      io_call (FindAlgorithmCall direction 1 workspace workspace_limit) ;;;
      match direction with
      | CONVOLUTION_FWD =>
          let '(st, num_algorithms, algo_perf) :=
            cudnnFindConvolutionForwardAlgorithmEx
              input_desc input_data filter_desc filter_data convolution_desc
              output_desc output_data 1 workspace workspace_limit in
          match GetStatus st with
          | ErrorStatus msg => io_ret (Failure msg)
          | OkStatus => io_ret (ToConvolutionAlgo FwdAlgo algo_perf num_algorithms)
          end
      | CONVOLUTION_BWD_DATA =>
          let '(st, num_algorithms, algo_perf) :=
            cudnnFindConvolutionBackwardDataAlgorithmEx
              filter_desc filter_data output_desc output_data convolution_desc
              input_desc input_data 1 workspace workspace_limit in
          match GetStatus st with
          | ErrorStatus msg => io_ret (Failure msg)
          | OkStatus => io_ret (ToConvolutionAlgo BwdDataAlgo algo_perf num_algorithms)
          end
      | CONVOLUTION_BWD_FILTER =>
          let '(st, num_algorithms, algo_perf) :=
            cudnnFindConvolutionBackwardFilterAlgorithmEx
              input_desc input_data output_desc output_data convolution_desc
              filter_desc filter_data 1 workspace workspace_limit in
          match GetStatus st with
          | ErrorStatus msg => io_ret (Failure msg)
          | OkStatus => io_ret (ToConvolutionAlgo BwdFilterAlgo algo_perf num_algorithms)
          end
      end
  end.

(** *** Scaling factors

    "The storage type is double for double output tensors, and float
    otherwise." *)
Definition ScalingFactor_of_data_type (value : c_double)
    (data_type : cudnnDataType_t) : ScalingFactor c_float c_double :=
  if decide (data_type = CUDNN_DATA_DOUBLE) then double_value value
  else float_value (static_cast_float value).

Definition ScalingFactor_of_tensor (value : c_double)
    (descriptor : TensorDescriptor) : outcome (ScalingFactor c_float c_double) :=
  outcome_bind (GetTensorDescriptorData descriptor) (fun data =>
    Returned (ScalingFactor_of_data_type value (tensor_data_type data))).

Definition ScalingFactor_of_filter (value : c_double)
    (descriptor : FilterDescriptor) : outcome (ScalingFactor c_float c_double) :=
  outcome_bind (GetFilterDescriptorData descriptor) (fun data =>
    Returned (ScalingFactor_of_data_type value (filter_data_type data))).

(** [RunConvolution], lines 803-863. *)
Definition RunConvolution (algo : ConvolutionAlgo) (alpha beta : c_double)
    (input_desc : TensorDescriptor) (input_data : DeviceMemory)
    (filter_desc : FilterDescriptor) (filter_data : DeviceMemory)
    (convolution_desc : ConvolutionDescriptor)
    (output_desc : TensorDescriptor) (output_data : DeviceMemory)
    (workspace : DeviceMemory) (workspace_size : Z) : io Status :=
  match algo with
  | FwdAlgo a =>
      alpha_scale <- io_lift (ScalingFactor_of_tensor alpha output_desc) ;;
      beta_scale <- io_lift (ScalingFactor_of_tensor beta output_desc) ;;
      io_call (ConvolutionCall algo alpha_scale beta_scale workspace_size) ;;;
      io_ret (GetStatus (cudnnConvolutionForward
        alpha_scale input_desc input_data filter_desc filter_data
        convolution_desc a workspace workspace_size
        beta_scale output_desc output_data))
  | BwdDataAlgo a =>
      alpha_scale <- io_lift (ScalingFactor_of_tensor alpha input_desc) ;;
      beta_scale <- io_lift (ScalingFactor_of_tensor beta input_desc) ;;
      io_call (ConvolutionCall algo alpha_scale beta_scale workspace_size) ;;;
      io_ret (GetStatus (cudnnConvolutionBackwardData
        alpha_scale filter_desc filter_data output_desc output_data
        convolution_desc a workspace workspace_size
        beta_scale input_desc input_data))
  | BwdFilterAlgo a =>
      alpha_scale <- io_lift (ScalingFactor_of_filter alpha filter_desc) ;;
      beta_scale <- io_lift (ScalingFactor_of_filter beta filter_desc) ;;
      io_call (ConvolutionCall algo alpha_scale beta_scale workspace_size) ;;;
      io_ret (GetStatus (cudnnConvolutionBackwardFilter
        alpha_scale input_desc input_data output_desc output_data
        convolution_desc a workspace workspace_size
        beta_scale filter_desc filter_data))
  end.

End Algorithms.

(** ** Vocabulary of the specification *)

Definition product (l : list Z) : Z := foldr Z.mul 1 l.

(** "each axis stride = product of all more-minor axis dimensions" *)
Fixpoint packed_strides (dims : list Z) : list Z :=
  match dims with
  | [] => []
  | _ :: minor => product minor :: packed_strides minor
  end.

(** "sums [(dim[i]-1)*stride[i]] across axes plus an initial 1": one more
    than the offset of the last addressable element. *)
Fixpoint span_sum (dims strides : list Z) : Z :=
  match dims, strides with
  | d :: dims, s :: strides => (d - 1) * s + span_sum dims strides
  | _, _ => 0
  end.

Definition address_span (dims strides : list Z) : Z := 1 + span_sum dims strides.





(** What cuDNN has stored for a tensor of this shape, and what the source
    relies on when it reads it back into arrays of [CUDNN_DIM_MAX]. *)
Definition tensor_well_formed (t : TensorDescriptorData) : Prop :=
  tensor_rank t = Z.of_nat (length (tensor_dimensions t)) /\
  length (tensor_strides t) = length (tensor_dimensions t) /\
  (length (tensor_dimensions t) <= CUDNN_DIM_MAX)%nat.

Definition filter_well_formed (f : FilterDescriptorData) : Prop :=
  filter_rank f = Z.of_nat (length (filter_dimensions f)) /\
  (length (filter_dimensions f) <= CUDNN_DIM_MAX)%nat.

(** "compute each spatial output dimension as [input + 2*pad - filter + 1]
    per axis"; axis 0 is the batch, axis 1 the filter's first dimension.
    A missing padding or filter entry counts as zero. *)
Definition output_shape (input_dims filter_dims pad : list Z) : list Z :=
  [array_get input_dims 0; array_get filter_dims 0]
    ++ ((fun i : nat =>
           array_get input_dims i + 2 * array_get pad (i - 2)
             - array_get filter_dims i + 1)
          <$> seq 2 (length input_dims - 2)).

(** The closed form that the cuDNN documentation gives for
    [cudnnGetConvolution2dForwardOutputDim]:
    [outputDim = 1 + (inputDim + 2*pad - (((filterDim-1)*dilation)+1)) / stride]
    for the two spatial axes, the batch of the input and the output
    feature maps of the filter for the first two. *)
Definition closed_form_axis (input pad filter dilation stride : Z) : Z :=
  1 + Z.quot (input + 2 * pad - ((filter - 1) * dilation + 1)) stride.

Definition closed_form_2d_output (input_dims filter_dims pad stride dilation : list Z)
    : Z * Z * Z * Z :=
  (array_get input_dims 0,
   array_get filter_dims 0,
   closed_form_axis (array_get input_dims 2) (array_get pad 0)
     (array_get filter_dims 2) (array_get dilation 0) (array_get stride 0),
   closed_form_axis (array_get input_dims 3) (array_get pad 1)
     (array_get filter_dims 3) (array_get dilation 1) (array_get stride 1)).

Definition platform_has_closed_form {P : Platform}
    (convolution : ConvolutionDescriptor) (input : TensorDescriptor)
    (filter : FilterDescriptor) : Prop :=
  exists c t f,
    convolution_contents convolution = Some c /\
    tensor_contents input = Some t /\
    filter_contents filter = Some f /\
    cudnnGetConvolution2dForwardOutputDim convolution input filter =
      (CUDNN_STATUS_SUCCESS,
       closed_form_2d_output (tensor_dimensions t) (filter_dimensions f)
         (nd_pad c) (nd_stride c) (nd_dilation c)).

Definition populated_tensor (d : TensorDescriptor) : Prop :=
  is_Some (tensor_contents d).
Definition populated_filter (d : FilterDescriptor) : Prop :=
  is_Some (filter_contents d).
Definition populated_convolution (d : ConvolutionDescriptor) : Prop :=
  is_Some (convolution_contents d).

(** "both strides and format given, or neither" *)
Definition malformed_tensor_config (p : proto_TensorDescriptor) : Prop :=
  (td_stride p <> [] /\ is_Some (td_format_oneof p)) \/
  (td_stride p = [] /\ td_format_oneof p = None).

Definition algo_value (a : ConvolutionAlgo) : Z :=
  match a with FwdAlgo v | BwdDataAlgo v | BwdFilterAlgo v => v end.

(** The enumeration a direction selects, and its size. *)
Definition algo_of (direction : ConvolutionDirection) : Z -> ConvolutionAlgo :=
  match direction with
  | CONVOLUTION_FWD => FwdAlgo
  | CONVOLUTION_BWD_DATA => BwdDataAlgo
  | CONVOLUTION_BWD_FILTER => BwdFilterAlgo
  end.

Definition algo_count (direction : ConvolutionDirection) : Z :=
  match direction with
  | CONVOLUTION_FWD => CUDNN_CONVOLUTION_FWD_ALGO_COUNT
  | CONVOLUTION_BWD_DATA => CUDNN_CONVOLUTION_BWD_DATA_ALGO_COUNT
  | CONVOLUTION_BWD_FILTER => CUDNN_CONVOLUTION_BWD_FILTER_ALGO_COUNT
  end.

(** What one workspace-cost query answers, and whether that answer puts
    the algorithm within the limit: "the query succeeds AND its cost <=
    workspaceLimit". *)
Definition workspace_cost {P : Platform} (input : TensorDescriptor)
    (filter : FilterDescriptor) (convolution : ConvolutionDescriptor)
    (output : TensorDescriptor) (algo : ConvolutionAlgo)
    : outcome (StatusOr Z) :=
  fst (GetWorkspaceSize input filter convolution output algo []).

Definition within_limit (workspace_limit : Z) (cost : outcome (StatusOr Z))
    : bool :=
  match cost with
  | Returned (Value size) => size <=? workspace_limit
  | _ => false
  end.

(** The search entry point a direction selects, with the argument order
    of the source. *)
Definition engine_search {P : Platform} (direction : ConvolutionDirection)
    (input_desc : TensorDescriptor) (input_data : DeviceMemory)
    (filter_desc : FilterDescriptor) (filter_data : DeviceMemory)
    (convolution_desc : ConvolutionDescriptor)
    (output_desc : TensorDescriptor) (output_data : DeviceMemory)
    (requested_algo_count : Z) (workspace : DeviceMemory) (workspace_bytes : Z)
    : cudnnStatus_t * Z * AlgoPerf :=
  match direction with
  | CONVOLUTION_FWD =>
      cudnnFindConvolutionForwardAlgorithmEx
        input_desc input_data filter_desc filter_data convolution_desc
        output_desc output_data requested_algo_count workspace workspace_bytes
  | CONVOLUTION_BWD_DATA =>
      cudnnFindConvolutionBackwardDataAlgorithmEx
        filter_desc filter_data output_desc output_data convolution_desc
        input_desc input_data requested_algo_count workspace workspace_bytes
  | CONVOLUTION_BWD_FILTER =>
      cudnnFindConvolutionBackwardFilterAlgorithmEx
        input_desc input_data output_desc output_data convolution_desc
        filter_desc filter_data requested_algo_count workspace workspace_bytes
  end.

(** "forward uses the output descriptor's kind, backward-data uses the
    input descriptor's kind, backward-filter uses the filter descriptor's
    kind" *)
Definition relevant_data_type (algo : ConvolutionAlgo)
    (input_desc : TensorDescriptor) (filter_desc : FilterDescriptor)
    (output_desc : TensorDescriptor) : option cudnnDataType_t :=
  match algo with
  | FwdAlgo _ => tensor_data_type <$> tensor_contents output_desc
  | BwdDataAlgo _ => tensor_data_type <$> tensor_contents input_desc
  | BwdFilterAlgo _ => filter_data_type <$> filter_contents filter_desc
  end.

(** The packed-stride law read for every rank: "for a tensor built
    without explicit strides, for all axes [i],
    [stride[i] == product(dimensions[i+1:])]". *)
Definition packed_stride_law_at_any_rank : Prop :=
  forall (P : Platform) (proto : proto_TensorDescriptor)
         (desc : TensorDescriptor) (data : TensorDescriptorData),
    td_stride proto = [] ->
    Forall (fun d => 0 < d) (td_dimension proto) ->
    CreateTensorDescriptor proto = Returned desc ->
    tensor_contents desc = Some data ->
    forall i : nat,
      (i < length (td_dimension proto))%nat ->
      tensor_strides data !! i
        = Some (product (drop (S i) (td_dimension proto))).

(** What cuDNN has stored for a convolution: one padding, stride and
    dilation per spatial axis, for at most six axes (the source reads
    them back with [array_length = 6]). *)
Definition convolution_well_formed (c : ConvolutionNdContents) : Prop :=
  nd_rank c = Z.of_nat (length (nd_pad c)) /\
  length (nd_stride c) = length (nd_pad c) /\
  length (nd_dilation c) = length (nd_pad c) /\
  (length (nd_pad c) <= 6)%nat.

(** The entries [i .. i+n-1] of an array, as a loop over them reads
    them. *)
Definition axis_values (a : list Z) (i n : nat) : list Z :=
  array_get a <$> seq i n.

(** ** A model platform

    A platform on which the functions above can be run.  It follows the
    cuDNN documentation where an example depends on it: the strides of
    the 4-D setter per format, the 2-D output-shape closed form, and the
    refusal of non-positive dimensions.  Scaling factors are integers
    here, and status 3 is CUDNN_STATUS_BAD_PARAM, 9 is
    CUDNN_STATUS_NOT_SUPPORTED. *)

Definition model_error_string (st : cudnnStatus_t) : string :=
  if st =? 0 then "CUDNN_STATUS_SUCCESS"
  else if st =? 3 then "CUDNN_STATUS_BAD_PARAM"
  else if st =? 9 then "CUDNN_STATUS_NOT_SUPPORTED"
  else "CUDNN_UNKNOWN_STATUS".

Definition model_nd_status (rank : Z) (dims strides : list Z) : cudnnStatus_t :=
  if negb (forallb (fun v => 0 <? v) dims && forallb (fun v => 0 <? v) strides)
  then 3
  else if (rank <? 3) || (Z.of_nat CUDNN_DIM_MAX <? rank)
          || (INT_MAX <? product dims)
  then 9
  else 0.

Definition model_4d_strides (format : cudnnTensorFormat_t) (n c h w : Z)
    : list Z :=
  match format with
  | CUDNN_TENSOR_NHWC => [h * w * c; 1; w * c; c]
  | _ => [c * h * w; h * w; w; 1]
  end.

Definition model_output_dim (convolution : ConvolutionDescriptor)
    (input : TensorDescriptor) (filter : FilterDescriptor)
    : cudnnStatus_t * (Z * Z * Z * Z) :=
  match convolution_contents convolution, tensor_contents input,
        filter_contents filter with
  | Some c, Some t, Some f =>
      (0, closed_form_2d_output (tensor_dimensions t) (filter_dimensions f)
            (nd_pad c) (nd_stride c) (nd_dilation c))
  | _, _, _ => (3, (0, 0, 0, 0))
  end.

(** Algorithm 3 of every direction is not supported; algorithm [a] needs
    [a] KiB of workspace. *)
Definition model_workspace_size (algo : Z) : cudnnStatus_t * Z :=
  if algo =? 3 then (9, 0) else (0, algo * 1024).

(** The search reports algorithm 1 when it is given at least 1 KiB of
    workspace, and no result otherwise. *)
Definition model_find (requested : Z) (workspace_bytes : Z)
    : cudnnStatus_t * Z * AlgoPerf :=
  if 1024 <=? workspace_bytes
  then (0, Z.min requested 1, {| perf_algo := 1; perf_status := 0 |})
  else (0, 0, {| perf_algo := 0; perf_status := 9 |}).

(** A device with 4 GiB of memory. *)
Definition model_allocate (bytes : Z) : StatusOr DeviceMemory :=
  if bytes <=? 2 ^ 32 then Value 4096
  else Failure "CUDA error 'out of memory'".

Definition model_platform : Platform := {|
  c_double := Z;
  c_float := Z;
  static_cast_float := fun value => value;
  indeterminate_int := fun _ => -858993460;
  cudnnGetErrorString := model_error_string;
  cudnnCreateTensorDescriptor := 0;
  cudnnCreateFilterDescriptor := 0;
  cudnnCreateConvolutionDescriptor := 0;
  cudnnCreateConvolutionDescriptor_math_type := CUDNN_DEFAULT_MATH;
  cudnnCreateConvolutionDescriptor_group_count := 1;
  cudnnSetTensorNdDescriptor_status := fun _ => model_nd_status;
  cudnnSetTensor4dDescriptor_status :=
    fun format _ n c h w => model_nd_status 4 [n; c; h; w] [1; 1; 1; 1];
  cudnnSetTensor4dDescriptor_strides := model_4d_strides;
  cudnnSetFilterNdDescriptor_status :=
    fun _ _ rank dims => model_nd_status rank dims [];
  cudnnSetConvolutionNdDescriptor_status :=
    fun rank pad stride dilation _ _ =>
      if forallb (fun v => 0 <=? v) pad && forallb (fun v => 0 <? v) stride
         && forallb (fun v => 0 <? v) dilation
      then 0 else 3;
  cudnnSetConvolutionGroupCount_status := fun _ => 0;
  cudnnSetConvolutionMathType_status := fun _ => 0;
  cudnnGetConvolution2dForwardOutputDim := model_output_dim;
  cudnnGetConvolutionForwardWorkspaceSize := fun _ _ _ _ => model_workspace_size;
  cudnnGetConvolutionBackwardDataWorkspaceSize := fun _ _ _ _ => model_workspace_size;
  cudnnGetConvolutionBackwardFilterWorkspaceSize := fun _ _ _ _ => model_workspace_size;
  cudnnFindConvolutionForwardAlgorithmEx :=
    fun _ _ _ _ _ _ _ requested _ bytes => model_find requested bytes;
  cudnnFindConvolutionBackwardDataAlgorithmEx :=
    fun _ _ _ _ _ _ _ requested _ bytes => model_find requested bytes;
  cudnnFindConvolutionBackwardFilterAlgorithmEx :=
    fun _ _ _ _ _ _ _ requested _ bytes => model_find requested bytes;
  cudnnConvolutionForward := fun _ _ _ _ _ _ _ _ _ _ _ _ => 0;
  cudnnConvolutionBackwardData := fun _ _ _ _ _ _ _ _ _ _ _ _ => 0;
  cudnnConvolutionBackwardFilter := fun _ _ _ _ _ _ _ _ _ _ _ _ => 0;
  AllocateDeviceMemory := model_allocate;
  RandomGenerator := unit;
  CreateDeviceData := fun _ _ _ _ _ => Value 8192;
|}.

(** Configurations used in the examples. *)

Definition float_4x4_input : proto_TensorDescriptor :=
  {| td_data_type_oneof := Some CUDNN_DATA_FLOAT;
     td_dimension := [1; 1; 4; 4];
     td_stride := [];
     td_format_oneof := Some CUDNN_TENSOR_NCHW |}.

Definition nhwc_input : proto_TensorDescriptor :=
  {| td_data_type_oneof := Some CUDNN_DATA_FLOAT;
     td_dimension := [1; 2; 3; 4];
     td_stride := [];
     td_format_oneof := Some CUDNN_TENSOR_NHWC |}.

Definition volume_input : proto_TensorDescriptor :=
  {| td_data_type_oneof := Some CUDNN_DATA_DOUBLE;
     td_dimension := [2; 3; 5; 6; 7];
     td_stride := [];
     td_format_oneof := Some CUDNN_TENSOR_NCHW |}.

Definition strides_and_format : proto_TensorDescriptor :=
  {| td_data_type_oneof := Some CUDNN_DATA_FLOAT;
     td_dimension := [1; 1; 4; 4];
     td_stride := [16; 16; 4; 1];
     td_format_oneof := Some CUDNN_TENSOR_NCHW |}.

Definition neither_strides_nor_format : proto_TensorDescriptor :=
  {| td_data_type_oneof := Some CUDNN_DATA_FLOAT;
     td_dimension := [1; 1; 4; 4];
     td_stride := [];
     td_format_oneof := None |}.

Definition volume_filter : proto_FilterDescriptor :=
  {| fd_data_type_oneof := Some CUDNN_DATA_DOUBLE;
     fd_format_oneof := Some CUDNN_TENSOR_NCHW;
     fd_dimension := [4; 3; 3; 3; 3] |}.

Definition volume_convolution : proto_ConvolutionDescriptor :=
  {| cd_pad := [1; 0; 2];
     cd_filter_stride := [];
     cd_dilation := [];
     cd_mode := CUDNN_CONVOLUTION;
     cd_compute_mode_oneof := Some CUDNN_DATA_DOUBLE;
     cd_group_count := 0;
     cd_math_type := CUDNN_DEFAULT_MATH |}.

(** Descriptors used in the examples. *)

Definition float_4x4_tensor : TensorDescriptor :=
  {| tensor_contents :=
       Some {| tensor_data_type := CUDNN_DATA_FLOAT;
               tensor_rank := 4;
               tensor_dimensions := [1; 1; 4; 4];
               tensor_strides := [16; 16; 4; 1] |} |}.

Definition double_2x2_tensor : TensorDescriptor :=
  {| tensor_contents :=
       Some {| tensor_data_type := CUDNN_DATA_DOUBLE;
               tensor_rank := 4;
               tensor_dimensions := [1; 1; 2; 2];
               tensor_strides := [4; 4; 2; 1] |} |}.

Definition half_3x3_filter : FilterDescriptor :=
  {| filter_contents :=
       Some {| filter_data_type := CUDNN_DATA_HALF;
               filter_format := CUDNN_TENSOR_NCHW;
               filter_rank := 4;
               filter_dimensions := [1; 1; 3; 3] |} |}.

Definition plain_2d_convolution : ConvolutionDescriptor :=
  {| convolution_contents :=
       Some {| nd_rank := 2;
               nd_pad := [0; 0];
               nd_stride := [1; 1];
               nd_dilation := [1; 1];
               nd_mode := CUDNN_CONVOLUTION;
               nd_compute_type := CUDNN_DATA_FLOAT |};
     convolution_math_type := CUDNN_DEFAULT_MATH;
     convolution_group_count := 1 |}.

(** Every second element of every second row of every second plane. *)
Definition strided_tensor : TensorDescriptor :=
  {| tensor_contents :=
       Some {| tensor_data_type := CUDNN_DATA_FLOAT;
               tensor_rank := 3;
               tensor_dimensions := [2; 3; 4];
               tensor_strides := [24; 8; 2] |} |}.

(** What the builders make of [volume_input], [volume_filter] and
    [volume_convolution] on the model platform. *)
Definition volume_tensor_data : TensorDescriptorData :=
  {| tensor_data_type := CUDNN_DATA_DOUBLE;
     tensor_rank := 5;
     tensor_dimensions := [2; 3; 5; 6; 7];
     tensor_strides := [630; 210; 42; 7; 1] |}.

Definition volume_filter_data : FilterDescriptorData :=
  {| filter_data_type := CUDNN_DATA_DOUBLE;
     filter_format := CUDNN_TENSOR_NCHW;
     filter_rank := 5;
     filter_dimensions := [4; 3; 3; 3; 3] |}.

Definition volume_convolution_contents : ConvolutionNdContents :=
  {| nd_rank := 3;
     nd_pad := [1; 0; 2];
     nd_stride := [1; 1; 1];
     nd_dilation := [1; 1; 1];
     nd_mode := CUDNN_CONVOLUTION;
     nd_compute_type := CUDNN_DATA_DOUBLE |}.

Definition volume_tensor : TensorDescriptor :=
  {| tensor_contents := Some volume_tensor_data |}.

Definition volume_filter_descriptor : FilterDescriptor :=
  {| filter_contents := Some volume_filter_data |}.

Definition volume_convolution_descriptor : ConvolutionDescriptor :=
  {| convolution_contents := Some volume_convolution_contents;
     convolution_math_type := CUDNN_DEFAULT_MATH;
     convolution_group_count := 1 |}.

(** ** Structural equality of descriptors *)

Global Instance cudnnConvolutionMode_eq_dec : EqDecision cudnnConvolutionMode_t.
Proof. solve_decision. Defined.

(** [std::equal(left, left + n, right)] on two arrays. *)
Definition std_equal (n : Z) (left right : list Z) : bool :=
  forallb (fun i => array_get left i =? array_get right i)
    (seq 0 (Z.to_nat n)).

(** [operator==(const TensorDescriptorData&, const TensorDescriptorData&)],
    lines 173-179. *)
Definition TensorDescriptorData_eq (left right : TensorDescriptorData) : bool :=
  bool_decide (tensor_data_type left = tensor_data_type right)
  && (tensor_rank left =? tensor_rank right)
  && std_equal (tensor_rank left) (tensor_dimensions left)
       (tensor_dimensions right)
  && std_equal (tensor_rank left) (tensor_strides left) (tensor_strides right).

(** [TensorDescriptorEqual], lines 191-195. *)
Definition TensorDescriptorEqual {P : Platform}
    (left right : TensorDescriptor) : outcome bool :=
  outcome_bind (GetTensorDescriptorData left) (fun l =>
  outcome_bind (GetTensorDescriptorData right) (fun r =>
  Returned (TensorDescriptorData_eq l r))).

(** [operator==(const FilterDescriptorData&, const FilterDescriptorData&)],
    lines 270-276. *)
Definition FilterDescriptorData_eq (left right : FilterDescriptorData) : bool :=
  bool_decide (filter_data_type left = filter_data_type right)
  && bool_decide (filter_format left = filter_format right)
  && (filter_rank left =? filter_rank right)
  && std_equal (filter_rank left) (filter_dimensions left)
       (filter_dimensions right).

(** [FilterDescriptorEqual], lines 287-291. *)
Definition FilterDescriptorEqual (left right : FilterDescriptor) : outcome bool :=
  outcome_bind (GetFilterDescriptorData left) (fun l =>
  outcome_bind (GetFilterDescriptorData right) (fun r =>
  Returned (FilterDescriptorData_eq l r))).

(** [operator==(const ConvolutionDescriptorData&, ...)], lines 398-405:
    the math type and the group count are read but not compared. *)
Definition ConvolutionDescriptorData_eq
    (left right : ConvolutionDescriptorData) : bool :=
  bool_decide (conv_convolution_mode left = conv_convolution_mode right)
  && bool_decide (conv_compute_type left = conv_compute_type right)
  && (conv_rank left =? conv_rank right)
  && std_equal (conv_rank left) (conv_pad left) (conv_pad right)
  && std_equal (conv_rank left) (conv_stride left) (conv_stride right)
  && std_equal (conv_rank left) (conv_dilation left) (conv_dilation right).

(** [ConvolutionDescriptorEqual], lines 425-429. *)
Definition ConvolutionDescriptorEqual
    (left right : ConvolutionDescriptor) : outcome bool :=
  outcome_bind (GetConvolutionDescriptorData left) (fun l =>
  outcome_bind (GetConvolutionDescriptorData right) (fun r =>
  Returned (ConvolutionDescriptorData_eq l r))).

(** ** The device memory limit flag *)

(** A [ptrdiff_t] is a [Z] kept in the 64-bit signed range. *)
Definition wrap_ptrdiff_t (z : Z) : Z := (z + 2 ^ 63) mod 2 ^ 64 - 2 ^ 63.

(** The lambda [get_version_string] of the flag validator, lines 59-67:
<<
  oss << version / 1000;  version %= 1000;
  oss << "." << version / 100;  version %= 100;
  oss << "." << version;
>>
    on a [size_t], for which [/] and [%] are those of the naturals. *)
Definition get_version_string (version : Z) : string :=
  let major := version / 1000 in
  let version := version mod 1000 in
  let minor := version / 100 in
  let version := version mod 100 in
  pretty major +:+ "." +:+ pretty minor +:+ "." +:+ pretty version.

(** The CUDA runtime and the two version queries of cuDNN that the flag
    validator uses.  [GetStatus_cuda] is the overload of [GetStatus] for
    a [cudaError_t], of [cuda_util]. *)
Definition cudaError_t : Type := Z.

Class CudaRuntime : Type := {
  GetStatus_cuda : cudaError_t -> Status;
  cudaGetDeviceCount : cudaError_t * Z;
  cudaSetDevice : Z -> cudaError_t;
  cudaMemGetInfo : cudaError_t * Z * Z;
  cudaGetDeviceProperties_name : Z -> cudaError_t * string;
  cudnnGetVersion : Z;
  cudnnGetCudartVersion : Z;
}.

(** What the validator writes: the file-scope variable
    [device_memory_limit_bytes], its function-local [static bool result]
    (initialised by the first call that reaches it) and the INFO log. *)
Record ValidatorState : Type := {
  validator_limit_bytes : Z;
  validator_result_initialized : bool;
  validator_info_log : list string;
}.

(** [ValidateDeviceMemoryLimit], lines 36-74; [FLAGS_cuda_device] is its
    first argument here. *)
Definition ValidateDeviceMemoryLimit {C : CudaRuntime}
    (FLAGS_cuda_device : Z) (device_memory_limit_mb : Z)
    (st : ValidatorState) : outcome (bool * ValidatorState) :=
  (let device_id := FLAGS_cuda_device in
   let '(e, device_count) := cudaGetDeviceCount in
   CHECK_OK_STATUS (GetStatus_cuda e) ;;;
   CHECK (device_id <? device_count) "Check failed: device_id < device_count Invalid CUDA device" ;;;
   CHECK_OK_STATUS (GetStatus_cuda (cudaSetDevice device_id)) ;;;
   let '(e, free_bytes, total_bytes) := cudaMemGetInfo in
   CHECK_OK_STATUS (GetStatus_cuda e) ;;;
   let limit_bytes := wrap_ptrdiff_t (device_memory_limit_mb * 2 ^ 20) in
   CHECK (to_size_t (Z.abs limit_bytes) <=? free_bytes)
     "Check failed: free_bytes >= std::abs(limit_bytes) Available device memory is smaller than specified limit." ;;;
   let device_memory_limit_bytes :=
     if limit_bytes <? 0
     then size_t_add free_bytes (to_size_t limit_bytes)
     else to_size_t limit_bytes in
   if validator_result_initialized st then
     Returned (true,
               {| validator_limit_bytes := device_memory_limit_bytes;
                  validator_result_initialized := true;
                  validator_info_log := validator_info_log st |})
   else
     let '(e, name) := cudaGetDeviceProperties_name device_id in
     CHECK_OK_STATUS (GetStatus_cuda e) ;;;
     Returned (true,
               {| validator_limit_bytes := device_memory_limit_bytes;
                  validator_result_initialized := true;
                  validator_info_log :=
                    validator_info_log st
                      ++ ["Running cuDNN v" +:+ get_version_string cudnnGetVersion
                          +:+ " for CUDA "
                          +:+ get_version_string cudnnGetCudartVersion
                          +:+ " on " +:+ name] |}))%outcome.

(** ** Transforming and converting tensors *)

(** [sizeof(T)] of the element type named by a [cudnnDataType_t], for
    the three types the pointer variant has. *)
Definition sizeof_element (data_type : cudnnDataType_t) : Z :=
  match data_type with
  | CUDNN_DATA_DOUBLE => 8
  | CUDNN_DATA_HALF => 2
  | _ => 4
  end.

(** [absl::variant<float*, double*, __half*>] *)
Inductive PointerVariant : Type :=
  | float_pointer (p : DeviceMemory)
  | double_pointer (p : DeviceMemory)
  | half_pointer (p : DeviceMemory).

Definition pointee_type (v : PointerVariant) : cudnnDataType_t :=
  match v with
  | float_pointer _ => CUDNN_DATA_FLOAT
  | double_pointer _ => CUDNN_DATA_DOUBLE
  | half_pointer _ => CUDNN_DATA_HALF
  end.

(** [GetPointerVariant], lines 698-710. *)
Definition GetPointerVariant (data : DeviceMemory)
    (data_type : cudnnDataType_t) : outcome PointerVariant :=
  match data_type with
  | CUDNN_DATA_FLOAT => Returned (float_pointer data)
  | CUDNN_DATA_DOUBLE => Returned (double_pointer data)
  | CUDNN_DATA_HALF => Returned (half_pointer data)
  | _ => Aborted "Not yet implemented"
  end.

(** The entry points used by the transform functions, beside those of
    [Platform]; [c_double_one] and [c_double_zero] are the literals [1.0]
    and [0.0]. *)
Class TransformPlatform {P : Platform} : Type := {
  c_double_one : c_double;
  c_double_zero : c_double;
  cudnnTransformTensor :
    ScalingFactor c_float c_double -> TensorDescriptor -> DeviceMemory ->
    ScalingFactor c_float c_double -> TensorDescriptor -> DeviceMemory ->
    cudnnStatus_t;
  cudnnGetTensorSizeInBytes : TensorDescriptor -> cudnnStatus_t * Z;
  (** [GetStatus(cudaDeviceSynchronize())] *)
  cudaDeviceSynchronize_status : Status;
}.

Section Transform.
Context {P : Platform} {T : TransformPlatform}.

(** The calls into the platform made by the transform functions. *)
Inductive TransformCall : Type :=
  | TransformTensorCall (alpha beta : ScalingFactor c_float c_double)
      (src_desc : TensorDescriptor) (src_data : DeviceMemory)
      (dst_desc : TensorDescriptor) (dst_data : DeviceMemory)
  | AllocateTemporaryCall (bytes : Z)
  | ConvertDeviceDataCall (scale : c_double) (dst src : PointerVariant)
      (num_elements : Z)
  | DeviceSynchronizeCall.

Definition transform_io (A : Type) : Type :=
  list TransformCall -> outcome A * list TransformCall.

Definition tio_ret {A} (a : A) : transform_io A := fun log => (Returned a, log).

Definition tio_bind {A B} (m : transform_io A) (k : A -> transform_io B)
    : transform_io B :=
  fun log =>
    match m log with
    | (Returned a, log') => k a log'
    | (Aborted msg, log') => (Aborted msg, log')
    end.

Definition tio_call (c : TransformCall) : transform_io unit :=
  fun log => (Returned tt, log ++ [c]).

Definition tio_lift {A} (o : outcome A) : transform_io A := fun log => (o, log).

Declare Scope tio_scope.
Delimit Scope tio_scope with tio.
Notation "x <- m ;; k" := (tio_bind m (fun x => k))
  (at level 100, m at next level, right associativity) : tio_scope.
Notation "m ;;; k" := (tio_bind m (fun _ => k))
  (at level 100, right associativity) : tio_scope.
Local Open Scope tio_scope.

(** [GetTensorSizeInBytes], lines 206-210. *)
Definition GetTensorSizeInBytes (tensor : TensorDescriptor) : outcome Z :=
  let '(st, result) := cudnnGetTensorSizeInBytes tensor in
  outcome_bind (CHECK_OK_STATUS (GetStatus st)) (fun _ => Returned result).

(** [TransformTensor] with scaling factors, lines 662-673. *)
Definition TransformTensor (alpha beta : c_double)
    (src_desc : TensorDescriptor) (src_data : DeviceMemory)
    (dst_desc : TensorDescriptor) (dst_data : DeviceMemory)
    : transform_io Status :=
  alpha_scale <- tio_lift (ScalingFactor_of_tensor alpha dst_desc) ;;
  beta_scale <- tio_lift (ScalingFactor_of_tensor beta dst_desc) ;;
  tio_call (TransformTensorCall alpha_scale beta_scale src_desc src_data
              dst_desc dst_data) ;;;
  match GetStatus (cudnnTransformTensor alpha_scale src_desc src_data
                     beta_scale dst_desc dst_data) with
  | ErrorStatus msg => tio_ret (ErrorStatus msg)
  | OkStatus => tio_ret OkStatus
  end.

(** The overload without scaling factors, lines 675-682. *)
Definition TransformTensor_default
    (src_desc : TensorDescriptor) (src_data : DeviceMemory)
    (dst_desc : TensorDescriptor) (dst_data : DeviceMemory)
    : transform_io Status :=
  TransformTensor c_double_one c_double_zero src_desc src_data dst_desc
    dst_data.

(** [ConvertDeviceDataVisitor], lines 685-696: the overload for two
    pointers to the same type is fatal, the other one converts
    [dst_size_in_bytes / sizeof(DstT)] elements. *)
Definition ConvertDeviceDataVisitor (dst_size_in_bytes : Z) (scale : c_double)
    (dst src : PointerVariant) : transform_io unit :=
  if decide (pointee_type dst = pointee_type src) then
    tio_lift (Aborted "No conversion needed")
  else
    tio_call (ConvertDeviceDataCall scale dst src
                (dst_size_in_bytes / sizeof_element (pointee_type dst))).

(** [ConvertAndTransformTensor], lines 713-740. *)
Definition ConvertAndTransformTensor (alpha beta : c_double)
    (src_desc : TensorDescriptor) (src_data : DeviceMemory)
    (dst_desc : TensorDescriptor) (dst_data : DeviceMemory)
    : transform_io Status :=
  src_desc_data <- tio_lift (GetTensorDescriptorData src_desc) ;;
  dst_desc_data <- tio_lift (GetTensorDescriptorData dst_desc) ;;
  if decide (tensor_data_type src_desc_data = tensor_data_type dst_desc_data)
  then TransformTensor alpha beta src_desc src_data dst_desc dst_data
  else
    tio_lift (CHECK (tensor_rank src_desc_data =? tensor_rank dst_desc_data)
                "Check failed: src_desc_data.rank == dst_desc_data.rank") ;;;
    temp_desc <- tio_lift CreateEmptyTensorDescriptor ;;
    let '(st, temp_desc) :=
      cudnnSetTensorNdDescriptor temp_desc (tensor_data_type dst_desc_data)
        (tensor_rank src_desc_data) (tensor_dimensions src_desc_data)
        (tensor_strides src_desc_data) in
    match GetStatus st with
    | ErrorStatus msg => tio_ret (ErrorStatus msg)
    | OkStatus =>
        temp_size <- tio_lift (GetTensorSizeInBytes temp_desc) ;;
        tio_call (AllocateTemporaryCall temp_size) ;;;
        match AllocateDeviceMemory temp_size with
        | Failure msg => tio_ret (ErrorStatus msg)
        | Value temp_data =>
            dst_pointer <-
              tio_lift (GetPointerVariant temp_data
                          (tensor_data_type dst_desc_data)) ;;
            src_pointer <-
              tio_lift (GetPointerVariant src_data
                          (tensor_data_type src_desc_data)) ;;
            ConvertDeviceDataVisitor temp_size alpha dst_pointer src_pointer ;;;
            tio_call DeviceSynchronizeCall ;;;
            match cudaDeviceSynchronize_status with
            | ErrorStatus msg => tio_ret (ErrorStatus msg)
            | OkStatus =>
                TransformTensor c_double_one beta temp_desc temp_data
                  dst_desc dst_data
            end
        end
    end.

End Transform.

(** ** Building a whole convolution *)

Definition CUDNN_MAJOR : Z := 7.

(** The aggregate [Convolution], in the order of its initialiser. *)
Record Convolution : Type := {
  convolution_input_desc : TensorDescriptor;
  convolution_filter_desc : FilterDescriptor;
  convolution_output_desc : TensorDescriptor;
  convolution_conv_desc : ConvolutionDescriptor;
  convolution_input_data : DeviceMemory;
  convolution_filter_data : DeviceMemory;
  convolution_output_data : DeviceMemory;
}.

(** [ASSIGN_OR_RETURN_STATUS(auto x, expr); rest] *)
Definition ASSIGN_OR_RETURN_STATUS {A B} (expr : outcome (StatusOr A))
    (rest : A -> outcome (StatusOr B)) : outcome (StatusOr B) :=
  outcome_bind expr (fun r =>
    match r with
    | Value x => rest x
    | Failure msg => Returned (Failure msg)
    end).

(** [CreateConvolution], lines 865-896. *)
Definition CreateConvolution {P : Platform} (proto : proto_ConvolutionConfig)
    (data_lower data_upper : c_double) (rand_gen : RandomGenerator)
    : outcome (StatusOr Convolution) :=
  if (CUDNN_MAJOR <? 7) && (1 <? cd_group_count (cfg_convolution proto)) then
    Returned (Failure "Grouped convolution requires cuDNN 7")
  else
    (input_desc <- CreateTensorDescriptor (cfg_input proto) ;;
     filter_desc <- CreateFilterDescriptor (cfg_filter proto) ;;
     conv_desc <- CreateConvolutionDescriptor (cfg_convolution proto) ;;
     ASSIGN_OR_RETURN_STATUS
       (CreateOutputDescriptor_config proto input_desc filter_desc conv_desc)
       (fun output_desc =>
     ASSIGN_OR_RETURN_STATUS
       (CreateTensorData input_desc data_lower data_upper rand_gen)
       (fun input_data =>
     ASSIGN_OR_RETURN_STATUS
       (CreateFilterData filter_desc data_lower data_upper rand_gen)
       (fun filter_data =>
     ASSIGN_OR_RETURN_STATUS
       (CreateTensorData output_desc data_lower data_upper rand_gen)
       (fun output_data =>
     Returned (Value
       {| convolution_input_desc := input_desc;
          convolution_filter_desc := filter_desc;
          convolution_output_desc := output_desc;
          convolution_conv_desc := conv_desc;
          convolution_input_data := input_data;
          convolution_filter_data := filter_data;
          convolution_output_data := output_data |}))))))%outcome.

(** The model platform, continued. *)

Definition model_cuda_runtime : CudaRuntime := {|
  GetStatus_cuda := fun e =>
    if e =? 0 then OkStatus else ErrorStatus "CUDA error";
  cudaGetDeviceCount := (0, 2);
  cudaSetDevice := fun _ => 0;
  cudaMemGetInfo := (0, 6 * 2 ^ 30, 8 * 2 ^ 30);
  cudaGetDeviceProperties_name := fun _ => (0, "Model GPU");
  cudnnGetVersion := 7605;
  cudnnGetCudartVersion := 10020;
|}.

Definition model_transform_platform : TransformPlatform (P := model_platform) :=
  @Build_TransformPlatform model_platform
    1 0
    (fun _ _ _ _ _ _ => 0)
    (fun tensor =>
       match tensor_contents tensor with
       | Some t =>
           (0, sizeof_element (tensor_data_type t)
               * address_span (tensor_dimensions t) (tensor_strides t))
       | None => (3, 0)
       end)
    OkStatus.

Definition validator_start : ValidatorState :=
  {| validator_limit_bytes := 0;
     validator_result_initialized := false;
     validator_info_log := [] |}.

(** The state after the flag [-1024] (all but 1 GiB of the free memory)
    has been validated on the model runtime. *)
Definition validator_after_offset : ValidatorState :=
  {| validator_limit_bytes := 5 * 2 ^ 30;
     validator_result_initialized := true;
     validator_info_log :=
       ["Running cuDNN v7.6.5 for CUDA 10.0.20 on Model GPU"] |}.

(** [plain_2d_convolution] with four groups and tensor-op math. *)
Definition grouped_2d_convolution : ConvolutionDescriptor :=
  {| convolution_contents := convolution_contents plain_2d_convolution;
     convolution_math_type := CUDNN_TENSOR_OP_MATH;
     convolution_group_count := 4 |}.

(** The configuration that builds [strided_tensor]. *)
Definition strided_input : proto_TensorDescriptor :=
  {| td_data_type_oneof := Some CUDNN_DATA_FLOAT;
     td_dimension := [2; 3; 4];
     td_stride := [24; 8; 2];
     td_format_oneof := None |}.

(** [volume_convolution_descriptor] with two groups. *)
Definition grouped_volume_convolution : ConvolutionDescriptor :=
  {| convolution_contents := Some volume_convolution_contents;
     convolution_math_type := CUDNN_DEFAULT_MATH;
     convolution_group_count := 2 |}.

(** A destination for [float_4x4_tensor] in double precision. *)
Definition double_4x4_tensor : TensorDescriptor :=
  {| tensor_contents :=
       Some {| tensor_data_type := CUDNN_DATA_DOUBLE;
               tensor_rank := 4;
               tensor_dimensions := [1; 1; 4; 4];
               tensor_strides := [16; 16; 4; 1] |} |}.

(** The whole configuration of the 3-D example, without an explicit
    output and without a workspace cap. *)
Definition volume_config : proto_ConvolutionConfig :=
  {| cfg_input := volume_input;
     cfg_filter := volume_filter;
     cfg_convolution := volume_convolution;
     cfg_output := None;
     cfg_workspace_oneof := None |}.

(** What [CreateConvolution] makes of it on the model platform. *)
Definition volume_convolution_aggregate : Convolution :=
  {| convolution_input_desc := volume_tensor;
     convolution_filter_desc := volume_filter_descriptor;
     convolution_output_desc :=
       {| tensor_contents :=
            Some {| tensor_data_type := CUDNN_DATA_DOUBLE;
                    tensor_rank := 5;
                    tensor_dimensions := [2; 4; 5; 4; 9];
                    tensor_strides := [720; 180; 36; 9; 1] |} |};
     convolution_conv_desc := volume_convolution_descriptor;
     convolution_input_data := 8192;
     convolution_filter_data := 8192;
     convolution_output_data := 8192 |}.

(** The non-4-D half of the output-shape law read without a condition
    on the filter: "for non-4-D inputs ... compute each spatial output
    dimension as [input + 2*pad - filter + 1] per axis ... and derive
    fully-packed output strides", for stride = dilation = group = 1. *)
Definition output_shape_law_for_any_filter : Prop :=
  forall (P : Platform) (input : TensorDescriptor) (filter : FilterDescriptor)
         (convolution : ConvolutionDescriptor)
         (t : TensorDescriptorData) (f : FilterDescriptorData)
         (c : ConvolutionNdContents),
    cudnnCreateTensorDescriptor = CUDNN_STATUS_SUCCESS ->
    tensor_contents input = Some t -> tensor_well_formed t ->
    filter_contents filter = Some f -> filter_well_formed f ->
    convolution_contents convolution = Some c -> convolution_well_formed c ->
    Forall (fun v => v = 1) (nd_stride c) ->
    Forall (fun v => v = 1) (nd_dilation c) ->
    convolution_group_count convolution = 1 ->
    tensor_rank t <> 4 -> 2 <= tensor_rank t ->
    let shape :=
      output_shape (tensor_dimensions t) (filter_dimensions f) (nd_pad c) in
    Forall int_range shape -> Forall int_range (packed_strides shape) ->
    let st :=
      cudnnSetTensorNdDescriptor_status (tensor_data_type t) (tensor_rank t)
        shape (packed_strides shape) in
    CreateOutputDescriptor CUDNN_TENSOR_NCHW input filter convolution =
      Returned
        (if decide (st = CUDNN_STATUS_SUCCESS)
         then Value {| tensor_contents :=
                         Some {| tensor_data_type := tensor_data_type t;
                                 tensor_rank := tensor_rank t;
                                 tensor_dimensions := shape;
                                 tensor_strides := packed_strides shape |} |}
         else Failure ("cuDNN error '" +:+ cudnnGetErrorString st +:+ "'")).

(** [volume_filter_data] in the NHWC format. *)
Definition nhwc_volume_filter_data : FilterDescriptorData :=
  {| filter_data_type := CUDNN_DATA_DOUBLE;
     filter_format := CUDNN_TENSOR_NHWC;
     filter_rank := 5;
     filter_dimensions := [4; 3; 3; 3; 3] |}.

Definition nhwc_volume_filter : FilterDescriptor :=
  {| filter_contents := Some nhwc_volume_filter_data |}.




(** * Properties *)

Example CreateTensorDescriptor_volume :
  CreateTensorDescriptor (P := model_platform) volume_input =
    Returned {| tensor_contents :=
      Some {| tensor_data_type := CUDNN_DATA_DOUBLE;
              tensor_rank := 5;
              tensor_dimensions := [2; 3; 5; 6; 7];
              tensor_strides := [630; 210; 42; 7; 1] |} |}.
Proof. vm_compute. reflexivity. Qed.

Example CreateTensorDescriptor_nhwc :
  CreateTensorDescriptor (P := model_platform) nhwc_input =
    Returned {| tensor_contents :=
      Some {| tensor_data_type := CUDNN_DATA_FLOAT;
              tensor_rank := 4;
              tensor_dimensions := [1; 2; 3; 4];
              tensor_strides := [24; 1; 8; 2] |} |}.
Proof. vm_compute. reflexivity. Qed.

(** ** Machine arithmetic *)

Lemma wrap_int_small z : int_range z -> wrap_int z = z.
Proof.
  unfold int_range, INT_MIN, INT_MAX, wrap_int. intros Hz.
  rewrite Z.mod_small; lia.
Qed.

Lemma wrap_int_range z : int_range (wrap_int z).
Proof.
  unfold int_range, INT_MIN, INT_MAX, wrap_int.
  pose proof (Z.mod_pos_bound (z + 2 ^ 31) (2 ^ 32)). lia.
Qed.

Lemma wrap_int_congr a b :
  a mod 2 ^ 32 = b mod 2 ^ 32 -> wrap_int a = wrap_int b.
Proof.
  unfold wrap_int. intros Hab.
  rewrite (Z.add_mod a), (Z.add_mod b), Hab by lia. reflexivity.
Qed.

Lemma wrap_int_mod z : wrap_int z mod 2 ^ 32 = z mod 2 ^ 32.
Proof.
  unfold wrap_int.
  rewrite <- (Z.mod_add (_ - _) 1 (2 ^ 32)) by lia.
  replace ((z + 2 ^ 31) mod 2 ^ 32 - 2 ^ 31 + 1 * 2 ^ 32)
    with ((z + 2 ^ 31) mod 2 ^ 32 + 2 ^ 31) by lia.
  rewrite Z.add_mod_idemp_l by lia.
  replace (z + 2 ^ 31 + 2 ^ 31) with (z + 1 * 2 ^ 32) by lia.
  apply Z.mod_add. lia.
Qed.

Lemma int_mul_wrap_l a b : int_mul (wrap_int a) b = wrap_int (a * b).
Proof.
  unfold int_mul. apply wrap_int_congr.
  rewrite Z.mul_mod, wrap_int_mod, <- Z.mul_mod by lia. reflexivity.
Qed.

Lemma int_add_wrap_l a b : int_add (wrap_int a) b = wrap_int (a + b).
Proof.
  unfold int_add. apply wrap_int_congr.
  rewrite Z.add_mod, wrap_int_mod, <- Z.add_mod by lia. reflexivity.
Qed.

Lemma int_add_wrap_r a b : int_add a (wrap_int b) = wrap_int (a + b).
Proof.
  unfold int_add. apply wrap_int_congr.
  rewrite Z.add_mod, wrap_int_mod, <- Z.add_mod by lia. reflexivity.
Qed.

Lemma int_sub_wrap_l a b : int_sub (wrap_int a) b = wrap_int (a - b).
Proof.
  unfold int_sub. apply wrap_int_congr.
  rewrite Zminus_mod, wrap_int_mod, <- Zminus_mod. reflexivity.
Qed.

Lemma wrap_size_t_small z : size_t_range z -> wrap_size_t z = z.
Proof.
  unfold size_t_range, SIZE_MAX, wrap_size_t. intros Hz.
  apply Z.mod_small. lia.
Qed.

Lemma size_t_mul_wrap a b :
  size_t_mul (wrap_size_t a) (wrap_size_t b) = wrap_size_t (a * b).
Proof.
  unfold size_t_mul, wrap_size_t. rewrite <- Z.mul_mod by lia. reflexivity.
Qed.

Lemma size_t_add_wrap a b :
  size_t_add (wrap_size_t a) (wrap_size_t b) = wrap_size_t (a + b).
Proof.
  unfold size_t_add, wrap_size_t. rewrite <- Z.add_mod by lia. reflexivity.
Qed.

Lemma wrap_size_t_idemp a : wrap_size_t (wrap_size_t a) = wrap_size_t a.
Proof. unfold wrap_size_t. apply Z.mod_mod. lia. Qed.

(** ** Memory budget *)

Lemma GetAvailableDeviceMemoryBytes_eq s :
  size_t_range (device_memory_limit_bytes s) ->
  size_t_range (allocated_device_memory_bytes s) ->
  GetAvailableDeviceMemoryBytes s =
    Z.max (device_memory_limit_bytes s) (allocated_device_memory_bytes s)
      - allocated_device_memory_bytes s.
Proof.
  unfold GetAvailableDeviceMemoryBytes, GetAllocatedDeviceMemoryBytes, size_t_sub.
  intros Hl Ha. apply wrap_size_t_small.
  unfold size_t_range, SIZE_MAX in *. lia.
Qed.

(** C4.  For every configured limit and every allocated byte count (both
    [size_t] values), [GetAvailableDeviceMemoryBytes] is
    [max(limit, allocated) - allocated]; it is never negative, also when
    the allocation exceeds the limit; and once [k] more bytes have been
    allocated it is the previous value minus [k], clamped at zero. *)
Theorem available_bytes_budget (s : DeviceState) (k : Z) :
  size_t_range (device_memory_limit_bytes s) ->
  size_t_range (allocated_device_memory_bytes s) ->
  0 <= k ->
  size_t_range (allocated_device_memory_bytes s + k) ->
  GetAvailableDeviceMemoryBytes s =
    Z.max (device_memory_limit_bytes s) (allocated_device_memory_bytes s)
      - allocated_device_memory_bytes s
  /\ 0 <= GetAvailableDeviceMemoryBytes s
  /\ GetAvailableDeviceMemoryBytes (allocate_bytes k s) =
       Z.max 0 (GetAvailableDeviceMemoryBytes s - k).
Proof.
  intros Hl Ha Hk Hak.
  rewrite (GetAvailableDeviceMemoryBytes_eq s Hl Ha).
  split; [reflexivity | split; [lia |]].
  rewrite GetAvailableDeviceMemoryBytes_eq; cbn [allocate_bytes
    device_memory_limit_bytes allocated_device_memory_bytes].
  - unfold size_t_add. rewrite (wrap_size_t_small _ Hak). lia.
  - exact Hl.
  - unfold size_t_add. rewrite (wrap_size_t_small _ Hak). exact Hak.
Qed.

Lemma available_bytes_budget_witness :
  let s := {| device_memory_limit_bytes := 1000;
              allocated_device_memory_bytes := 900 |} in
  GetAvailableDeviceMemoryBytes s = 100
  /\ GetAvailableDeviceMemoryBytes (allocate_bytes 250 s) = 0.
Proof.
  intros s.
  destruct (available_bytes_budget s 250) as (H1 & _ & H3);
    try (unfold size_t_range, SIZE_MAX; simpl; lia).
  split; [rewrite H1; reflexivity | rewrite H3, H1; reflexivity].
Defined.

(** C5.  [GetWorkspaceLimit] fails exactly when the configuration names a
    workspace cap that is strictly greater than the available bytes; a cap
    within the budget is returned as it is, no cap yields the available
    bytes, and a returned value never exceeds the available bytes.  The
    cap is a [size_t] value. *)
Theorem workspace_limit_resolution (proto : proto_ConvolutionConfig)
    (s : DeviceState) :
  (forall cap, cfg_workspace_oneof proto = Some cap -> size_t_range cap) ->
  let available := GetAvailableDeviceMemoryBytes s in
  ((exists msg, GetWorkspaceLimit proto s = Failure msg) <->
   (exists cap, cfg_workspace_oneof proto = Some cap /\ available < cap))
  /\ (forall cap, cfg_workspace_oneof proto = Some cap -> cap <= available ->
        GetWorkspaceLimit proto s = Value cap)
  /\ (cfg_workspace_oneof proto = None ->
        GetWorkspaceLimit proto s = Value available)
  /\ (forall v, GetWorkspaceLimit proto s = Value v -> v <= available).
Proof.
  intros Hcap available. unfold GetWorkspaceLimit. fold available.
  destruct (cfg_workspace_oneof proto) as [cap|] eqn:Hone.
  - unfold to_size_t. rewrite (wrap_size_t_small cap (Hcap cap eq_refl)).
    destruct (Z.ltb_spec available cap) as [Hlt|Hge].
    + repeat split.
      * intros _. exists cap. split; [reflexivity | exact Hlt].
      * intros _. eexists. reflexivity.
      * intros cap' [= <-] Hle. lia.
      * discriminate.
      * intros v [=].
    + repeat split.
      * intros [msg [=]].
      * intros (cap' & [= <-] & Hlt). lia.
      * intros cap' [= <-] _. reflexivity.
      * discriminate.
      * intros v [= <-]. exact Hge.
  - repeat split.
    + intros [msg [=]].
    + intros (cap' & [=] & _).
    + intros cap' [=].
    + intros v [= <-]. lia.
Qed.

Lemma workspace_limit_resolution_witness :
  let s := {| device_memory_limit_bytes := 1000;
              allocated_device_memory_bytes := 900 |} in
  let capped cap :=
    {| cfg_input := float_4x4_input;
       cfg_filter := volume_filter;
       cfg_convolution := volume_convolution;
       cfg_output := None;
       cfg_workspace_oneof := Some cap |} in
  (exists msg, GetWorkspaceLimit (capped 101) s = Failure msg)
  /\ GetWorkspaceLimit (capped 100) s = Value 100.
Proof.
  intros s capped.
  assert (Hcap : forall c, 0 <= c <= 1000 -> forall cap,
            cfg_workspace_oneof (capped c) = Some cap -> size_t_range cap).
  { intros c Hc cap [= <-]. unfold size_t_range, SIZE_MAX. lia. }
  split.
  - destruct (workspace_limit_resolution (capped 101) s (Hcap 101 ltac:(lia)))
      as ([_ Hfail] & _).
    apply Hfail. exists 101. split; [reflexivity | vm_compute; reflexivity].
  - destruct (workspace_limit_resolution (capped 100) s (Hcap 100 ltac:(lia)))
      as (_ & Hwithin & _).
    apply Hwithin; [reflexivity | vm_compute; discriminate].
Defined.

Example GetWorkspaceLimit_message :
  GetWorkspaceLimit
    {| cfg_input := float_4x4_input;
       cfg_filter := volume_filter;
       cfg_convolution := volume_convolution;
       cfg_output := None;
       cfg_workspace_oneof := Some 101 |}
    {| device_memory_limit_bytes := 1000;
       allocated_device_memory_bytes := 900 |} =
  Failure "Workspace limit (101 bytes) is larger than available memory (100 bytes)".
Proof. vm_compute. reflexivity. Qed.

(** ** Enumerating the supported algorithms *)

Section AlgorithmProperties.
Context {P : Platform}.

Lemma GetWorkspaceSize_run input filter convolution output algo log :
  GetWorkspaceSize input filter convolution output algo log =
    (workspace_cost input filter convolution output algo,
     log ++ [GetWorkspaceSizeCall algo]).
Proof.
  unfold workspace_cost, GetWorkspaceSize, io_bind, io_call, io_ret.
  destruct (match algo with
            | FwdAlgo a =>
                cudnnGetConvolutionForwardWorkspaceSize
                  input filter convolution output a
            | BwdDataAlgo a =>
                cudnnGetConvolutionBackwardDataWorkspaceSize
                  filter output convolution input a
            | BwdFilterAlgo a =>
                cudnnGetConvolutionBackwardFilterWorkspaceSize
                  input output convolution filter a
            end) as [st size].
  destruct (GetStatus st); reflexivity.
Qed.

Lemma workspace_cost_returns input filter convolution output algo :
  exists r, workspace_cost input filter convolution output algo = Returned r.
Proof.
  unfold workspace_cost, GetWorkspaceSize, io_bind, io_call, io_ret.
  destruct (match algo with
            | FwdAlgo a =>
                cudnnGetConvolutionForwardWorkspaceSize
                  input filter convolution output a
            | BwdDataAlgo a =>
                cudnnGetConvolutionBackwardDataWorkspaceSize
                  filter output convolution input a
            | BwdFilterAlgo a =>
                cudnnGetConvolutionBackwardFilterWorkspaceSize
                  input output convolution filter a
            end) as [st size].
  destruct (GetStatus st); eexists; reflexivity.
Qed.

(** The loop, started at [i] with [n] iterations left. *)
Lemma GetSupportedConvolutionAlgosImpl_loop_run T input filter convolution
    output workspace_limit :
  forall (n : nat) (i : Z) result log,
    0 <= i -> i + Z.of_nat n <= INT_MAX ->
    GetSupportedConvolutionAlgosImpl_loop n i T input filter convolution
      output workspace_limit result log =
    (Returned
       (result ++
        (T <$> List.filter
           (fun k => within_limit workspace_limit
                       (workspace_cost input filter convolution output (T k)))
           (seqZ i (Z.of_nat n)))),
     log ++ (GetWorkspaceSizeCall <$> (T <$> seqZ i (Z.of_nat n)))).
Proof.
  induction n as [|n IH]; intros i result log Hi Hn.
  - cbn. unfold io_ret. rewrite !app_nil_r. reflexivity.
  - cbn [GetSupportedConvolutionAlgosImpl_loop]. unfold io_bind at 1.
    rewrite GetWorkspaceSize_run.
    destruct (workspace_cost_returns input filter convolution output (T i))
      as [r Hr].
    rewrite Hr.
    assert (Hnext : int_add i 1 = Z.succ i).
    { unfold int_add. rewrite wrap_int_small; [lia |].
      unfold int_range, INT_MIN, INT_MAX in *. lia. }
    rewrite Hnext, IH by lia.
    rewrite (seqZ_cons i (Z.of_nat (S n))) by lia.
    replace (Z.pred (Z.of_nat (S n))) with (Z.of_nat n) by lia.
    cbn [List.filter fmap list_fmap]. rewrite Hr.
    rewrite <- !app_assoc. cbn [app].
    f_equal.
    destruct r as [size|msg]; cbn [within_limit]; [|reflexivity].
    destruct (size <=? workspace_limit); cbn [fmap list_fmap];
      rewrite <- ?app_assoc; reflexivity.
Qed.

Lemma filter_seqZ_sorted (q : Z -> bool) :
  forall (n : nat) (m : Z),
    StronglySorted Z.lt (List.filter q (seqZ m (Z.of_nat n))).
Proof.
  induction n as [|n IH]; intros m.
  - constructor.
  - rewrite seqZ_cons by lia.
    replace (Z.pred (Z.of_nat (S n))) with (Z.of_nat n) by lia.
    cbn [List.filter]. destruct (q m); [|apply IH].
    constructor; [apply IH |].
    apply List.Forall_forall. intros k Hk.
    apply List.filter_In in Hk as [Hk _].
    apply list_elem_of_In, elem_of_seqZ in Hk. lia.
Qed.

(** C1.  For every direction, with [K] the number of its algorithm
    identifiers, and every workspace limit, [GetSupportedConvolutionAlgos]
    queries the workspace cost of the identifiers [0 .. K-1] of that
    direction, each once and in this order, and returns exactly those
    whose query succeeds with a cost within the limit, in ascending
    order of identifier. *)
Theorem supported_algorithms_enumeration
    (direction : ConvolutionDirection) (input : TensorDescriptor)
    (filter : FilterDescriptor) (convolution : ConvolutionDescriptor)
    (output : TensorDescriptor) (workspace_limit : Z)
    (log : list EngineCall) :
  let K := algo_count direction in
  let T := algo_of direction in
  let supported k :=
    within_limit workspace_limit
      (workspace_cost input filter convolution output (T k)) in
  let run :=
    GetSupportedConvolutionAlgos direction input filter convolution output
      workspace_limit log in
  snd run = log ++ (GetWorkspaceSizeCall <$> (T <$> seqZ 0 K))
  /\ fst run = Returned (T <$> List.filter supported (seqZ 0 K))
  /\ (forall algo,
        In algo (T <$> List.filter supported (seqZ 0 K)) <->
        exists k size,
          0 <= k < K /\ algo = T k /\
          workspace_cost input filter convolution output algo
            = Returned (Value size) /\
          size <= workspace_limit)
  /\ StronglySorted Z.lt
       (algo_value <$> (T <$> List.filter supported (seqZ 0 K))).
Proof.
  intros K T supported run.
  assert (Hrun : run =
    (Returned (T <$> List.filter supported (seqZ 0 K)),
     log ++ (GetWorkspaceSizeCall <$> (T <$> seqZ 0 K)))).
  { subst run. unfold GetSupportedConvolutionAlgos.
    assert (HK : K = Z.of_nat (Z.to_nat K)) by (subst K; destruct direction; reflexivity).
    rewrite HK.
    destruct direction; unfold GetSupportedConvolutionAlgosImpl;
      rewrite GetSupportedConvolutionAlgosImpl_loop_run;
      try reflexivity; vm_compute; congruence. }
  rewrite Hrun. cbn [fst snd].
  split; [reflexivity | split; [reflexivity | split]].
  - intros algo. rewrite <- list_elem_of_In, list_elem_of_fmap. split.
    + intros (k & -> & Hk).
      apply list_elem_of_In, List.filter_In in Hk as [Hk Hs].
      apply list_elem_of_In, elem_of_seqZ in Hk.
      unfold supported, within_limit in Hs.
      destruct (workspace_cost input filter convolution output (T k))
        as [[size|]|] eqn:Hcost; try discriminate.
      exists k, size. repeat split; first [lia | reflexivity].
    + intros (k & size & Hk & -> & Hcost & Hsize).
      exists k. split; [reflexivity |].
      apply list_elem_of_In, List.filter_In. split.
      * apply list_elem_of_In, elem_of_seqZ. lia.
      * unfold supported. rewrite Hcost. cbn. lia.
  - rewrite <- list_fmap_compose.
    rewrite (list_fmap_ext (fun k => algo_value (T k)) id) by
      (intros ? k _; subst T; destruct direction; reflexivity).
    rewrite list_fmap_id.
    assert (HK : K = Z.of_nat (Z.to_nat K)) by (subst K; destruct direction; reflexivity).
    rewrite HK. apply filter_seqZ_sorted.
Qed.

(** ** Searching for the best algorithm *)

(** C6, as the code has it.  [FindConvolutionAlgo] first allocates a
    workspace of exactly [workspace_limit] bytes; when that fails it
    returns the allocator's error and does not call the engine.
    Otherwise it asks the engine for exactly one candidate under that
    budget; when the search call itself fails it returns the engine's
    error, and when the call succeeds it returns the "No supported
    algorithm" error if and only if the engine reports zero results or
    a non-success status for its single candidate, and that candidate's
    identifier otherwise. *)
Theorem find_best_algorithm
    (direction : ConvolutionDirection)
    (input_desc : TensorDescriptor) (input_data : DeviceMemory)
    (filter_desc : FilterDescriptor) (filter_data : DeviceMemory)
    (convolution_desc : ConvolutionDescriptor)
    (output_desc : TensorDescriptor) (output_data : DeviceMemory)
    (workspace_limit : Z) (log : list EngineCall) :
  let run :=
    FindConvolutionAlgo direction input_desc input_data filter_desc
      filter_data convolution_desc output_desc output_data workspace_limit
      log in
  match AllocateDeviceMemory workspace_limit with
  | Failure msg =>
      run = (Returned (Failure msg),
             log ++ [AllocateDeviceMemoryCall workspace_limit])
  | Value workspace =>
      snd run =
        log ++ [AllocateDeviceMemoryCall workspace_limit;
                FindAlgorithmCall direction 1 workspace workspace_limit]
      /\
      let '(st, num_algorithms, algo_perf) :=
        engine_search direction input_desc input_data filter_desc
          filter_data convolution_desc output_desc output_data
          1 workspace workspace_limit in
      if decide (st = CUDNN_STATUS_SUCCESS) then
        (fst run = Returned (Failure "No supported algorithm") <->
         num_algorithms = 0 \/ perf_status algo_perf <> CUDNN_STATUS_SUCCESS)
        /\ (~ (num_algorithms = 0 \/
               perf_status algo_perf <> CUDNN_STATUS_SUCCESS) ->
            fst run =
              Returned (Value (algo_of direction (perf_algo algo_perf))))
      else
        fst run =
          Returned (Failure ("cuDNN error '" +:+ cudnnGetErrorString st +:+ "'"))
  end.
Proof.
  intros run. subst run.
  unfold FindConvolutionAlgo, io_bind, io_call, io_ret.
  destruct (AllocateDeviceMemory workspace_limit) as [workspace|msg];
    [|reflexivity].
  assert (Hto : forall T (perf : AlgoPerf) (num : Z),
    (ToConvolutionAlgo T perf num = Failure "No supported algorithm" <->
     num = 0 \/ perf_status perf <> CUDNN_STATUS_SUCCESS)
    /\ (~ (num = 0 \/ perf_status perf <> CUDNN_STATUS_SUCCESS) ->
        ToConvolutionAlgo T perf num = Value (T (perf_algo perf)))).
  { intros T perf num. unfold ToConvolutionAlgo.
    destruct (Z.eqb_spec num 0) as [->|Hnum]; cbn [orb].
    - split; [split; auto | intros []; auto].
    - destruct (bool_decide_reflect (perf_status perf = CUDNN_STATUS_SUCCESS))
        as [Hst|Hst]; cbn [negb].
      + split; [split; [discriminate | intros [|]; contradiction] | reflexivity].
      + split; [split; auto | intros []; auto]. }
  unfold engine_search.
  destruct direction;
    [ destruct (cudnnFindConvolutionForwardAlgorithmEx _ _ _ _ _ _ _ _ _ _)
        as [[st num] perf]
    | destruct (cudnnFindConvolutionBackwardDataAlgorithmEx _ _ _ _ _ _ _ _ _ _)
        as [[st num] perf]
    | destruct (cudnnFindConvolutionBackwardFilterAlgorithmEx _ _ _ _ _ _ _ _ _ _)
        as [[st num] perf] ];
    unfold GetStatus; destruct (decide (st = CUDNN_STATUS_SUCCESS));
    cbn [fst snd]; rewrite <- ?app_assoc; cbn [app];
    (split; [reflexivity |]);
    try reflexivity.
  all: match goal with
       | |- context [ToConvolutionAlgo ?T ?p ?n] =>
           destruct (Hto T p n) as [[H1 H2] H3]
       end.
  all: split;
    [ split; [intros [= Heq]; apply H1; exact Heq
             | intros H; rewrite (H2 H); reflexivity]
    | intros H; rewrite (H3 H); reflexivity ].
Qed.

End AlgorithmProperties.

Example GetSupportedConvolutionAlgos_forward input filter convolution output :
  GetSupportedConvolutionAlgos (P := model_platform) CONVOLUTION_FWD
    input filter convolution output 5000 [] =
  (Returned [FwdAlgo 0; FwdAlgo 1; FwdAlgo 2; FwdAlgo 4],
   GetWorkspaceSizeCall (P := model_platform) <$>
     [FwdAlgo 0; FwdAlgo 1; FwdAlgo 2; FwdAlgo 3; FwdAlgo 4; FwdAlgo 5;
      FwdAlgo 6; FwdAlgo 7]).
Proof. reflexivity. Qed.

(** C6, the claim as stated, fails: asked for more workspace than the
    device can give, [FindConvolutionAlgo] returns the allocator's error.
    The engine was not asked for a candidate, the error is not "No
    supported algorithm", and no identifier is returned. *)
Lemma find_best_algorithm_allocation_failure :
  let run :=
    FindConvolutionAlgo (P := model_platform) CONVOLUTION_FWD
      float_4x4_tensor 0 half_3x3_filter 0 plain_2d_convolution
      double_2x2_tensor 0 (2 ^ 40) [] in
  fst run = Returned (Failure "CUDA error 'out of memory'")
  /\ snd run = [AllocateDeviceMemoryCall (P := model_platform) (2 ^ 40)]
  /\ fst run <> Returned (Failure "No supported algorithm")
  /\ (forall algo, fst run <> Returned (Value algo)).
Proof.
  intros run.
  assert (Hrun : run =
    (Returned (Failure "CUDA error 'out of memory'"),
     [AllocateDeviceMemoryCall (P := model_platform) (2 ^ 40)]))
    by reflexivity.
  rewrite Hrun. cbn [fst snd].
  repeat split; [discriminate | intros algo; discriminate].
Qed.

Example FindConvolutionAlgo_forward :
  FindConvolutionAlgo (P := model_platform) CONVOLUTION_FWD
    float_4x4_tensor 0 half_3x3_filter 0 plain_2d_convolution
    double_2x2_tensor 0 4096 [] =
  (Returned (Value (FwdAlgo 1)),
   [AllocateDeviceMemoryCall (P := model_platform) 4096;
    FindAlgorithmCall (P := model_platform) CONVOLUTION_FWD 1 4096 4096]).
Proof. reflexivity. Qed.

Example FindConvolutionAlgo_no_result :
  fst (FindConvolutionAlgo (P := model_platform) CONVOLUTION_BWD_DATA
         float_4x4_tensor 0 half_3x3_filter 0 plain_2d_convolution
         double_2x2_tensor 0 512 []) =
  Returned (Failure "No supported algorithm").
Proof. reflexivity. Qed.

(** ** Scaling factors *)

Section ExecutionProperties.
Context {P : Platform}.

(** C7.  In every run of [RunConvolution] whose relevant descriptor is
    set, [alpha] and [beta] are handed to the engine stored as [double]
    when the element kind of the relevant descriptor is
    CUDNN_DATA_DOUBLE and as [float] otherwise; the relevant descriptor
    is the output tensor for a forward algorithm, the input tensor for a
    backward-data algorithm and the filter for a backward-filter
    algorithm. *)
Theorem scaling_factor_storage
    (algo : ConvolutionAlgo) (alpha beta : c_double)
    (input_desc : TensorDescriptor) (input_data : DeviceMemory)
    (filter_desc : FilterDescriptor) (filter_data : DeviceMemory)
    (convolution_desc : ConvolutionDescriptor)
    (output_desc : TensorDescriptor) (output_data : DeviceMemory)
    (workspace : DeviceMemory) (workspace_size : Z)
    (log : list EngineCall) (data_type : cudnnDataType_t) :
  relevant_data_type algo input_desc filter_desc output_desc
    = Some data_type ->
  let stored (value : c_double) : ScalingFactor c_float c_double :=
    if decide (data_type = CUDNN_DATA_DOUBLE) then double_value value
    else float_value (static_cast_float value) in
  exists st,
    RunConvolution algo alpha beta input_desc input_data filter_desc
      filter_data convolution_desc output_desc output_data workspace
      workspace_size log =
    (Returned st,
     log ++ [ConvolutionCall algo (stored alpha) (stored beta) workspace_size]).
Proof.
  intros Hrel stored.
  unfold RunConvolution, relevant_data_type in *.
  destruct algo as [a|a|a];
    [ destruct (tensor_contents output_desc) as [t|] eqn:Ht
    | destruct (tensor_contents input_desc) as [t|] eqn:Ht
    | destruct (filter_contents filter_desc) as [t|] eqn:Ht ];
    try discriminate; injection Hrel as <-;
    unfold io_bind, io_lift, io_call, io_ret,
      ScalingFactor_of_tensor, ScalingFactor_of_filter,
      GetTensorDescriptorData, GetFilterDescriptorData, outcome_bind;
    rewrite Ht; cbn; eexists; reflexivity.
Qed.

End ExecutionProperties.

Lemma scaling_factor_storage_witness :
  exists st,
    RunConvolution (P := model_platform) (FwdAlgo 1) 1 0
      float_4x4_tensor 0 half_3x3_filter 0 plain_2d_convolution
      double_2x2_tensor 0 4096 1024 [] =
    (Returned st,
     [ConvolutionCall (P := model_platform) (FwdAlgo 1)
        (double_value 1) (double_value 0) 1024]).
Proof.
  exact (scaling_factor_storage (P := model_platform) (FwdAlgo 1) 1 0
           float_4x4_tensor 0 half_3x3_filter 0 plain_2d_convolution
           double_2x2_tensor 0 4096 1024 [] CUDNN_DATA_DOUBLE eq_refl).
Defined.

Example RunConvolution_backward_data :
  RunConvolution (P := model_platform) (BwdDataAlgo 0) 1 0
    float_4x4_tensor 0 half_3x3_filter 0 plain_2d_convolution
    double_2x2_tensor 0 4096 1024 [] =
  (Returned OkStatus,
   [ConvolutionCall (P := model_platform) (BwdDataAlgo 0)
      (float_value 1) (float_value 0) 1024]).
Proof. reflexivity. Qed.

Example RunConvolution_backward_filter :
  snd (RunConvolution (P := model_platform) (BwdFilterAlgo 0) 1 0
         float_4x4_tensor 0 half_3x3_filter 0 plain_2d_convolution
         double_2x2_tensor 0 4096 1024 []) =
  [ConvolutionCall (P := model_platform) (BwdFilterAlgo 0)
     (float_value 1) (float_value 0) 1024].
Proof. reflexivity. Qed.

(** ** Arrays read back from a descriptor *)

Lemma axis_values_S a i n :
  axis_values a i (S n) = array_get a i :: axis_values a (S i) n.
Proof. reflexivity. Qed.

Lemma axis_values_prefix a junk :
  axis_values (a ++ junk) 0 (length a) = a.
Proof.
  unfold axis_values. induction a as [|x a IH]; [reflexivity |].
  cbn [length seq fmap list_fmap]. f_equal.
  rewrite <- fmap_S_seq, <- list_fmap_compose.
  etrans; [|exact IH]. apply list_fmap_ext. intros ? k _. reflexivity.
Qed.

Lemma fill_array_fits init written :
  (length written <= CUDNN_DIM_MAX)%nat ->
  exists junk, fill_array init written = written ++ junk
               /\ length (fill_array init written) = CUDNN_DIM_MAX.
Proof.
  intros Hlen. unfold fill_array. rewrite take_ge by exact Hlen.
  eexists. split; [reflexivity |].
  rewrite length_app, length_fmap, length_seq. lia.
Qed.

Lemma array_get_prefix a junk (i : nat) :
  (i < length a)%nat -> array_get (a ++ junk) i = array_get a i.
Proof. intros Hi. unfold array_get. rewrite lookup_app_l by exact Hi. reflexivity. Qed.

(** ** Products, packed strides and address spans *)

Lemma product_app l1 l2 : product (l1 ++ l2) = product l1 * product l2.
Proof.
  unfold product. induction l1 as [|x l1 IH]; cbn [foldr app]; [lia |].
  rewrite IH. lia.
Qed.

Lemma product_pos l : Forall (fun d => 1 <= d) l -> 1 <= product l.
Proof.
  unfold product. induction 1 as [|d l Hd _ IH]; cbn [foldr]; nia.
Qed.

Lemma length_packed_strides dims :
  length (packed_strides dims) = length dims.
Proof. induction dims as [|d dims IH]; cbn; congruence. Qed.

Lemma lookup_packed_strides dims (i : nat) :
  (i < length dims)%nat ->
  packed_strides dims !! i = Some (product (drop (S i) dims)).
Proof.
  revert i. induction dims as [|d dims IH]; intros i Hi; cbn in Hi; [lia |].
  destruct i as [|i]; cbn; [rewrite drop_0; reflexivity |].
  apply IH. lia.
Qed.

Lemma span_sum_packed dims :
  span_sum dims (packed_strides dims) = product dims - 1.
Proof.
  induction dims as [|d dims IH]; [reflexivity |].
  cbn [span_sum packed_strides]. rewrite IH.
  change (product (d :: dims)) with (d * product dims). lia.
Qed.



(** ** Element counts *)

Section ElementCounts.
Context {P : Platform}.

Lemma GetTensorNumElements_loop_spec data :
  forall (n i : nat) (acc : Z),
    Forall (fun d => int_range (d - 1))
      (axis_values (tensor_dimensions data) i n) ->
    GetTensorNumElements_loop n i data (wrap_size_t acc) =
      wrap_size_t
        (acc + span_sum (axis_values (tensor_dimensions data) i n)
                        (axis_values (tensor_strides data) i n)).
Proof.
  induction n as [|n IH]; intros i acc Hd.
  - cbn. rewrite Z.add_0_r. reflexivity.
  - rewrite !axis_values_S in *. inversion Hd as [|? ? Hd1 Hd2]; subst.
    cbn [GetTensorNumElements_loop span_sum].
    unfold int_sub, to_size_t. rewrite (wrap_int_small _ Hd1).
    rewrite size_t_mul_wrap, size_t_add_wrap, IH by exact Hd2.
    f_equal. lia.
Qed.

Lemma GetTensorNumElements_span tensor stored :
  tensor_contents tensor = Some stored ->
  tensor_well_formed stored ->
  Forall (fun d => int_range (d - 1)) (tensor_dimensions stored) ->
  GetTensorNumElements tensor =
    Returned (wrap_size_t (address_span (tensor_dimensions stored)
                                        (tensor_strides stored))).
Proof.
  intros Hc (Hrank & Hlen & Hmax) Hd.
  unfold GetTensorNumElements, GetTensorDescriptorData. rewrite Hc.
  cbn [outcome_bind tensor_rank tensor_dimensions tensor_strides].
  destruct (fill_array_fits indeterminate_int (tensor_dimensions stored) Hmax)
    as (jd & -> & _).
  destruct (fill_array_fits indeterminate_int (tensor_strides stored))
    as (js & -> & _); [lia |].
  rewrite Hrank, Nat2Z.id.
  change 1 with (wrap_size_t 1) at 1.
  match goal with
  | |- Returned (GetTensorNumElements_loop _ _ ?d _) = _ =>
      rewrite (GetTensorNumElements_loop_spec d)
  end; cbn [tensor_dimensions tensor_strides].
  - rewrite axis_values_prefix. rewrite <- Hlen at 1.
    rewrite axis_values_prefix. reflexivity.
  - rewrite axis_values_prefix. exact Hd.
Qed.

Lemma GetFilterNumElements_loop_spec data :
  forall (n i : nat) (acc : Z),
    GetFilterNumElements_loop n i data (wrap_size_t acc) =
      wrap_size_t (acc * product (axis_values (filter_dimensions data) i n)).
Proof.
  induction n as [|n IH]; intros i acc.
  - cbn. rewrite Z.mul_1_r. reflexivity.
  - rewrite axis_values_S. cbn [GetFilterNumElements_loop].
    unfold to_size_t. rewrite size_t_mul_wrap, IH.
    f_equal. change (product (?x :: ?l)) with (x * product l). lia.
Qed.

Lemma GetFilterNumElements_product filter stored :
  filter_contents filter = Some stored ->
  filter_well_formed stored ->
  GetFilterNumElements filter =
    Returned (wrap_size_t (product (filter_dimensions stored))).
Proof.
  intros Hc (Hrank & Hmax).
  unfold GetFilterNumElements, GetFilterDescriptorData. rewrite Hc.
  cbn [outcome_bind filter_rank filter_dimensions].
  destruct (fill_array_fits zero_init (filter_dimensions stored) Hmax)
    as (jd & -> & _).
  rewrite Hrank, Nat2Z.id.
  change 1 with (wrap_size_t 1) at 1.
  match goal with
  | |- Returned (GetFilterNumElements_loop _ _ ?d _) = _ =>
      rewrite (GetFilterNumElements_loop_spec d)
  end; cbn [filter_dimensions].
  rewrite axis_values_prefix. f_equal. f_equal. lia.
Qed.



End ElementCounts.



Example GetTensorNumElements_overlapping :
  GetTensorNumElements (P := model_platform)
    {| tensor_contents :=
         Some {| tensor_data_type := CUDNN_DATA_FLOAT;
                 tensor_rank := 3;
                 tensor_dimensions := [2; 3; 4];
                 tensor_strides := [0; 4; 1] |} |} = Returned 12.
Proof. vm_compute. reflexivity. Qed.

Section FilterElementCount.
Context {P : Platform}.

Lemma CreateDeviceDataHelper_supported data_type num_elements lower upper
    rand_gen :
  data_type = CUDNN_DATA_FLOAT \/ data_type = CUDNN_DATA_DOUBLE
  \/ data_type = CUDNN_DATA_HALF ->
  CreateDeviceDataHelper data_type num_elements lower upper rand_gen =
    Returned (CreateDeviceData data_type num_elements lower upper rand_gen).
Proof. intros [-> | [-> | ->]]; reflexivity. Qed.

Lemma CreateDeviceDataHelper_unsupported data_type num_elements lower upper
    rand_gen :
  ~ (data_type = CUDNN_DATA_FLOAT \/ data_type = CUDNN_DATA_DOUBLE
     \/ data_type = CUDNN_DATA_HALF) ->
  CreateDeviceDataHelper data_type num_elements lower upper rand_gen =
    Aborted "Not yet supported".
Proof. intros Hno. destruct data_type; try reflexivity; tauto. Qed.

(** C10.  For a filter descriptor of rank [r], [GetFilterNumElements]
    returns the product [dim[0] * ... * dim[r-1]] (a value that fits
    [size_t]).  For a filter of floats, doubles or halves
    [CreateFilterData] returns what [CreateDeviceData] creates for that
    many elements of the filter's type, whereas [CreateTensorData]
    returns what it creates for as many elements as the address span of
    the tensor.  For any other element type no buffer is created: the
    process ends in the fatal "Not yet supported". *)
Theorem filter_num_elements_is_product
    (filter : FilterDescriptor) (stored : FilterDescriptorData) :
  filter_contents filter = Some stored ->
  filter_well_formed stored ->
  size_t_range (product (filter_dimensions stored)) ->
  let supported (data_type : cudnnDataType_t) :=
    data_type = CUDNN_DATA_FLOAT \/ data_type = CUDNN_DATA_DOUBLE
    \/ data_type = CUDNN_DATA_HALF in
  GetFilterNumElements filter = Returned (product (filter_dimensions stored))
  /\ (forall lower upper rand_gen,
        (supported (filter_data_type stored) ->
         CreateFilterData filter lower upper rand_gen =
           Returned (CreateDeviceData (filter_data_type stored)
                       (product (filter_dimensions stored))
                       lower upper rand_gen))
        /\ (~ supported (filter_data_type stored) ->
            CreateFilterData filter lower upper rand_gen =
              Aborted "Not yet supported"))
  /\ (forall tensor t lower upper rand_gen,
        tensor_contents tensor = Some t ->
        tensor_well_formed t ->
        Forall (fun d => 1 <= d <= INT_MAX) (tensor_dimensions t) ->
        size_t_range (address_span (tensor_dimensions t) (tensor_strides t)) ->
        (supported (tensor_data_type t) ->
         CreateTensorData tensor lower upper rand_gen =
           Returned (CreateDeviceData (tensor_data_type t)
                       (address_span (tensor_dimensions t) (tensor_strides t))
                       lower upper rand_gen))
        /\ (~ supported (tensor_data_type t) ->
            CreateTensorData tensor lower upper rand_gen =
              Aborted "Not yet supported")).
Proof.
  intros Hc Hwf Hfit supported.
  assert (Hprod : GetFilterNumElements filter =
                    Returned (product (filter_dimensions stored))).
  { rewrite (GetFilterNumElements_product filter stored Hc Hwf).
    rewrite (wrap_size_t_small _ Hfit). reflexivity. }
  split; [exact Hprod | split].
  - intros lower upper rand_gen.
    assert (Hhelper : CreateFilterData filter lower upper rand_gen =
              CreateDeviceDataHelper (filter_data_type stored)
                (product (filter_dimensions stored)) lower upper rand_gen).
    { unfold CreateFilterData. rewrite Hprod.
      unfold GetFilterDataType, GetFilterDescriptorData. rewrite Hc.
      reflexivity. }
    rewrite Hhelper. split.
    + apply CreateDeviceDataHelper_supported.
    + apply CreateDeviceDataHelper_unsupported.
  - intros tensor t lower upper rand_gen Ht Htwf Hd Hspan.
    assert (Hhelper : CreateTensorData tensor lower upper rand_gen =
              CreateDeviceDataHelper (tensor_data_type t)
                (address_span (tensor_dimensions t) (tensor_strides t))
                lower upper rand_gen).
    { unfold CreateTensorData.
      rewrite (GetTensorNumElements_span tensor t Ht Htwf).
      + rewrite (wrap_size_t_small _ Hspan).
        unfold GetTensorDataType, GetTensorDescriptorData. rewrite Ht.
        reflexivity.
      + eapply Forall_impl; [exact Hd |].
        intros d Hd1. unfold int_range, INT_MIN, INT_MAX in *. cbn beta. lia. }
    rewrite Hhelper. split.
    + apply CreateDeviceDataHelper_supported.
    + apply CreateDeviceDataHelper_unsupported.
Qed.

End FilterElementCount.

Lemma filter_num_elements_is_product_witness :
  GetFilterNumElements half_3x3_filter = Returned 9
  /\ CreateFilterData (P := model_platform) half_3x3_filter 0 1 tt =
       Returned (@CreateDeviceData model_platform CUDNN_DATA_HALF 9 0 1 tt)
  /\ CreateTensorData (P := model_platform) strided_tensor 0 1 tt =
       Returned (@CreateDeviceData model_platform CUDNN_DATA_FLOAT 47 0 1 tt).
Proof.
  assert (Hwf : filter_well_formed
                  {| filter_data_type := CUDNN_DATA_HALF;
                     filter_format := CUDNN_TENSOR_NCHW;
                     filter_rank := 4;
                     filter_dimensions := [1; 1; 3; 3] |}).
  { split; cbn; unfold CUDNN_DIM_MAX; lia. }
  assert (Htwf : tensor_well_formed
                   {| tensor_data_type := CUDNN_DATA_FLOAT;
                      tensor_rank := 3;
                      tensor_dimensions := [2; 3; 4];
                      tensor_strides := [24; 8; 2] |}).
  { repeat split; cbn; unfold CUDNN_DIM_MAX; lia. }
  destruct (filter_num_elements_is_product (P := model_platform)
              half_3x3_filter _ eq_refl Hwf) as (Hprod & Hfilter & Htensor).
  - vm_compute. split; discriminate.
  - split; [exact Hprod | split].
    + apply (proj1 (Hfilter 0 1 tt)). right. right. reflexivity.
    + apply (proj1 (Htensor strided_tensor _ 0 1 tt eq_refl Htwf
                      ltac:(cbn; repeat (apply List.Forall_cons;
                                           [unfold INT_MAX; lia |]);
                            apply List.Forall_nil)
                      ltac:(vm_compute; split; discriminate))).
      left. reflexivity.
Defined.

(** ** Fully packed strides *)

Section PackedStrides.
Context {P : Platform}.

Lemma GetFullyPackedStrides_loop_length dims :
  forall (n : nat) stride result,
    length (GetFullyPackedStrides_loop n stride dims result) = length result.
Proof.
  induction n as [|i IH]; intros stride result; [reflexivity |].
  cbn [GetFullyPackedStrides_loop]. rewrite IH. apply length_insert.
Qed.

(** Entries from [n] on are not touched. *)
Lemma GetFullyPackedStrides_loop_above dims :
  forall (n : nat) stride result (j : nat),
    (n <= j)%nat ->
    GetFullyPackedStrides_loop n stride dims result !! j = result !! j.
Proof.
  induction n as [|i IH]; intros stride result j Hj; [reflexivity |].
  cbn [GetFullyPackedStrides_loop]. rewrite IH by lia.
  apply list_lookup_insert_ne. lia.
Qed.

(** Entry [j < n] receives the product of the dimensions [j+1 .. n-1],
    computed in [int]. *)
Lemma GetFullyPackedStrides_loop_below dims :
  forall (n : nat) s result (j : nat),
    (j < n)%nat -> (n <= length result)%nat -> (n <= length dims)%nat ->
    GetFullyPackedStrides_loop n (wrap_int s) dims result !! j =
      Some (wrap_int (s * product (drop (S j) (take n dims)))).
Proof.
  induction n as [|i IH]; intros s result j Hj Hres Hdims; [lia |].
  cbn [GetFullyPackedStrides_loop].
  destruct (lookup_lt_is_Some_2 dims i) as [d Hd]; [lia |].
  assert (Hget : array_get dims i = d) by (unfold array_get; rewrite Hd; reflexivity).
  rewrite Hget, int_mul_wrap_l.
  destruct (decide (j = i)) as [->|Hne].
  - rewrite GetFullyPackedStrides_loop_above by lia.
    rewrite list_lookup_insert_eq by lia.
    rewrite drop_ge by (rewrite length_take; lia).
    cbn. rewrite Z.mul_1_r. reflexivity.
  - rewrite IH by (rewrite ?length_insert; lia).
    rewrite (take_S_r dims i d Hd).
    rewrite drop_app_le by (rewrite length_take; lia).
    rewrite product_app. cbn. do 2 f_equal. lia.
Qed.

(** What [cudnnSetTensorNdDescriptor] reads of the result. *)
Lemma GetFullyPackedStrides_take dims (n : nat) :
  (n <= length dims)%nat -> (n <= CUDNN_DIM_MAX)%nat ->
  take n (GetFullyPackedStrides dims (Z.of_nat n)) =
    wrap_int <$> packed_strides (take n dims).
Proof.
  intros Hdims Hmax. unfold GetFullyPackedStrides. rewrite Nat2Z.id.
  apply list_eq. intros j.
  destruct (decide (j < n)%nat) as [Hj|Hj].
  - rewrite lookup_take_lt by exact Hj.
    change 1 with (wrap_int 1) at 1.
    rewrite GetFullyPackedStrides_loop_below; [| exact Hj | | exact Hdims].
    + rewrite list_lookup_fmap, lookup_packed_strides
        by (rewrite length_take; lia).
      cbn. do 2 f_equal. lia.
    + destruct (fill_array_fits indeterminate_int []) as (junk & _ & ->);
        [cbn; lia | exact Hmax].
  - rewrite lookup_take_ge by lia. symmetry. apply lookup_ge_None_2.
    rewrite length_fmap, length_packed_strides, length_take. lia.
Qed.

Lemma fmap_wrap_int_small l : Forall int_range l -> wrap_int <$> l = l.
Proof.
  induction 1 as [|x l Hx _ IH]; [reflexivity |].
  cbn. rewrite (wrap_int_small x Hx), IH. reflexivity.
Qed.

End PackedStrides.

(** ** Building descriptors *)

Lemma GetStatus_ok {P : Platform} st :
  GetStatus st = OkStatus <-> st = CUDNN_STATUS_SUCCESS.
Proof.
  unfold GetStatus. destruct (decide (st = CUDNN_STATUS_SUCCESS)); split;
    intros; try discriminate; try contradiction; auto.
Qed.

Lemma outcome_bind_Returned {A B} (m : outcome A) (k : A -> outcome B) b :
  outcome_bind m k = Returned b ->
  exists a, m = Returned a /\ k a = Returned b.
Proof. destruct m as [a|msg]; [eauto | discriminate]. Qed.

Lemma CHECK_Returned cond msg u : CHECK cond msg = Returned u -> cond = true.
Proof. destruct cond; [reflexivity | discriminate]. Qed.

Lemma CHECK_OK_STATUS_Returned {P : Platform} st u :
  CHECK_OK_STATUS (GetStatus st) = Returned u -> st = CUDNN_STATUS_SUCCESS.
Proof.
  intros H. apply GetStatus_ok. destruct (GetStatus st); [reflexivity | discriminate].
Qed.

Lemma RETURN_IF_ERROR_STATUS_Value {P : Platform} {A} st
    (k : outcome (StatusOr A)) (a : A) :
  RETURN_IF_ERROR_STATUS (GetStatus st) k = Returned (Value a) ->
  st = CUDNN_STATUS_SUCCESS /\ k = Returned (Value a).
Proof.
  intros H. destruct (GetStatus st) eqn:Hst; cbn in H; [| discriminate].
  split; [apply GetStatus_ok; exact Hst | exact H].
Qed.

(** Follows a run that returned back through its binds and checks. *)
Ltac through_checks :=
  repeat match goal with
    | H : outcome_bind _ _ = Returned _ |- _ =>
        let H' := fresh "Hstep" in
        apply outcome_bind_Returned in H as (? & H' & H)
    | H : CHECK _ _ = Returned _ |- _ => apply CHECK_Returned in H
    | H : CHECK_OK_STATUS (GetStatus _) = Returned _ |- _ =>
        apply CHECK_OK_STATUS_Returned in H
    | H : RETURN_IF_ERROR_STATUS (GetStatus _) _ = Returned (Value _) |- _ =>
        let H' := fresh "Hst" in
        apply RETURN_IF_ERROR_STATUS_Value in H as [H' H]
    | H : Returned _ = Returned _ |- _ => injection H as H
    | H : Value _ = Value _ |- _ => injection H as H
    end.

Section BuilderProperties.
Context {P : Platform}.

Lemma CreateTensorDescriptor_packed proto desc :
  td_stride proto = [] ->
  td_dimension_size proto <> 4 ->
  CreateTensorDescriptor proto = Returned desc ->
  desc =
    {| tensor_contents :=
         Some {| tensor_data_type := td_data_type proto;
                 tensor_rank := td_dimension_size proto;
                 tensor_dimensions :=
                   take (Z.to_nat (td_dimension_size proto)) (td_dimension proto);
                 tensor_strides :=
                   take (Z.to_nat (td_dimension_size proto))
                     (GetFullyPackedStrides (td_dimension proto)
                        (td_dimension_size proto)) |} |}.
Proof.
  intros Hs Hr.
  assert (Hsz : td_stride_size proto = 0)
    by (unfold td_stride_size; rewrite Hs; reflexivity).
  unfold CreateTensorDescriptor, CreateEmptyTensorDescriptor.
  rewrite Hsz. cbn [Z.eqb negb].
  destruct (Z.eqb_spec (td_dimension_size proto) 4) as [|_]; [contradiction |].
  unfold cudnnSetTensorNdDescriptor. intros H.
  through_checks. subst. rewrite decide_True by assumption. reflexivity.
Qed.

Lemma CreateTensorDescriptor_4d proto desc :
  td_stride proto = [] ->
  td_dimension_size proto = 4 ->
  CreateTensorDescriptor proto = Returned desc ->
  let dim i := array_get (td_dimension proto) i in
  desc =
    {| tensor_contents :=
         Some {| tensor_data_type := td_data_type proto;
                 tensor_rank := 4;
                 tensor_dimensions := [dim 0; dim 1; dim 2; dim 3]%nat;
                 tensor_strides :=
                   cudnnSetTensor4dDescriptor_strides (td_format proto)
                     (dim 0%nat) (dim 1%nat) (dim 2%nat) (dim 3%nat) |} |}.
Proof.
  intros Hs Hr.
  assert (Hsz : td_stride_size proto = 0)
    by (unfold td_stride_size; rewrite Hs; reflexivity).
  unfold CreateTensorDescriptor, CreateEmptyTensorDescriptor.
  rewrite Hsz, Hr. cbn [Z.eqb Pos.eqb negb].
  unfold cudnnSetTensor4dDescriptor. intros H.
  through_checks. subst. rewrite decide_True by assumption. reflexivity.
Qed.

(** C8, as the code has it.  A tensor built without explicit strides
    whose rank is not 4 (and at most CUDNN_DIM_MAX) has, for every axis
    [i], [stride[i]] equal to the product of the dimensions
    [i+1 .. rank-1], whenever these products are [int] values; the last
    axis has stride 1.  A tensor of rank 4 built without explicit
    strides has the strides that the engine's 4-D setter derives from
    the configured format. *)
Theorem packed_stride_law
    (proto : proto_TensorDescriptor) (desc : TensorDescriptor) :
  td_stride proto = [] ->
  CreateTensorDescriptor proto = Returned desc ->
  exists data,
    tensor_contents desc = Some data
    /\ (td_dimension_size proto <> 4 ->
        (length (td_dimension proto) <= CUDNN_DIM_MAX)%nat ->
        Forall int_range (packed_strides (td_dimension proto)) ->
        tensor_dimensions data = td_dimension proto
        /\ tensor_strides data = packed_strides (td_dimension proto)
        /\ forall i : nat,
             (i < length (td_dimension proto))%nat ->
             tensor_strides data !! i
               = Some (product (drop (S i) (td_dimension proto))))
    /\ (td_dimension_size proto = 4 ->
        tensor_strides data =
          cudnnSetTensor4dDescriptor_strides (td_format proto)
            (array_get (td_dimension proto) 0)
            (array_get (td_dimension proto) 1)
            (array_get (td_dimension proto) 2)
            (array_get (td_dimension proto) 3)).
Proof.
  intros Hs Hret.
  destruct (decide (td_dimension_size proto = 4)) as [H4|H4].
  - rewrite (CreateTensorDescriptor_4d proto desc Hs H4 Hret).
    eexists. split; [reflexivity |]. split; [contradiction | reflexivity].
  - rewrite (CreateTensorDescriptor_packed proto desc Hs H4 Hret).
    eexists. split; [reflexivity |]. split; [| contradiction].
    intros _ Hmax Hfit. cbn [tensor_dimensions tensor_strides].
    unfold td_dimension_size. rewrite Nat2Z.id.
    rewrite GetFullyPackedStrides_take by (first [reflexivity | exact Hmax]).
    rewrite take_ge by reflexivity.
    rewrite (fmap_wrap_int_small _ Hfit).
    repeat split. intros i Hi. apply lookup_packed_strides. exact Hi.
Qed.

End BuilderProperties.

Lemma packed_stride_law_witness :
  exists desc data,
    CreateTensorDescriptor (P := model_platform) volume_input = Returned desc
    /\ tensor_contents desc = Some data
    /\ tensor_strides data = [630; 210; 42; 7; 1].
Proof.
  destruct (packed_stride_law (P := model_platform) volume_input _ eq_refl
              CreateTensorDescriptor_volume) as (data & Hc & Hpacked & _).
  eexists. exists data.
  split; [exact CreateTensorDescriptor_volume | split; [exact Hc |]].
  destruct Hpacked as (_ & Hstrides & _).
  - vm_compute. discriminate.
  - cbn. unfold CUDNN_DIM_MAX. lia.
  - cbn. repeat (apply List.Forall_cons; [vm_compute; split; discriminate |]).
    apply List.Forall_nil.
  - exact Hstrides.
Defined.

(** C8, the claim as stated, fails at rank 4: built without explicit
    strides in the NHWC format, the tensor [1; 2; 3; 4] has stride 1 on
    axis 1, not [3 * 4]. *)
Lemma packed_stride_law_fails_for_nhwc : ~ packed_stride_law_at_any_rank.
Proof.
  intros Hlaw.
  pose (data := {| tensor_data_type := CUDNN_DATA_FLOAT;
                   tensor_rank := 4;
                   tensor_dimensions := [1; 2; 3; 4];
                   tensor_strides := [24; 1; 8; 2] |}).
  assert (Hpos : Forall (fun d => 0 < d) (td_dimension nhwc_input)).
  { cbn. repeat (apply List.Forall_cons; [lia |]). apply List.Forall_nil. }
  specialize (Hlaw model_platform nhwc_input {| tensor_contents := Some data |}
                data eq_refl Hpos CreateTensorDescriptor_nhwc eq_refl 1%nat).
  cbn in Hlaw. specialize (Hlaw ltac:(lia)). discriminate Hlaw.
Qed.

Section BuildOutcomes.
Context {P : Platform}.

Lemma CreateTensorDescriptor_Returned proto desc :
  CreateTensorDescriptor proto = Returned desc ->
  (td_stride_size proto =? 0) = is_set (td_format_oneof proto)
  /\ exists data,
       tensor_contents desc = Some data
       /\ tensor_data_type data = td_data_type proto
       /\ tensor_rank data = td_dimension_size proto.
Proof.
  unfold CreateTensorDescriptor, CreateEmptyTensorDescriptor.
  intros H. through_checks.
  apply bool_decide_eq_true in Hstep0. split; [exact Hstep0 |].
  destruct (td_stride_size proto =? 0); cbn [negb] in H;
    [destruct (td_dimension_size proto =? 4) eqn:Hrank |];
    unfold cudnnSetTensorNdDescriptor, cudnnSetTensor4dDescriptor in H;
    through_checks; subst; rewrite decide_True by assumption;
    eexists; cbn; repeat split.
  symmetry. apply Z.eqb_eq. exact Hrank.
Qed.

Lemma malformed_tensor_config_check proto :
  malformed_tensor_config proto ->
  (td_stride_size proto =? 0) <> is_set (td_format_oneof proto).
Proof.
  unfold td_stride_size.
  intros [[Hs [fmt Hf]]|[Hs Hf]]; rewrite Hf; cbn [is_set].
  - destruct (td_stride proto); [contradiction | cbn; discriminate].
  - rewrite Hs. cbn. discriminate.
Qed.

Lemma CreateFilterDescriptor_Returned proto desc :
  CreateFilterDescriptor proto = Returned desc -> populated_filter desc.
Proof.
  unfold CreateFilterDescriptor, CreateEmptyFilterDescriptor,
    cudnnSetFilterNdDescriptor.
  intros H. through_checks. subst. rewrite decide_True by assumption.
  eexists. reflexivity.
Qed.

Lemma CreateConvolutionDescriptor_Returned proto desc :
  CreateConvolutionDescriptor proto = Returned desc ->
  populated_convolution desc.
Proof.
  unfold CreateConvolutionDescriptor, CreateEmptyConvolutionDescriptor,
    cudnnSetConvolutionNdDescriptor, cudnnSetConvolutionMathType.
  intros H. through_checks. subst.
  rewrite (decide_True (P := cudnnSetConvolutionMathType_status _ = _))
    by assumption.
  unfold populated_convolution. cbn [convolution_contents].
  destruct (0 <? cd_group_count proto);
    unfold cudnnSetConvolutionGroupCount in *; through_checks; subst;
    repeat rewrite decide_True by assumption;
    cbn [convolution_contents]; eexists; reflexivity.
Qed.

Lemma CreateOutputDescriptor_Value format input filter convolution desc :
  CreateOutputDescriptor format input filter convolution
    = Returned (Value desc) ->
  populated_tensor desc.
Proof.
  unfold CreateOutputDescriptor, CreateEmptyTensorDescriptor.
  intros H. through_checks.
  destruct (tensor_rank _ =? 4).
  - destruct (cudnnGetConvolution2dForwardOutputDim convolution input filter)
      as [st [[[n c] h] w]].
    unfold cudnnSetTensor4dDescriptor in H. through_checks. subst.
    rewrite decide_True by assumption. eexists. reflexivity.
  - destruct (negb _); [discriminate |].
    unfold cudnnSetTensorNdDescriptor in H. through_checks. subst.
    rewrite decide_True by assumption. eexists. reflexivity.
Qed.

(** C2, as the code has it.  A build operation that returns a descriptor
    returns a populated one: one that cuDNN has accepted in full.
    [CreateOutputDescriptor] can also return a structured error.  The
    other three have no error result: a malformed tensor configuration
    (both explicit strides and a format, or neither) ends the process
    in a fatal check, and so does every engine failure in them.  A
    tensor is never built from a malformed configuration. *)
Theorem build_operations_populate_or_abort :
  (forall proto desc,
      CreateTensorDescriptor proto = Returned desc ->
      populated_tensor desc /\ ~ malformed_tensor_config proto)
  /\ (forall proto,
        malformed_tensor_config proto ->
        exists msg, CreateTensorDescriptor proto = Aborted msg)
  /\ (forall proto desc,
        CreateFilterDescriptor proto = Returned desc ->
        populated_filter desc)
  /\ (forall proto desc,
        CreateConvolutionDescriptor proto = Returned desc ->
        populated_convolution desc)
  /\ (forall format input filter convolution desc,
        CreateOutputDescriptor format input filter convolution
          = Returned (Value desc) ->
        populated_tensor desc)
  /\ (forall proto input filter convolution desc,
        CreateOutputDescriptor_config proto input filter convolution
          = Returned (Value desc) ->
        populated_tensor desc).
Proof.
  repeat apply conj.
  - intros proto desc H.
    destruct (CreateTensorDescriptor_Returned proto desc H)
      as (Hcheck & data & Hc & _).
    split; [eexists; exact Hc |].
    intros Hbad. exact (malformed_tensor_config_check proto Hbad Hcheck).
  - intros proto Hbad.
    destruct (CreateTensorDescriptor proto) as [desc|msg] eqn:Hrun;
      [| eexists; reflexivity].
    destruct (CreateTensorDescriptor_Returned proto desc Hrun) as (Hcheck & _).
    destruct (malformed_tensor_config_check proto Hbad Hcheck).
  - exact CreateFilterDescriptor_Returned.
  - exact CreateConvolutionDescriptor_Returned.
  - exact CreateOutputDescriptor_Value.
  - intros proto input filter convolution desc.
    unfold CreateOutputDescriptor_config.
    destruct (cfg_output proto) as [output_proto|].
    + intros H. through_checks. subst.
      destruct (CreateTensorDescriptor_Returned _ _ Hstep) as (_ & data & Hc & _).
      eexists. exact Hc.
    + apply CreateOutputDescriptor_Value.
Qed.

End BuildOutcomes.

(** C2, the claim as stated, fails: for a tensor configuration with both
    explicit strides and a format, and for one with neither,
    [CreateTensorDescriptor] returns nothing to its caller, neither a
    descriptor nor an error: the process ends in a fatal check. *)
Lemma malformed_tensor_config_aborts :
  malformed_tensor_config strides_and_format
  /\ malformed_tensor_config neither_strides_nor_format
  /\ CreateTensorDescriptor (P := model_platform) strides_and_format =
       Aborted "Check failed: !proto.stride_size() == (proto.format_oneof_case() == proto::TensorDescriptor::kFormat)"
  /\ CreateTensorDescriptor (P := model_platform) neither_strides_nor_format =
       Aborted "Check failed: !proto.stride_size() == (proto.format_oneof_case() == proto::TensorDescriptor::kFormat)"
  /\ (forall result,
        CreateTensorDescriptor (P := model_platform) strides_and_format
          <> Returned result).
Proof.
  repeat apply conj.
  - left. split; [discriminate | eexists; reflexivity].
  - right. split; reflexivity.
  - vm_compute. reflexivity.
  - vm_compute. reflexivity.
  - intros result. vm_compute. discriminate.
Qed.

(** ** The shape of the output *)

Lemma array_get_fill_zero l (k : nat) :
  (length l <= CUDNN_DIM_MAX)%nat ->
  array_get (fill_array zero_init l) k = array_get l k.
Proof.
  intros Hlen. unfold array_get, fill_array. rewrite take_ge by exact Hlen.
  destruct (decide (k < length l)%nat) as [Hk|Hk].
  - rewrite lookup_app_l by exact Hk. reflexivity.
  - rewrite lookup_app_r by lia.
    rewrite (lookup_ge_None_2 l k) by lia. cbn [default].
    rewrite list_lookup_fmap.
    destruct (seq _ _ !! _); reflexivity.
Qed.

Lemma array_get_take l (n k : nat) :
  (k < n)%nat -> array_get (take n l) k = array_get l k.
Proof. intros Hk. unfold array_get. rewrite lookup_take_lt by exact Hk. reflexivity. Qed.

Lemma all_ones_read_back (c : ConvolutionNdContents) (param : list Z) :
  convolution_well_formed c ->
  length param = length (nd_pad c) ->
  Forall (fun v => v = 1) param ->
  all_ones (nd_rank c) (fill_array zero_init (take 6 param)) = true.
Proof.
  intros (Hrank & _ & _ & Hmax) Hlen Hones.
  unfold all_ones, fill_array. rewrite Hrank, Nat2Z.id.
  rewrite (take_ge param 6) by lia.
  rewrite (take_ge param CUDNN_DIM_MAX) by (unfold CUDNN_DIM_MAX; lia).
  rewrite take_app_le by lia. rewrite take_ge by lia.
  apply Is_true_true, forallb_True.
  eapply Forall_impl; [exact Hones |].
  intros v ->. reflexivity.
Qed.

Section OutputShape.
Context {P : Platform}.

Lemma output_axis_wrap input_data filter_data conv_data i :
  output_axis input_data filter_data conv_data i =
    wrap_int (array_get (tensor_dimensions input_data) i
              + 2 * array_get (conv_pad conv_data) (i - 2)
              - array_get (filter_dimensions filter_data) i + 1).
Proof.
  unfold output_axis. unfold int_mul at 1.
  rewrite int_add_wrap_r, int_sub_wrap_l, int_add_wrap_l. reflexivity.
Qed.

Lemma output_dimensions_loop_spec input_data filter_data conv_data :
  forall (n i : nat) (a : list Z),
    (i + n <= length a)%nat ->
    output_dimensions_loop n i input_data filter_data conv_data a =
      take i a
        ++ (output_axis input_data filter_data conv_data <$> seq i n)
        ++ drop (i + n) a.
Proof.
  induction n as [|n IH]; intros i a Hlen.
  - cbn. rewrite Nat.add_0_r, take_drop. reflexivity.
  - cbn [output_dimensions_loop].
    rewrite IH by (rewrite length_insert; lia).
    rewrite (take_S_r _ i (output_axis input_data filter_data conv_data i))
      by (apply list_lookup_insert_eq; lia).
    rewrite take_insert_ge by lia.
    rewrite drop_insert_lt by lia.
    replace (i + S n)%nat with (S i + n)%nat by lia.
    cbn [seq fmap list_fmap]. rewrite <- app_assoc. reflexivity.
Qed.

Lemma array_get_read_back init l (k : nat) :
  (length l <= CUDNN_DIM_MAX)%nat -> (k < length l)%nat ->
  array_get (fill_array init l) k = array_get l k.
Proof.
  intros Hmax Hk. destruct (fill_array_fits init l Hmax) as (junk & -> & _).
  apply array_get_prefix. exact Hk.
Qed.

(** What the non-4-D branch hands to [cudnnSetTensorNdDescriptor] as
    dimensions, when no axis overflows [int]. *)
Lemma packed_output_dimensions_shape input_data filter_data conv_data
    (input_dims filter_dims pad : list Z) :
  tensor_rank input_data = Z.of_nat (length input_dims) ->
  tensor_dimensions input_data = fill_array indeterminate_int input_dims ->
  filter_dimensions filter_data = fill_array zero_init filter_dims ->
  conv_pad conv_data = fill_array zero_init (take 6 pad) ->
  (2 <= length input_dims <= CUDNN_DIM_MAX)%nat ->
  (length filter_dims <= CUDNN_DIM_MAX)%nat ->
  Forall int_range (output_shape input_dims filter_dims pad) ->
  length (packed_output_dimensions input_data filter_data conv_data)
    = CUDNN_DIM_MAX
  /\ take (length input_dims)
       (packed_output_dimensions input_data filter_data conv_data)
     = output_shape input_dims filter_dims pad.
Proof.
  intros Hrank Hin Hfilter Hpad [Hr2 Hr8] Hf8 Hfit.
  unfold packed_output_dimensions. rewrite Hrank.
  replace (Z.to_nat (Z.of_nat (length input_dims) - 2))
    with (length input_dims - 2)%nat by lia.
  match goal with
  | |- context [fill_array zero_init ?w] =>
      destruct (fill_array_fits zero_init w) as (junk & Hjunk & Hlen);
        [cbn; unfold CUDNN_DIM_MAX; lia |]; rewrite Hjunk in *
  end.
  rewrite output_dimensions_loop_spec by lia.
  split.
  - rewrite !length_app, length_take, length_fmap, length_seq, length_drop.
    lia.
  - change (take 2 ([?a; ?b] ++ junk)) with [a; b].
    rewrite app_assoc.
    rewrite take_app_length'
      by (rewrite length_app, length_fmap, length_seq; cbn [length]; lia).
    unfold output_shape. cbn [app]. f_equal; [| f_equal].
    + rewrite Hin. apply array_get_read_back; lia.
    + rewrite Hfilter. apply array_get_fill_zero. exact Hf8.
    + apply list_fmap_ext. intros j k Hk.
      apply lookup_seq in Hk as [-> Hj].
      rewrite output_axis_wrap, Hin, Hfilter, Hpad.
      rewrite array_get_read_back by lia.
      rewrite (array_get_fill_zero filter_dims) by exact Hf8.
      rewrite array_get_fill_zero
        by (rewrite length_take; unfold CUDNN_DIM_MAX; lia).
      rewrite array_get_take by (unfold CUDNN_DIM_MAX in *; lia).
      apply wrap_int_small.
      unfold output_shape in Hfit.
      apply Forall_app in Hfit as [_ Hfit].
      rewrite Forall_fmap in Hfit.
      apply (Forall_lookup_1 _ _ j (2 + j)%nat) in Hfit;
        [exact Hfit | apply lookup_seq; lia].
Qed.

End OutputShape.

Section OutputDescriptor.
Context {P : Platform}.

Lemma GetStatus_success : GetStatus CUDNN_STATUS_SUCCESS = OkStatus.
Proof. apply GetStatus_ok. reflexivity. Qed.

Lemma GetStatus_cases st :
  GetStatus st =
    if decide (st = CUDNN_STATUS_SUCCESS) then OkStatus
    else ErrorStatus ("cuDNN error '" +:+ cudnnGetErrorString st +:+ "'").
Proof. reflexivity. Qed.

Lemma closed_form_axis_unit input pad filter :
  closed_form_axis input pad filter 1 1 = input + 2 * pad - filter + 1.
Proof. unfold closed_form_axis. rewrite Z.quot_1_r. lia. Qed.

(** Whatever the filter format and the convolution parameters: when the
    non-4-D branch yields a descriptor, it is the one of the formula. *)
Lemma CreateOutputDescriptor_packed_Value format input filter convolution
    t f c desc :
  tensor_contents input = Some t -> tensor_well_formed t ->
  filter_contents filter = Some f -> filter_well_formed f ->
  convolution_contents convolution = Some c ->
  tensor_rank t <> 4 -> 2 <= tensor_rank t ->
  let shape :=
    output_shape (tensor_dimensions t) (filter_dimensions f) (nd_pad c) in
  Forall int_range shape -> Forall int_range (packed_strides shape) ->
  CreateOutputDescriptor format input filter convolution
    = Returned (Value desc) ->
  desc = {| tensor_contents :=
              Some {| tensor_data_type := tensor_data_type t;
                      tensor_rank := tensor_rank t;
                      tensor_dimensions := shape;
                      tensor_strides := packed_strides shape |} |}.
Proof.
  intros Ht (Hrank & Hslen & Hmax) Hf (Hfrank & Hfmax) Hc H4 H2 shape
    Hshape Hstrides.
  unfold CreateOutputDescriptor, GetTensorDescriptorData,
    GetFilterDescriptorData, GetConvolutionDescriptorData.
  rewrite Ht, Hf, Hc. cbn [outcome_bind tensor_rank tensor_data_type].
  destruct (Z.eqb_spec (tensor_rank t) 4) as [|_]; [contradiction |].
  intros H. through_checks.
  destruct (negb _); [discriminate |].
  through_checks.
  match type of H with
  | context [packed_output_dimensions ?i ?fd ?cd] =>
      destruct (packed_output_dimensions_shape i fd cd
                  (tensor_dimensions t) (filter_dimensions f) (nd_pad c))
        as [Hlen Htake]; try reflexivity; try assumption; try lia;
      set (dims := packed_output_dimensions i fd cd) in *
  end.
  unfold cudnnSetTensorNdDescriptor in H. through_checks. subst desc.
  rewrite decide_True by assumption.
  rewrite Hrank, Nat2Z.id.
  rewrite GetFullyPackedStrides_take by lia.
  rewrite Htake. fold shape.
  rewrite (fmap_wrap_int_small _ Hstrides). reflexivity.
Qed.

(** C3, as the code has it.  With stride = dilation = group = 1, a
    filter in the NCHW format and an engine that creates and accepts the
    descriptor, [CreateOutputDescriptor] on a non-4-D input in the NCHW
    format gives the output axis 0 the batch of the input, axis 1 the
    filter's first dimension, every further axis
    [input + 2*pad - filter + 1], and fully packed strides (all of them
    [int] values).  On a 4-D input, with an engine whose 2-D
    output-shape query is the documented closed form, it gives the same
    dimensions [N; F; H+2pH-kH+1; W+2pW-kW+1]. *)
Theorem output_descriptor_shape
    (format : cudnnTensorFormat_t) (input : TensorDescriptor)
    (filter : FilterDescriptor) (convolution : ConvolutionDescriptor)
    (t : TensorDescriptorData) (f : FilterDescriptorData)
    (c : ConvolutionNdContents) :
  cudnnCreateTensorDescriptor = CUDNN_STATUS_SUCCESS ->
  tensor_contents input = Some t -> tensor_well_formed t ->
  filter_contents filter = Some f -> filter_well_formed f ->
  convolution_contents convolution = Some c -> convolution_well_formed c ->
  Forall (fun v => v = 1) (nd_stride c) ->
  Forall (fun v => v = 1) (nd_dilation c) ->
  convolution_group_count convolution = 1 ->
  let shape :=
    output_shape (tensor_dimensions t) (filter_dimensions f) (nd_pad c) in
  let built (st : cudnnStatus_t) (strides : list Z) :=
    Returned
      (if decide (st = CUDNN_STATUS_SUCCESS)
       then Value {| tensor_contents :=
                       Some {| tensor_data_type := tensor_data_type t;
                               tensor_rank := tensor_rank t;
                               tensor_dimensions := shape;
                               tensor_strides := strides |} |}
       else Failure ("cuDNN error '" +:+ cudnnGetErrorString st +:+ "'")) in
  (tensor_rank t <> 4 -> 2 <= tensor_rank t ->
   format = CUDNN_TENSOR_NCHW -> filter_format f = CUDNN_TENSOR_NCHW ->
   Forall int_range shape -> Forall int_range (packed_strides shape) ->
   CreateOutputDescriptor format input filter convolution =
     built (cudnnSetTensorNdDescriptor_status (tensor_data_type t)
              (tensor_rank t) shape (packed_strides shape))
           (packed_strides shape))
  /\ (tensor_rank t = 4 -> nd_rank c = 2 ->
      platform_has_closed_form convolution input filter ->
      exists n k h w,
        shape = [n; k; h; w]
        /\ n = array_get (tensor_dimensions t) 0
        /\ k = array_get (filter_dimensions f) 0
        /\ h = array_get (tensor_dimensions t) 2 + 2 * array_get (nd_pad c) 0
               - array_get (filter_dimensions f) 2 + 1
        /\ w = array_get (tensor_dimensions t) 3 + 2 * array_get (nd_pad c) 1
               - array_get (filter_dimensions f) 3 + 1
        /\ CreateOutputDescriptor format input filter convolution =
             built (cudnnSetTensor4dDescriptor_status format
                      (tensor_data_type t) n k h w)
                   (cudnnSetTensor4dDescriptor_strides format n k h w)).
Proof.
  intros Hcreate Ht Htwf Hf Hfwf Hc Hcwf Hstride Hdilation Hgroup shape built.
  pose proof Htwf as (Hrank & Hslen & Hmax).
  pose proof Hfwf as (Hfrank & Hfmax).
  pose proof Hcwf as (Hcrank & Hclen_s & Hclen_d & Hcmax).
  split.
  - intros H4 H2 -> Hfmt Hshape Hstrides.
    unfold CreateOutputDescriptor, GetTensorDescriptorData,
      CreateEmptyTensorDescriptor.
    rewrite Ht, Hcreate, GetStatus_success.
    cbn [outcome_bind CHECK_OK_STATUS tensor_rank].
    destruct (Z.eqb_spec (tensor_rank t) 4) as [|_]; [contradiction |].
    rewrite bool_decide_eq_true_2 by reflexivity. cbn [negb].
    unfold GetFilterDescriptorData, GetConvolutionDescriptorData.
    rewrite Hf, Hc.
    cbn [outcome_bind filter_format conv_rank conv_dilation conv_stride
         conv_group_count].
    rewrite Hfmt, bool_decide_eq_true_2 by reflexivity.
    rewrite (all_ones_read_back c (nd_dilation c) Hcwf Hclen_d Hdilation).
    rewrite (all_ones_read_back c (nd_stride c) Hcwf Hclen_s Hstride).
    rewrite Hgroup. cbn [CHECK outcome_bind Z.eqb Pos.eqb].
    match goal with
    | |- context [packed_output_dimensions ?i ?fd ?cd] =>
        destruct (packed_output_dimensions_shape i fd cd
                    (tensor_dimensions t) (filter_dimensions f) (nd_pad c))
          as [Hlen Htake]; try reflexivity; try assumption; try lia;
        set (dims := packed_output_dimensions i fd cd) in *
    end.
    unfold cudnnSetTensorNdDescriptor. cbn [tensor_rank tensor_data_type].
    rewrite Hrank, Nat2Z.id.
    rewrite GetFullyPackedStrides_take by lia.
    rewrite Htake. fold shape.
    rewrite (fmap_wrap_int_small _ Hstrides).
    rewrite GetStatus_cases. subst built. cbn beta.
    rewrite <- Hrank.
    destruct (decide (_ = CUDNN_STATUS_SUCCESS)); reflexivity.
  - intros H4 Hc2 (c' & t' & f' & Hc' & Ht' & Hf' & Hquery).
    rewrite Hc in Hc'. rewrite Ht in Ht'. rewrite Hf in Hf'.
    injection Hc' as <-. injection Ht' as <-. injection Hf' as <-.
    assert (Hs : nd_stride c = [1; 1]).
    { destruct (nd_stride c) as [|s0 [|s1 [|]]], (nd_pad c) as [|p0 [|p1 [|]]];
        cbn in Hcrank, Hclen_s; try lia.
      inversion Hstride as [|? ? -> Hrest]; inversion Hrest as [|? ? -> _].
      reflexivity. }
    assert (Hd : nd_dilation c = [1; 1]).
    { destruct (nd_dilation c) as [|s0 [|s1 [|]]], (nd_pad c) as [|p0 [|p1 [|]]];
        cbn in Hcrank, Hclen_d; try lia.
      inversion Hdilation as [|? ? -> Hrest]; inversion Hrest as [|? ? -> _].
      reflexivity. }
    rewrite Hs, Hd in Hquery. unfold closed_form_2d_output in Hquery.
    change (array_get [1; 1] 0) with 1 in Hquery.
    change (array_get [1; 1] 1) with 1 in Hquery.
    rewrite !closed_form_axis_unit in Hquery.
    do 4 eexists.
    split; [| split; [reflexivity | split; [reflexivity |
              split; [reflexivity | split; [reflexivity |]]]]].
    + subst shape. unfold output_shape.
      replace (length (tensor_dimensions t)) with 4%nat by lia.
      reflexivity.
    + unfold CreateOutputDescriptor, GetTensorDataType,
        GetTensorDescriptorData, CreateEmptyTensorDescriptor.
      rewrite Ht, Hcreate, GetStatus_success.
      cbn [outcome_bind CHECK_OK_STATUS tensor_rank tensor_data_type].
      rewrite H4. cbn [Z.eqb Pos.eqb].
      rewrite Hquery, GetStatus_success.
      cbn [RETURN_IF_ERROR_STATUS outcome_bind].
      unfold cudnnSetTensor4dDescriptor. rewrite GetStatus_cases.
      subst built. cbn beta. rewrite H4.
      destruct (decide (_ = CUDNN_STATUS_SUCCESS)); [| reflexivity].
      cbn [RETURN_IF_ERROR_STATUS]. do 4 f_equal.
      subst shape. unfold output_shape.
      replace (length (tensor_dimensions t)) with 4%nat by lia.
      reflexivity.
Qed.

End OutputDescriptor.

Example builders_on_volume :
  CreateFilterDescriptor (P := model_platform) volume_filter
    = Returned volume_filter_descriptor
  /\ CreateConvolutionDescriptor (P := model_platform) volume_convolution
    = Returned volume_convolution_descriptor.
Proof. split; vm_compute; reflexivity. Qed.

Lemma output_descriptor_shape_witness :
  CreateOutputDescriptor (P := model_platform) CUDNN_TENSOR_NCHW
    volume_tensor volume_filter_descriptor volume_convolution_descriptor =
  Returned (Value
    {| tensor_contents :=
         Some {| tensor_data_type := CUDNN_DATA_DOUBLE;
                 tensor_rank := 5;
                 tensor_dimensions := [2; 4; 5; 4; 9];
                 tensor_strides := [720; 180; 36; 9; 1] |} |})
  /\ exists strides,
       CreateOutputDescriptor (P := model_platform) CUDNN_TENSOR_NHWC
         float_4x4_tensor half_3x3_filter plain_2d_convolution =
       Returned (Value
         {| tensor_contents :=
              Some {| tensor_data_type := CUDNN_DATA_FLOAT;
                      tensor_rank := 4;
                      tensor_dimensions := [1; 1; 2; 2];
                      tensor_strides := strides |} |}).
Proof.
  split.
  - assert (Hones : Forall (fun v => v = 1) [1; 1; 1]).
    { repeat (apply List.Forall_cons; [reflexivity |]). apply List.Forall_nil. }
    assert (Ht : tensor_well_formed volume_tensor_data).
    { repeat split; cbn; unfold CUDNN_DIM_MAX; lia. }
    assert (Hf : filter_well_formed volume_filter_data).
    { split; cbn; unfold CUDNN_DIM_MAX; lia. }
    assert (Hc : convolution_well_formed volume_convolution_contents).
    { repeat split; cbn; lia. }
    assert (Hshape : Forall int_range [2; 4; 5; 4; 9]).
    { repeat (apply List.Forall_cons; [vm_compute; split; discriminate |]).
      apply List.Forall_nil. }
    assert (Hstrides : Forall int_range [720; 180; 36; 9; 1]).
    { repeat (apply List.Forall_cons; [vm_compute; split; discriminate |]).
      apply List.Forall_nil. }
    assert (Hrank4 : tensor_rank volume_tensor_data <> 4) by (cbn; lia).
    assert (Hrank2 : 2 <= tensor_rank volume_tensor_data) by (cbn; lia).
    exact (proj1 (output_descriptor_shape (P := model_platform)
                    CUDNN_TENSOR_NCHW volume_tensor volume_filter_descriptor
                    volume_convolution_descriptor volume_tensor_data
                    volume_filter_data volume_convolution_contents
                    eq_refl eq_refl Ht eq_refl Hf eq_refl Hc Hones Hones eq_refl)
             Hrank4 Hrank2 eq_refl eq_refl Hshape Hstrides).
  - assert (Hones : Forall (fun v => v = 1) [1; 1]).
    { repeat (apply List.Forall_cons; [reflexivity |]). apply List.Forall_nil. }
    assert (Hclosed : platform_has_closed_form (P := model_platform)
                        plain_2d_convolution float_4x4_tensor half_3x3_filter).
    { do 3 eexists. repeat split. }
    destruct (proj2 (output_descriptor_shape (P := model_platform)
                CUDNN_TENSOR_NHWC float_4x4_tensor half_3x3_filter
                plain_2d_convolution _ _ _
                eq_refl eq_refl
                ltac:(repeat split; cbn; unfold CUDNN_DIM_MAX; lia)
                eq_refl
                ltac:(split; cbn; unfold CUDNN_DIM_MAX; lia)
                eq_refl
                ltac:(repeat split; cbn; lia)
                Hones Hones eq_refl)
              eq_refl eq_refl Hclosed)
      as (n & k & h & w & Hshape & -> & -> & -> & -> & Hrun).
    eexists. rewrite Hrun. reflexivity.
Defined.

(** C3, the claim as stated, fails: with stride = dilation = group = 1 on
    a 5-D input in the packed NCHW layout, a filter in the NHWC format
    makes [CreateOutputDescriptor] end the process in a fatal check
    instead of computing the shape. *)
Lemma output_shape_law_fails_for_nhwc_filter :
  CreateOutputDescriptor (P := model_platform) CUDNN_TENSOR_NCHW
    volume_tensor nhwc_volume_filter volume_convolution_descriptor =
    Aborted "Check failed: filter_data.format == CUDNN_TENSOR_NCHW not supported"
  /\ ~ output_shape_law_for_any_filter.
Proof.
  assert (Hrun :
    CreateOutputDescriptor (P := model_platform) CUDNN_TENSOR_NCHW
      volume_tensor nhwc_volume_filter volume_convolution_descriptor =
      Aborted "Check failed: filter_data.format == CUDNN_TENSOR_NCHW not supported")
    by (vm_compute; reflexivity).
  split; [exact Hrun |].
  intros Hlaw.
  assert (Hones : Forall (fun v => v = 1) [1; 1; 1]).
  { repeat (apply List.Forall_cons; [reflexivity |]). apply List.Forall_nil. }
  assert (Ht : tensor_well_formed volume_tensor_data).
  { repeat split; cbn; unfold CUDNN_DIM_MAX; lia. }
  assert (Hf : filter_well_formed nhwc_volume_filter_data).
  { split; cbn; unfold CUDNN_DIM_MAX; lia. }
  assert (Hc : convolution_well_formed volume_convolution_contents).
  { repeat split; cbn; lia. }
  assert (Hshape : Forall int_range [2; 4; 5; 4; 9]).
  { repeat (apply List.Forall_cons; [vm_compute; split; discriminate |]).
    apply List.Forall_nil. }
  assert (Hstrides : Forall int_range [720; 180; 36; 9; 1]).
  { repeat (apply List.Forall_cons; [vm_compute; split; discriminate |]).
    apply List.Forall_nil. }
  assert (Hrank4 : tensor_rank volume_tensor_data <> 4) by (cbn; lia).
  assert (Hrank2 : 2 <= tensor_rank volume_tensor_data) by (cbn; lia).
  specialize (Hlaw model_platform volume_tensor nhwc_volume_filter
                volume_convolution_descriptor volume_tensor_data
                nhwc_volume_filter_data volume_convolution_contents
                eq_refl eq_refl Ht eq_refl Hf eq_refl Hc Hones Hones eq_refl
                Hrank4 Hrank2 Hshape Hstrides).
  rewrite Hrun in Hlaw. discriminate Hlaw.
Qed.

Example CreateOutputDescriptor_4d :
  CreateOutputDescriptor (P := model_platform) CUDNN_TENSOR_NCHW
    float_4x4_tensor half_3x3_filter plain_2d_convolution =
  Returned (Value
    {| tensor_contents :=
         Some {| tensor_data_type := CUDNN_DATA_FLOAT;
                 tensor_rank := 4;
                 tensor_dimensions := [1; 1; 2; 2];
                 tensor_strides := [4; 4; 2; 1] |} |}).
Proof. vm_compute. reflexivity. Qed.

Example CreateOutputDescriptor_filter_too_large :
  CreateOutputDescriptor (P := model_platform) CUDNN_TENSOR_NCHW
    volume_tensor
    {| filter_contents :=
         Some {| filter_data_type := CUDNN_DATA_DOUBLE;
                 filter_format := CUDNN_TENSOR_NCHW;
                 filter_rank := 5;
                 filter_dimensions := [4; 3; 9; 3; 3] |} |}
    volume_convolution_descriptor =
  Returned (Failure "cuDNN error 'CUDNN_STATUS_BAD_PARAM'").
Proof. vm_compute. reflexivity. Qed.

Example CreateOutputDescriptor_other_format :
  CreateOutputDescriptor (P := model_platform) CUDNN_TENSOR_NHWC
    volume_tensor volume_filter_descriptor volume_convolution_descriptor =
  Returned (Failure "Can only create NCHW for non-4D output descriptor.").
Proof. vm_compute. reflexivity. Qed.

(** * Further properties of cudnn_util.cc *)

(** ** The version string and the device memory limit *)

(** A version number [major * 1000 + minor * 100 + patch], as cuDNN encodes
    its own, is rendered as ["major.minor.patch"]. *)
Theorem get_version_string_decodes (major minor patch : Z) :
  0 <= major -> 0 <= minor < 10 -> 0 <= patch < 100 ->
  get_version_string (major * 1000 + minor * 100 + patch) =
    pretty major +:+ "." +:+ pretty minor +:+ "." +:+ pretty patch.
Proof.
  intros Hmajor Hminor Hpatch. unfold get_version_string. cbv zeta.
  assert (H1 : (major * 1000 + minor * 100 + patch) / 1000 = major).
  { symmetry. apply (Z.div_unique _ _ _ (minor * 100 + patch)); lia. }
  assert (H2 : (major * 1000 + minor * 100 + patch) mod 1000
               = minor * 100 + patch).
  { symmetry. apply (Z.mod_unique _ _ major); lia. }
  assert (H3 : (minor * 100 + patch) / 100 = minor).
  { symmetry. apply (Z.div_unique _ _ _ patch); lia. }
  assert (H4 : (minor * 100 + patch) mod 100 = patch).
  { symmetry. apply (Z.mod_unique _ _ minor); lia. }
  rewrite H1, H2, H3, H4. reflexivity.
Qed.

Lemma get_version_string_decodes_witness :
  get_version_string 7605 = "7.6.5".
Proof.
  exact (get_version_string_decodes 7 6 5 ltac:(lia) ltac:(lia) ltac:(lia)).
Defined.

Lemma CHECK_OK_STATUS_Returned_ok s u :
  CHECK_OK_STATUS s = Returned u -> s = OkStatus.
Proof. destruct s; [reflexivity | discriminate]. Qed.

Lemma wrap_ptrdiff_t_megabytes mb :
  int_range mb -> wrap_ptrdiff_t (mb * 2 ^ 20) = mb * 2 ^ 20.
Proof.
  unfold int_range, INT_MIN, INT_MAX, wrap_ptrdiff_t. intros Hmb.
  rewrite Z.mod_small; lia.
Qed.

Section FlagValidator.
Context {C : CudaRuntime}.

(** What a returning run of the validator has checked and computed. *)
Lemma ValidateDeviceMemoryLimit_Returned device mb st r st' :
  ValidateDeviceMemoryLimit device mb st = Returned (r, st') ->
  let free_bytes := snd (fst cudaMemGetInfo) in
  let limit_bytes := wrap_ptrdiff_t (mb * 2 ^ 20) in
  r = true
  /\ device < snd cudaGetDeviceCount
  /\ to_size_t (Z.abs limit_bytes) <= free_bytes
  /\ validator_limit_bytes st' =
       (if limit_bytes <? 0
        then size_t_add free_bytes (to_size_t limit_bytes)
        else to_size_t limit_bytes)
  /\ validator_result_initialized st' = true
  /\ (validator_result_initialized st = true ->
      validator_info_log st' = validator_info_log st)
  /\ (validator_result_initialized st = false ->
      exists line, validator_info_log st' = validator_info_log st ++ [line]).
Proof.
  unfold ValidateDeviceMemoryLimit.
  destruct cudaGetDeviceCount as [e1 device_count].
  destruct cudaMemGetInfo as [[e2 free_bytes] total_bytes].
  cbn [fst snd]. intros H.
  repeat match goal with
    | H : outcome_bind _ _ = Returned _ |- _ =>
        let H' := fresh "Hstep" in
        apply outcome_bind_Returned in H as (? & H' & H)
    | H : CHECK _ _ = Returned _ |- _ => apply CHECK_Returned in H
    end.
  apply Z.ltb_lt in Hstep0. apply Z.leb_le in Hstep3.
  destruct (validator_result_initialized st).
  - injection H as <- <-. cbn. repeat split; try assumption; try reflexivity.
    discriminate.
  - destruct (cudaGetDeviceProperties_name device) as [e3 name].
    apply outcome_bind_Returned in H as (? & _ & H).
    injection H as <- <-. cbn. repeat split; try assumption; try reflexivity.
    + discriminate.
    + intros _. eexists. reflexivity.
Qed.

(** A returning run of the flag validator leaves a limit that is the flag
    in bytes when the flag is not negative, the free device memory less
    the flag's magnitude in bytes when it is negative, and in either case
    at most the free device memory; so the available bytes computed from
    it never exceed the free memory found at startup. *)
Theorem ValidateDeviceMemoryLimit_within_free_memory
    (device mb : Z) (st st' : ValidatorState) (r : bool) :
  int_range mb ->
  size_t_range (snd (fst cudaMemGetInfo)) ->
  ValidateDeviceMemoryLimit device mb st = Returned (r, st') ->
  let free_bytes := snd (fst cudaMemGetInfo) in
  let limit := validator_limit_bytes st' in
  r = true
  /\ limit = (if mb <? 0 then free_bytes + mb * 2 ^ 20 else mb * 2 ^ 20)
  /\ 0 <= limit <= free_bytes
  /\ forall allocated,
       size_t_range allocated ->
       GetAvailableDeviceMemoryBytes
         {| device_memory_limit_bytes := limit;
            allocated_device_memory_bytes := allocated |} <= free_bytes.
Proof.
  intros Hmb Hfree Hrun free_bytes limit.
  destruct (ValidateDeviceMemoryLimit_Returned _ _ _ _ _ Hrun)
    as (Hr & _ & Habs & Hlimit & _).
  rewrite (wrap_ptrdiff_t_megabytes mb Hmb) in Habs, Hlimit.
  fold free_bytes in Habs, Hlimit, Hfree. fold limit in Hlimit.
  assert (Hbound : Z.abs (mb * 2 ^ 20) <= free_bytes).
  { unfold to_size_t in Habs. rewrite wrap_size_t_small in Habs; [exact Habs |].
    unfold size_t_range, SIZE_MAX, int_range, INT_MIN, INT_MAX in *. lia. }
  assert (Hvalue :
    limit = (if mb <? 0 then free_bytes + mb * 2 ^ 20 else mb * 2 ^ 20)).
  { rewrite Hlimit.
    replace (mb * 2 ^ 20 <? 0) with (mb <? 0)
      by (destruct (Z.ltb_spec mb 0), (Z.ltb_spec (mb * 2 ^ 20) 0); lia).
    unfold size_t_range, SIZE_MAX, int_range, INT_MIN, INT_MAX in *.
    destruct (Z.ltb_spec mb 0).
    - unfold size_t_add, to_size_t, wrap_size_t.
      rewrite Zplus_mod_idemp_r. apply Z.mod_small. lia.
    - unfold to_size_t. apply Z.mod_small. lia. }
  assert (Hrange : 0 <= limit <= free_bytes).
  { rewrite Hvalue. destruct (Z.ltb_spec mb 0); lia. }
  repeat split; try assumption; try lia.
  intros allocated Halloc.
  rewrite GetAvailableDeviceMemoryBytes_eq; cbn;
    unfold size_t_range, SIZE_MAX in *; lia.
Qed.

(** The validator ends the process when the device index is not below the
    device count, and when the magnitude of the flag in bytes exceeds the
    free device memory. *)
Theorem ValidateDeviceMemoryLimit_rejects
    (device mb : Z) (st : ValidatorState) :
  int_range mb ->
  snd cudaGetDeviceCount <= device \/
  snd (fst cudaMemGetInfo) < Z.abs (mb * 2 ^ 20) ->
  exists msg, ValidateDeviceMemoryLimit device mb st = Aborted msg.
Proof.
  intros Hmb Hbad.
  destruct (ValidateDeviceMemoryLimit device mb st) as [[r st']|msg] eqn:Hrun;
    [| eexists; reflexivity].
  destruct (ValidateDeviceMemoryLimit_Returned _ _ _ _ _ Hrun)
    as (_ & Hdev & Habs & _).
  rewrite (wrap_ptrdiff_t_megabytes mb Hmb) in Habs.
  unfold to_size_t in Habs. rewrite wrap_size_t_small in Habs.
  - lia.
  - unfold size_t_range, SIZE_MAX, int_range, INT_MIN, INT_MAX in *. lia.
Qed.

(** Over any sequence of returning runs the version banner is logged once:
    a run logs one line if no earlier run has, and nothing otherwise. *)
Theorem ValidateDeviceMemoryLimit_logs_once
    (device mb device' mb' : Z) (st st' st'' : ValidatorState) (r r' : bool) :
  ValidateDeviceMemoryLimit device mb st = Returned (r, st') ->
  ValidateDeviceMemoryLimit device' mb' st' = Returned (r', st'') ->
  validator_info_log st'' = validator_info_log st'
  /\ length (validator_info_log st')
     = (length (validator_info_log st)
        + (if validator_result_initialized st then 0 else 1))%nat.
Proof.
  intros Hfirst Hsecond.
  destruct (ValidateDeviceMemoryLimit_Returned _ _ _ _ _ Hfirst)
    as (_ & _ & _ & _ & Hinit & Hsame & Hline).
  destruct (ValidateDeviceMemoryLimit_Returned _ _ _ _ _ Hsecond)
    as (_ & _ & _ & _ & _ & Hsame' & _).
  split; [exact (Hsame' Hinit) |].
  destruct (validator_result_initialized st).
  - rewrite (Hsame eq_refl). lia.
  - destruct (Hline eq_refl) as [line ->]. rewrite length_app. reflexivity.
Qed.

End FlagValidator.

Example ValidateDeviceMemoryLimit_offset :
  ValidateDeviceMemoryLimit (C := model_cuda_runtime) 0 (-1024) validator_start
    = Returned (true, validator_after_offset).
Proof. vm_compute. reflexivity. Qed.

Example ValidateDeviceMemoryLimit_again :
  ValidateDeviceMemoryLimit (C := model_cuda_runtime) 1 4096
    validator_after_offset
    = Returned (true,
                {| validator_limit_bytes := 4 * 2 ^ 30;
                   validator_result_initialized := true;
                   validator_info_log :=
                     ["Running cuDNN v7.6.5 for CUDA 10.0.20 on Model GPU"] |}).
Proof. vm_compute. reflexivity. Qed.

Lemma ValidateDeviceMemoryLimit_within_free_memory_witness :
  validator_limit_bytes validator_after_offset = 6 * 2 ^ 30 + -1024 * 2 ^ 20
  /\ GetAvailableDeviceMemoryBytes
       {| device_memory_limit_bytes := validator_limit_bytes validator_after_offset;
          allocated_device_memory_bytes := 2 ^ 30 |} <= 6 * 2 ^ 30.
Proof.
  assert (Hmb : int_range (-1024)) by (vm_compute; split; discriminate).
  assert (Hfree : size_t_range
                    (snd (fst (cudaMemGetInfo (CudaRuntime := model_cuda_runtime)))))
    by (vm_compute; split; discriminate).
  destruct (ValidateDeviceMemoryLimit_within_free_memory
              (C := model_cuda_runtime) 0 (-1024) validator_start
              validator_after_offset true Hmb Hfree
              ValidateDeviceMemoryLimit_offset)
    as (_ & Hvalue & _ & Havailable).
  split; [exact Hvalue |].
  apply Havailable. vm_compute. split; discriminate.
Defined.

Lemma ValidateDeviceMemoryLimit_rejects_witness :
  (exists msg,
      ValidateDeviceMemoryLimit (C := model_cuda_runtime) 0 8192
        validator_start = Aborted msg)
  /\ (exists msg,
        ValidateDeviceMemoryLimit (C := model_cuda_runtime) 2 1024
          validator_start = Aborted msg).
Proof.
  split.
  - apply (ValidateDeviceMemoryLimit_rejects (C := model_cuda_runtime)).
    + vm_compute. split; discriminate.
    + right. vm_compute. reflexivity.
  - apply (ValidateDeviceMemoryLimit_rejects (C := model_cuda_runtime)).
    + vm_compute. split; discriminate.
    + left. vm_compute. discriminate.
Defined.

Lemma ValidateDeviceMemoryLimit_logs_once_witness :
  length (validator_info_log validator_after_offset) = 1%nat.
Proof.
  destruct (ValidateDeviceMemoryLimit_logs_once (C := model_cuda_runtime)
              0 (-1024) 1 4096 validator_start validator_after_offset _
              true true ValidateDeviceMemoryLimit_offset
              ValidateDeviceMemoryLimit_again) as [_ Hlength].
  exact Hlength.
Defined.

(** ** Structural equality *)

Lemma std_equal_prefix (l1 l2 junk1 junk2 : list Z) :
  length l2 = length l1 ->
  std_equal (Z.of_nat (length l1)) (l1 ++ junk1) (l2 ++ junk2) = true
  <-> l1 = l2.
Proof.
  intros Hlen. unfold std_equal. rewrite Nat2Z.id, List.forallb_forall. split.
  - intros Hall. apply list_eq. intros i.
    destruct (decide (i < length l1)%nat) as [Hi|Hi].
    + specialize (Hall i). rewrite <- list_elem_of_In, elem_of_seq in Hall.
      specialize (Hall ltac:(lia)). apply Z.eqb_eq in Hall.
      rewrite !array_get_prefix in Hall by lia. unfold array_get in Hall.
      destruct (lookup_lt_is_Some_2 l1 i Hi) as [x Hx].
      destruct (lookup_lt_is_Some_2 l2 i ltac:(lia)) as [y Hy].
      rewrite Hx, Hy in *. cbn in Hall. congruence.
    + rewrite !lookup_ge_None_2 by lia. reflexivity.
  - intros -> i Hi. rewrite <- list_elem_of_In, elem_of_seq in Hi.
    rewrite !array_get_prefix by lia. apply Z.eqb_refl.
Qed.

Lemma std_equal_read_back init1 init2 (l1 l2 : list Z) :
  (length l1 <= CUDNN_DIM_MAX)%nat -> length l2 = length l1 ->
  std_equal (Z.of_nat (length l1)) (fill_array init1 l1) (fill_array init2 l2)
    = true
  <-> l1 = l2.
Proof.
  intros Hmax Hlen.
  destruct (fill_array_fits init1 l1 Hmax) as (j1 & -> & _).
  destruct (fill_array_fits init2 l2 ltac:(lia)) as (j2 & -> & _).
  apply std_equal_prefix. exact Hlen.
Qed.

Section TensorEquality.
Context {P : Platform}.

(** On descriptors as cuDNN stores them, [TensorDescriptorEqual] answers,
    and answers [true] exactly when the element type, the rank, the
    dimensions and the strides are the same: the array entries beyond the
    rank, which are indeterminate after the read, have no influence. *)
Theorem TensorDescriptorEqual_iff_same_contents
    (left right : TensorDescriptor) (l r : TensorDescriptorData) :
  tensor_contents left = Some l -> tensor_contents right = Some r ->
  tensor_well_formed l -> tensor_well_formed r ->
  (exists b, TensorDescriptorEqual left right = Returned b)
  /\ (TensorDescriptorEqual left right = Returned true <-> l = r).
Proof.
  intros Hl Hr (Hlrank & Hlstr & Hlmax) (Hrrank & Hrstr & Hrmax).
  unfold TensorDescriptorEqual, GetTensorDescriptorData. rewrite Hl, Hr.
  cbn [outcome_bind]. split; [eexists; reflexivity |].
  unfold TensorDescriptorData_eq.
  cbn [tensor_data_type tensor_rank tensor_dimensions tensor_strides].
  split.
  - intros [= Heq].
    apply andb_prop in Heq as [Heq Hstrides].
    apply andb_prop in Heq as [Heq Hdims].
    apply andb_prop in Heq as [Htype Hrank].
    apply bool_decide_eq_true in Htype. apply Z.eqb_eq in Hrank.
    assert (Hlen : length (tensor_dimensions r) = length (tensor_dimensions l))
      by lia.
    rewrite Hlrank in Hdims, Hstrides.
    apply std_equal_read_back in Hdims; [| lia | exact Hlen].
    rewrite <- Hlstr in Hstrides.
    apply std_equal_read_back in Hstrides; [| lia | lia].
    destruct l, r. cbn in *. subst. reflexivity.
  - intros <-. f_equal.
    rewrite bool_decide_eq_true_2, Z.eqb_refl by reflexivity. cbn [andb].
    apply andb_true_intro. split.
    + rewrite Hlrank. apply std_equal_read_back; [lia | reflexivity | reflexivity].
    + rewrite Hlrank, <- Hlstr.
      apply std_equal_read_back; [lia | reflexivity | reflexivity].
Qed.

End TensorEquality.

Lemma TensorDescriptorEqual_iff_same_contents_witness :
  TensorDescriptorEqual (P := model_platform) strided_tensor strided_tensor
    = Returned true
  /\ TensorDescriptorEqual (P := model_platform) strided_tensor volume_tensor
    <> Returned true.
Proof.
  assert (Hs : tensor_well_formed
                 {| tensor_data_type := CUDNN_DATA_FLOAT;
                    tensor_rank := 3;
                    tensor_dimensions := [2; 3; 4];
                    tensor_strides := [24; 8; 2] |}).
  { repeat split; cbn; unfold CUDNN_DIM_MAX; lia. }
  assert (Hv : tensor_well_formed volume_tensor_data).
  { repeat split; cbn; unfold CUDNN_DIM_MAX; lia. }
  split.
  - apply (TensorDescriptorEqual_iff_same_contents (P := model_platform)
             strided_tensor strided_tensor _ _ eq_refl eq_refl Hs Hs).
    reflexivity.
  - intros Heq.
    apply (TensorDescriptorEqual_iff_same_contents (P := model_platform)
             strided_tensor volume_tensor _ _ eq_refl eq_refl Hs Hv) in Heq.
    discriminate Heq.
Defined.

(** On filter descriptors as cuDNN stores them, [FilterDescriptorEqual]
    answers [true] exactly when the element type, the format, the rank and
    the dimensions are the same. *)
Theorem FilterDescriptorEqual_iff_same_contents
    (left right : FilterDescriptor) (l r : FilterDescriptorData) :
  filter_contents left = Some l -> filter_contents right = Some r ->
  filter_well_formed l -> filter_well_formed r ->
  (exists b, FilterDescriptorEqual left right = Returned b)
  /\ (FilterDescriptorEqual left right = Returned true <-> l = r).
Proof.
  intros Hl Hr (Hlrank & Hlmax) (Hrrank & Hrmax).
  unfold FilterDescriptorEqual, GetFilterDescriptorData. rewrite Hl, Hr.
  cbn [outcome_bind]. split; [eexists; reflexivity |].
  unfold FilterDescriptorData_eq.
  cbn [filter_data_type filter_format filter_rank filter_dimensions].
  split.
  - intros [= Heq].
    apply andb_prop in Heq as [Heq Hdims].
    apply andb_prop in Heq as [Heq Hrank].
    apply andb_prop in Heq as [Htype Hformat].
    apply bool_decide_eq_true in Htype. apply bool_decide_eq_true in Hformat.
    apply Z.eqb_eq in Hrank.
    rewrite Hlrank in Hdims.
    apply std_equal_read_back in Hdims; [| lia | lia].
    destruct l, r. cbn in *. subst. reflexivity.
  - intros <-. f_equal.
    rewrite !bool_decide_eq_true_2, Z.eqb_refl by reflexivity. cbn [andb].
    rewrite Hlrank. apply std_equal_read_back; [lia | reflexivity | reflexivity].
Qed.

Lemma FilterDescriptorEqual_iff_same_contents_witness :
  FilterDescriptorEqual half_3x3_filter half_3x3_filter = Returned true
  /\ FilterDescriptorEqual half_3x3_filter volume_filter_descriptor
     <> Returned true.
Proof.
  assert (Hh : filter_well_formed
                 {| filter_data_type := CUDNN_DATA_HALF;
                    filter_format := CUDNN_TENSOR_NCHW;
                    filter_rank := 4;
                    filter_dimensions := [1; 1; 3; 3] |}).
  { split; cbn; unfold CUDNN_DIM_MAX; lia. }
  assert (Hv : filter_well_formed volume_filter_data).
  { split; cbn; unfold CUDNN_DIM_MAX; lia. }
  split.
  - apply (FilterDescriptorEqual_iff_same_contents
             half_3x3_filter half_3x3_filter _ _ eq_refl eq_refl Hh Hh).
    reflexivity.
  - intros Heq.
    apply (FilterDescriptorEqual_iff_same_contents
             half_3x3_filter volume_filter_descriptor _ _ eq_refl eq_refl Hh Hv)
      in Heq.
    discriminate Heq.
Defined.

(** On convolution descriptors as cuDNN stores them,
    [ConvolutionDescriptorEqual] answers [true] exactly when the mode,
    the compute type, the rank, the paddings, the strides and the
    dilations are the same, whatever the math types and the group counts
    of the two descriptors. *)
Theorem ConvolutionDescriptorEqual_ignores_math_type_and_groups
    (left right : ConvolutionDescriptor) (l r : ConvolutionNdContents) :
  convolution_contents left = Some l -> convolution_contents right = Some r ->
  convolution_well_formed l -> convolution_well_formed r ->
  (exists b, ConvolutionDescriptorEqual left right = Returned b)
  /\ (ConvolutionDescriptorEqual left right = Returned true <-> l = r).
Proof.
  intros Hl Hr (Hlrank & Hls & Hld & Hlmax) (Hrrank & Hrs & Hrd & Hrmax).
  unfold ConvolutionDescriptorEqual, GetConvolutionDescriptorData.
  rewrite Hl, Hr. cbn [outcome_bind]. split; [eexists; reflexivity |].
  unfold ConvolutionDescriptorData_eq.
  cbn [conv_convolution_mode conv_compute_type conv_rank conv_pad conv_stride
       conv_dilation].
  rewrite !(take_ge _ 6) by lia.
  assert (H8 : (6 <= CUDNN_DIM_MAX)%nat) by (unfold CUDNN_DIM_MAX; lia).
  split.
  - intros [= Heq].
    apply andb_prop in Heq as [Heq Hdilation].
    apply andb_prop in Heq as [Heq Hstride].
    apply andb_prop in Heq as [Heq Hpad].
    apply andb_prop in Heq as [Heq Hrank].
    apply andb_prop in Heq as [Hmode Htype].
    apply bool_decide_eq_true in Hmode. apply bool_decide_eq_true in Htype.
    apply Z.eqb_eq in Hrank.
    rewrite Hlrank in Hpad. apply std_equal_read_back in Hpad; [| lia | lia].
    rewrite Hlrank, <- Hls in Hstride.
    apply std_equal_read_back in Hstride; [| lia | lia].
    rewrite Hlrank, <- Hld in Hdilation.
    apply std_equal_read_back in Hdilation; [| lia | lia].
    destruct l, r. cbn in *. subst. reflexivity.
  - intros <-. f_equal.
    rewrite !bool_decide_eq_true_2, Z.eqb_refl by reflexivity. cbn [andb].
    repeat (apply andb_true_intro; split).
    + rewrite Hlrank. apply std_equal_read_back; [lia | reflexivity | reflexivity].
    + rewrite Hlrank, <- Hls.
      apply std_equal_read_back; [lia | reflexivity | reflexivity].
    + rewrite Hlrank, <- Hld.
      apply std_equal_read_back; [lia | reflexivity | reflexivity].
Qed.

Lemma ConvolutionDescriptorEqual_ignores_math_type_and_groups_witness :
  ConvolutionDescriptorEqual plain_2d_convolution grouped_2d_convolution
    = Returned true.
Proof.
  assert (Hwf : convolution_well_formed
                  {| nd_rank := 2;
                     nd_pad := [0; 0];
                     nd_stride := [1; 1];
                     nd_dilation := [1; 1];
                     nd_mode := CUDNN_CONVOLUTION;
                     nd_compute_type := CUDNN_DATA_FLOAT |}).
  { repeat split; cbn; lia. }
  apply (ConvolutionDescriptorEqual_ignores_math_type_and_groups
           plain_2d_convolution grouped_2d_convolution _ _
           eq_refl eq_refl Hwf Hwf).
  reflexivity.
Defined.

(** ** Selecting algorithms *)

Lemma filter_sublist {A} (p q : A -> bool) (l : list A) :
  (forall x, p x = true -> q x = true) ->
  List.filter p l `sublist_of` List.filter q l.
Proof.
  intros Hpq. induction l as [|x l IH]; cbn [List.filter]; [constructor |].
  destruct (p x) eqn:Hp.
  - rewrite (Hpq x Hp). apply sublist_skip. exact IH.
  - destruct (q x); [apply sublist_cons |]; exact IH.
Qed.

Lemma within_limit_mono (L L' : Z) cost :
  L <= L' -> within_limit L cost = true -> within_limit L' cost = true.
Proof.
  intros HL. destruct cost as [[size|]|]; cbn; try discriminate.
  intros H. apply Z.leb_le in H. apply Z.leb_le. lia.
Qed.

Global Instance algo_of_inj direction : Inj (=) (=) (algo_of direction).
Proof. intros x y H. destruct direction; injection H as ->; reflexivity. Qed.

Section SelectionProperties.
Context {P : Platform}.

Lemma GetSupportedConvolutionAlgos_run direction input filter convolution
    output workspace_limit log :
  GetSupportedConvolutionAlgos direction input filter convolution output
    workspace_limit log =
  (Returned
     (algo_of direction <$>
        List.filter
          (fun k => within_limit workspace_limit
                      (workspace_cost input filter convolution output
                         (algo_of direction k)))
          (seqZ 0 (algo_count direction))),
   log ++ (GetWorkspaceSizeCall <$>
             (algo_of direction <$> seqZ 0 (algo_count direction)))).
Proof.
  unfold GetSupportedConvolutionAlgos.
  assert (HK : algo_count direction = Z.of_nat (Z.to_nat (algo_count direction)))
    by (destruct direction; reflexivity).
  rewrite HK.
  destruct direction; unfold GetSupportedConvolutionAlgosImpl;
    rewrite GetSupportedConvolutionAlgosImpl_loop_run;
    try reflexivity; vm_compute; congruence.
Qed.

(** Raising the workspace limit never removes an algorithm: the list for
    a limit is a sublist of the list for any larger limit, whatever was
    called before. *)
Theorem supported_algorithms_monotone
    (direction : ConvolutionDirection) (input : TensorDescriptor)
    (filter : FilterDescriptor) (convolution : ConvolutionDescriptor)
    (output : TensorDescriptor) (limit limit' : Z)
    (log log' : list EngineCall) :
  limit <= limit' ->
  exists algos algos',
    fst (GetSupportedConvolutionAlgos direction input filter convolution
           output limit log) = Returned algos
    /\ fst (GetSupportedConvolutionAlgos direction input filter convolution
             output limit' log') = Returned algos'
    /\ algos `sublist_of` algos'.
Proof.
  intros Hle. rewrite !GetSupportedConvolutionAlgos_run. cbn [fst].
  do 2 eexists. split; [reflexivity | split; [reflexivity |]].
  apply fmap_sublist, filter_sublist.
  intros k. apply within_limit_mono. exact Hle.
Qed.

(** The list of supported algorithms has no repetition and at most as
    many entries as the direction has identifiers, and the engine is
    queried exactly that many times whatever the limit. *)
Theorem supported_algorithms_distinct
    (direction : ConvolutionDirection) (input : TensorDescriptor)
    (filter : FilterDescriptor) (convolution : ConvolutionDescriptor)
    (output : TensorDescriptor) (limit : Z) (log : list EngineCall) :
  let run :=
    GetSupportedConvolutionAlgos direction input filter convolution output
      limit log in
  exists algos,
    fst run = Returned algos
    /\ NoDup algos
    /\ Z.of_nat (length algos) <= algo_count direction
    /\ Z.of_nat (length (snd run)) =
         Z.of_nat (length log) + algo_count direction.
Proof.
  intros run. subst run. rewrite GetSupportedConvolutionAlgos_run.
  cbn [fst snd]. eexists. split; [reflexivity |].
  assert (HK : 0 <= algo_count direction) by (destruct direction; vm_compute; congruence).
  repeat split.
  - apply (NoDup_fmap_2 _). apply NoDup_ListNoDup, List.NoDup_filter.
    apply NoDup_ListNoDup, NoDup_seqZ.
  - rewrite length_fmap.
    pose proof (List.filter_length_le
      (fun k => within_limit limit
                  (workspace_cost input filter convolution output
                     (algo_of direction k)))
      (seqZ 0 (algo_count direction))) as Hlen.
    rewrite length_seqZ in Hlen. lia.
  - rewrite length_app, !length_fmap, length_seqZ. lia.
Qed.

(** A search never answers with an algorithm of another direction. *)
Theorem search_keeps_direction
    (direction : ConvolutionDirection)
    (input_desc : TensorDescriptor) (input_data : DeviceMemory)
    (filter_desc : FilterDescriptor) (filter_data : DeviceMemory)
    (convolution_desc : ConvolutionDescriptor)
    (output_desc : TensorDescriptor) (output_data : DeviceMemory)
    (workspace_limit : Z) (log : list EngineCall) (algo : ConvolutionAlgo) :
  fst (FindConvolutionAlgo direction input_desc input_data filter_desc
         filter_data convolution_desc output_desc output_data workspace_limit
         log) = Returned (Value algo) ->
  exists v, algo = algo_of direction v.
Proof.
  unfold FindConvolutionAlgo, io_bind, io_call, io_ret.
  destruct (AllocateDeviceMemory workspace_limit) as [workspace|msg];
    [| discriminate].
  destruct direction;
    [ destruct (cudnnFindConvolutionForwardAlgorithmEx _ _ _ _ _ _ _ _ _ _)
        as [[st num] perf]
    | destruct (cudnnFindConvolutionBackwardDataAlgorithmEx _ _ _ _ _ _ _ _ _ _)
        as [[st num] perf]
    | destruct (cudnnFindConvolutionBackwardFilterAlgorithmEx _ _ _ _ _ _ _ _ _ _)
        as [[st num] perf] ];
    destruct (GetStatus st); cbn [fst]; try discriminate;
    unfold ToConvolutionAlgo; destruct (_ || _); try discriminate;
    intros [= <-]; eexists; reflexivity.
Qed.

(** Under the limit that [GetWorkspaceLimit] resolves, every algorithm
    listed as supported needs no more workspace than the device has
    available, and so no more than the configured device memory limit. *)
Theorem supported_algorithms_fit_available_memory
    (proto : proto_ConvolutionConfig) (s : DeviceState)
    (direction : ConvolutionDirection) (input : TensorDescriptor)
    (filter : FilterDescriptor) (convolution : ConvolutionDescriptor)
    (output : TensorDescriptor) (log : list EngineCall)
    (limit : Z) (algos : list ConvolutionAlgo) :
  size_t_range (device_memory_limit_bytes s) ->
  size_t_range (allocated_device_memory_bytes s) ->
  GetWorkspaceLimit proto s = Value limit ->
  fst (GetSupportedConvolutionAlgos direction input filter convolution output
         limit log) = Returned algos ->
  forall algo, algo ∈ algos ->
    exists size,
      workspace_cost input filter convolution output algo
        = Returned (Value size)
      /\ size <= GetAvailableDeviceMemoryBytes s
      /\ size <= device_memory_limit_bytes s.
Proof.
  intros Hlimit Halloc Hresolve Hrun algo Halgo.
  assert (Hle : limit <= GetAvailableDeviceMemoryBytes s).
  { unfold GetWorkspaceLimit in Hresolve.
    destruct (cfg_workspace_oneof proto) as [cap|].
    - destruct (Z.ltb_spec (GetAvailableDeviceMemoryBytes s) (to_size_t cap));
        [discriminate |].
      injection Hresolve as <-. assumption.
    - injection Hresolve as <-. lia. }
  assert (Havail : GetAvailableDeviceMemoryBytes s
                   <= device_memory_limit_bytes s).
  { rewrite GetAvailableDeviceMemoryBytes_eq by assumption.
    unfold size_t_range in *. lia. }
  rewrite GetSupportedConvolutionAlgos_run in Hrun. cbn [fst] in Hrun.
  injection Hrun as <-.
  apply list_elem_of_fmap in Halgo as (k & -> & Hk).
  apply list_elem_of_In, List.filter_In in Hk as [_ Hk].
  unfold within_limit in Hk.
  destruct (workspace_cost input filter convolution output
              (algo_of direction k)) as [[size|]|]; try discriminate.
  apply Z.leb_le in Hk. exists size. repeat split; lia.
Qed.

End SelectionProperties.

Lemma supported_algorithms_monotone_witness :
  exists algos algos',
    fst (GetSupportedConvolutionAlgos (P := model_platform) CONVOLUTION_BWD_DATA
           float_4x4_tensor half_3x3_filter plain_2d_convolution
           double_2x2_tensor 1500 []) = Returned algos
    /\ fst (GetSupportedConvolutionAlgos (P := model_platform)
              CONVOLUTION_BWD_DATA float_4x4_tensor half_3x3_filter
              plain_2d_convolution double_2x2_tensor 5000 []) = Returned algos'
    /\ algos `sublist_of` algos'.
Proof.
  apply (supported_algorithms_monotone (P := model_platform)
           CONVOLUTION_BWD_DATA float_4x4_tensor half_3x3_filter
           plain_2d_convolution double_2x2_tensor 1500 5000 [] []).
  lia.
Defined.

Lemma search_keeps_direction_witness :
  exists v, FwdAlgo 1 = algo_of CONVOLUTION_FWD v.
Proof.
  apply (search_keeps_direction (P := model_platform)
           CONVOLUTION_FWD float_4x4_tensor 0 half_3x3_filter 0
           plain_2d_convolution double_2x2_tensor 0 4096 [] (FwdAlgo 1)).
  reflexivity.
Defined.

Lemma supported_algorithms_fit_available_memory_witness :
  let s := {| device_memory_limit_bytes := 5000;
              allocated_device_memory_bytes := 1000 |} in
  exists size,
    workspace_cost (P := model_platform) float_4x4_tensor half_3x3_filter
      plain_2d_convolution double_2x2_tensor (FwdAlgo 2)
      = Returned (Value size)
    /\ size <= GetAvailableDeviceMemoryBytes s
    /\ size <= device_memory_limit_bytes s.
Proof.
  intros s.
  apply (supported_algorithms_fit_available_memory (P := model_platform)
           {| cfg_input := float_4x4_input;
              cfg_filter := volume_filter;
              cfg_convolution := volume_convolution;
              cfg_output := None;
              cfg_workspace_oneof := None |}
           s CONVOLUTION_FWD float_4x4_tensor half_3x3_filter
           plain_2d_convolution double_2x2_tensor [] 4000
           [FwdAlgo 0; FwdAlgo 1; FwdAlgo 2]).
  - unfold size_t_range, SIZE_MAX. simpl. lia.
  - unfold size_t_range, SIZE_MAX. simpl. lia.
  - reflexivity.
  - reflexivity.
  - apply list_elem_of_In. simpl. tauto.
Defined.

(** ** Descriptors built from a configuration *)

Lemma length_pad_to rank value l :
  Z.of_nat (length l) <= rank ->
  length (pad_to rank value l) = Z.to_nat rank.
Proof. intros H. unfold pad_to. rewrite length_app, length_replicate. lia. Qed.

Lemma take_pad_to rank value l :
  Z.of_nat (length l) <= rank ->
  take (Z.to_nat rank) (pad_to rank value l) = pad_to rank value l.
Proof. intros H. apply take_ge. rewrite length_pad_to by exact H. lia. Qed.

Lemma lookup_pad_to rank value l (i : nat) :
  (length l <= i)%nat -> Z.of_nat i < rank ->
  pad_to rank value l !! i = Some value.
Proof.
  intros Hl Hi. unfold pad_to. rewrite lookup_app_r by exact Hl.
  apply lookup_replicate_2. lia.
Qed.

Section BuilderRoundTrips.
Context {P : Platform}.

Lemma CreateTensorDescriptor_strided proto desc :
  td_stride proto <> [] ->
  CreateTensorDescriptor proto = Returned desc ->
  td_format_oneof proto = None
  /\ length (td_stride proto) = length (td_dimension proto)
  /\ desc =
       {| tensor_contents :=
            Some {| tensor_data_type := td_data_type proto;
                    tensor_rank := td_dimension_size proto;
                    tensor_dimensions := td_dimension proto;
                    tensor_strides := td_stride proto |} |}.
Proof.
  intros Hs.
  assert (Hsz : (td_stride_size proto =? 0) = false).
  { unfold td_stride_size. destruct (td_stride proto); [contradiction |].
    reflexivity. }
  unfold CreateTensorDescriptor, CreateEmptyTensorDescriptor.
  rewrite Hsz. cbn [negb]. unfold cudnnSetTensorNdDescriptor. intros H.
  through_checks. subst.
  apply bool_decide_eq_true in Hstep0. apply Z.eqb_eq in Hstep2.
  unfold td_dimension_size, td_stride_size in *.
  assert (Hlen : length (td_stride proto) = length (td_dimension proto)) by lia.
  split; [destruct (td_format_oneof proto); [discriminate | reflexivity] |].
  split; [exact Hlen |].
  rewrite decide_True by assumption.
  rewrite Nat2Z.id, take_ge, take_ge by lia. reflexivity.
Qed.

(** A tensor built with explicit strides needs no format, has as many
    strides as dimensions, stores the configured dimensions and strides
    as they are, and counts as many elements as their address span
    (modulo 2^64). *)
Theorem explicit_strides_round_trip
    (proto : proto_TensorDescriptor) (desc : TensorDescriptor) :
  td_stride proto <> [] ->
  (length (td_dimension proto) <= CUDNN_DIM_MAX)%nat ->
  Forall (fun d => int_range (d - 1)) (td_dimension proto) ->
  CreateTensorDescriptor proto = Returned desc ->
  td_format_oneof proto = None
  /\ length (td_stride proto) = length (td_dimension proto)
  /\ (exists data,
        tensor_contents desc = Some data
        /\ tensor_data_type data = td_data_type proto
        /\ tensor_dimensions data = td_dimension proto
        /\ tensor_strides data = td_stride proto)
  /\ GetTensorNumElements desc =
       Returned (wrap_size_t (address_span (td_dimension proto)
                                           (td_stride proto))).
Proof.
  intros Hs Hmax Hd Hrun.
  destruct (CreateTensorDescriptor_strided proto desc Hs Hrun)
    as (Hfmt & Hlen & ->).
  split; [exact Hfmt | split; [exact Hlen | split]].
  - eexists. repeat split.
  - match goal with
    | |- GetTensorNumElements ?t = _ =>
        apply (GetTensorNumElements_span t _ eq_refl)
    end; [| exact Hd].
    split; [reflexivity | split; [exact Hlen | exact Hmax]].
Qed.

(** A tensor of a rank other than 4 built without strides counts as many
    elements as the product of the configured dimensions (modulo 2^64).
    When the configured type is float, double or half, [CreateTensorData]
    returns what [CreateDeviceData] creates for that many elements of
    that type; for any other type it creates no buffer and ends the
    process in the fatal "Not yet supported". *)
Theorem packed_tensor_element_count
    (proto : proto_TensorDescriptor) (desc : TensorDescriptor) :
  td_stride proto = [] ->
  td_dimension_size proto <> 4 ->
  (length (td_dimension proto) <= CUDNN_DIM_MAX)%nat ->
  Forall (fun d => int_range (d - 1)) (td_dimension proto) ->
  Forall int_range (packed_strides (td_dimension proto)) ->
  CreateTensorDescriptor proto = Returned desc ->
  let supported (data_type : cudnnDataType_t) :=
    data_type = CUDNN_DATA_FLOAT \/ data_type = CUDNN_DATA_DOUBLE
    \/ data_type = CUDNN_DATA_HALF in
  GetTensorNumElements desc =
    Returned (wrap_size_t (product (td_dimension proto)))
  /\ forall lower upper rand_gen,
       (supported (td_data_type proto) ->
        CreateTensorData desc lower upper rand_gen =
          Returned (CreateDeviceData (td_data_type proto)
                      (wrap_size_t (product (td_dimension proto)))
                      lower upper rand_gen))
       /\ (~ supported (td_data_type proto) ->
           CreateTensorData desc lower upper rand_gen =
             Aborted "Not yet supported").
Proof.
  intros Hs H4 Hmax Hd Hfit Hrun supported.
  rewrite (CreateTensorDescriptor_packed proto desc Hs H4 Hrun).
  unfold td_dimension_size. rewrite Nat2Z.id.
  rewrite GetFullyPackedStrides_take by (first [reflexivity | exact Hmax]).
  rewrite take_ge by reflexivity.
  rewrite (fmap_wrap_int_small _ Hfit).
  match goal with
  | |- GetTensorNumElements ?t = _ /\ _ =>
      assert (Hcount : GetTensorNumElements t =
                Returned (wrap_size_t (product (td_dimension proto))))
  end.
  { match goal with
    | |- GetTensorNumElements ?t = _ =>
        rewrite (GetTensorNumElements_span t _ eq_refl)
    end; [| | exact Hd].
    - cbn [tensor_dimensions tensor_strides]. unfold address_span.
      rewrite span_sum_packed. do 2 f_equal. lia.
    - split; [reflexivity | split; [| exact Hmax]].
      cbn [tensor_dimensions tensor_strides]. apply length_packed_strides. }
  split; [exact Hcount |].
  intros lower upper rand_gen. unfold CreateTensorData. rewrite Hcount.
  cbn [GetTensorDataType GetTensorDescriptorData tensor_contents outcome_bind
       tensor_data_type].
  split.
  - apply CreateDeviceDataHelper_supported.
  - apply CreateDeviceDataHelper_unsupported.
Qed.

Lemma CreateFilterDescriptor_stored proto desc :
  CreateFilterDescriptor proto = Returned desc ->
  is_Some (fd_data_type_oneof proto)
  /\ is_Some (fd_format_oneof proto)
  /\ desc =
       {| filter_contents :=
            Some {| filter_data_type := fd_data_type proto;
                    filter_format := fd_format proto;
                    filter_rank := Z.of_nat (length (fd_dimension proto));
                    filter_dimensions := fd_dimension proto |} |}.
Proof.
  unfold CreateFilterDescriptor, CreateEmptyFilterDescriptor,
    cudnnSetFilterNdDescriptor.
  intros H. through_checks. subst. rewrite decide_True by assumption.
  rewrite Nat2Z.id, take_ge by reflexivity.
  repeat split.
  - destruct (fd_data_type_oneof proto); [eexists; reflexivity | discriminate].
  - destruct (fd_format_oneof proto); [eexists; reflexivity | discriminate].
Qed.

(** A filter is built only from a configuration that names a data type
    and a format; it stores the configured dimensions as they are, and
    counts as many elements as their product (modulo 2^64). *)
Theorem filter_descriptor_round_trip
    (proto : proto_FilterDescriptor) (desc : FilterDescriptor) :
  (length (fd_dimension proto) <= CUDNN_DIM_MAX)%nat ->
  CreateFilterDescriptor proto = Returned desc ->
  is_Some (fd_data_type_oneof proto)
  /\ is_Some (fd_format_oneof proto)
  /\ (exists data,
        filter_contents desc = Some data
        /\ filter_data_type data = fd_data_type proto
        /\ filter_format data = fd_format proto
        /\ filter_dimensions data = fd_dimension proto)
  /\ GetFilterNumElements desc =
       Returned (wrap_size_t (product (fd_dimension proto))).
Proof.
  intros Hmax Hrun.
  destruct (CreateFilterDescriptor_stored proto desc Hrun) as (Ht & Hf & ->).
  split; [exact Ht | split; [exact Hf | split]].
  - eexists. repeat split.
  - match goal with
    | |- GetFilterNumElements ?f = _ =>
        apply (GetFilterNumElements_product f _ eq_refl)
    end.
    split; [reflexivity | exact Hmax].
Qed.

Lemma CreateConvolutionDescriptor_stored proto desc :
  CreateConvolutionDescriptor proto = Returned desc ->
  let rank :=
    Z.max (Z.of_nat (length (cd_pad proto)))
      (Z.max (Z.of_nat (length (cd_filter_stride proto)))
             (Z.of_nat (length (cd_dilation proto)))) in
  desc =
    {| convolution_contents :=
         Some {| nd_rank := rank;
                 nd_pad := pad_to rank 0 (cd_pad proto);
                 nd_stride := pad_to rank 1 (cd_filter_stride proto);
                 nd_dilation := pad_to rank 1 (cd_dilation proto);
                 nd_mode := cd_mode proto;
                 nd_compute_type := cd_compute_mode proto |};
       convolution_math_type := cd_math_type proto;
       convolution_group_count :=
         if 0 <? cd_group_count proto then cd_group_count proto
         else cudnnCreateConvolutionDescriptor_group_count |}.
Proof.
  intros H rank. revert H.
  unfold CreateConvolutionDescriptor, CreateEmptyConvolutionDescriptor,
    cudnnSetConvolutionNdDescriptor, cudnnSetConvolutionMathType.
  fold rank. intros H. through_checks. subst.
  rewrite (decide_True (P := cudnnSetConvolutionMathType_status _ = _))
    by assumption.
  rewrite !take_pad_to in * by (subst rank; lia).
  destruct (0 <? cd_group_count proto);
    unfold cudnnSetConvolutionGroupCount in *; through_checks; subst;
    repeat rewrite decide_True by assumption; reflexivity.
Qed.

(** A convolution descriptor has as many axes as the longest of the
    configured padding, stride and dilation lists; the shorter lists are
    completed, paddings with 0 and strides and dilations with 1.  The
    group count is set only when the configured one is positive;
    otherwise the descriptor keeps the group count the engine gave it
    when it was created.  The math type is always set. *)
Theorem convolution_descriptor_defaults
    (proto : proto_ConvolutionDescriptor) (desc : ConvolutionDescriptor) :
  CreateConvolutionDescriptor proto = Returned desc ->
  let rank :=
    (length (cd_pad proto)
       `max` (length (cd_filter_stride proto)
                `max` length (cd_dilation proto)))%nat in
  exists data,
    convolution_contents desc = Some data
    /\ nd_rank data = Z.of_nat rank
    /\ nd_pad data = cd_pad proto ++ replicate (rank - length (cd_pad proto)) 0
    /\ nd_stride data =
         cd_filter_stride proto
           ++ replicate (rank - length (cd_filter_stride proto)) 1
    /\ nd_dilation data =
         cd_dilation proto ++ replicate (rank - length (cd_dilation proto)) 1
    /\ length (nd_pad data) = rank
    /\ length (nd_stride data) = rank
    /\ length (nd_dilation data) = rank
    /\ nd_mode data = cd_mode proto
    /\ nd_compute_type data = cd_compute_mode proto
    /\ convolution_math_type desc = cd_math_type proto
    /\ convolution_group_count desc =
         (if 0 <? cd_group_count proto then cd_group_count proto
          else cudnnCreateConvolutionDescriptor_group_count).
Proof.
  intros Hrun rank.
  rewrite (CreateConvolutionDescriptor_stored proto desc Hrun).
  set (zrank := Z.max _ _).
  assert (Hrank : Z.to_nat zrank = rank) by (subst zrank rank; lia).
  assert (Hzrank : zrank = Z.of_nat rank) by (subst zrank rank; lia).
  eexists. split; [reflexivity |].
  cbn [nd_rank nd_pad nd_stride nd_dilation nd_mode nd_compute_type
       convolution_math_type convolution_group_count].
  unfold pad_to. rewrite Hrank.
  repeat split; try exact Hzrank;
    rewrite length_app, length_replicate; subst rank; lia.
Qed.

End BuilderRoundTrips.

Lemma explicit_strides_round_trip_witness :
  GetTensorNumElements (P := model_platform) strided_tensor = Returned 47.
Proof.
  assert (Hs : td_stride strided_input <> []) by discriminate.
  assert (Hmax : (length (td_dimension strided_input) <= CUDNN_DIM_MAX)%nat)
    by (cbn; unfold CUDNN_DIM_MAX; lia).
  assert (Hd : Forall (fun d => int_range (d - 1)) (td_dimension strided_input)).
  { cbn. repeat (apply List.Forall_cons; [vm_compute; split; discriminate |]).
    apply List.Forall_nil. }
  assert (Hrun : CreateTensorDescriptor (P := model_platform) strided_input
                 = Returned strided_tensor) by (vm_compute; reflexivity).
  exact (proj2 (proj2 (proj2
           (explicit_strides_round_trip (P := model_platform) strided_input
              strided_tensor Hs Hmax Hd Hrun)))).
Defined.

Lemma packed_tensor_element_count_witness :
  GetTensorNumElements (P := model_platform) volume_tensor = Returned 1260
  /\ CreateTensorData (P := model_platform) volume_tensor 0 1 tt =
       Returned (@CreateDeviceData model_platform CUDNN_DATA_DOUBLE 1260
                   0 1 tt).
Proof.
  assert (H4 : td_dimension_size volume_input <> 4) by (vm_compute; discriminate).
  assert (Hmax : (length (td_dimension volume_input) <= CUDNN_DIM_MAX)%nat)
    by (cbn; unfold CUDNN_DIM_MAX; lia).
  assert (Hd : Forall (fun d => int_range (d - 1)) (td_dimension volume_input)).
  { cbn. repeat (apply List.Forall_cons; [vm_compute; split; discriminate |]).
    apply List.Forall_nil. }
  assert (Hfit : Forall int_range (packed_strides (td_dimension volume_input))).
  { cbn. repeat (apply List.Forall_cons; [vm_compute; split; discriminate |]).
    apply List.Forall_nil. }
  assert (Hrun : CreateTensorDescriptor (P := model_platform) volume_input
                 = Returned volume_tensor) by (vm_compute; reflexivity).
  destruct (packed_tensor_element_count (P := model_platform) volume_input
              volume_tensor eq_refl H4 Hmax Hd Hfit Hrun) as [Hcount Hdata].
  split; [exact Hcount |].
  apply (proj1 (Hdata 0 1 tt)). right. left. reflexivity.
Defined.

Lemma filter_descriptor_round_trip_witness :
  GetFilterNumElements volume_filter_descriptor = Returned 324.
Proof.
  assert (Hmax : (length (fd_dimension volume_filter) <= CUDNN_DIM_MAX)%nat)
    by (cbn; unfold CUDNN_DIM_MAX; lia).
  assert (Hrun : CreateFilterDescriptor (P := model_platform) volume_filter
                 = Returned volume_filter_descriptor)
    by (vm_compute; reflexivity).
  exact (proj2 (proj2 (proj2
           (filter_descriptor_round_trip (P := model_platform) volume_filter
              volume_filter_descriptor Hmax Hrun)))).
Defined.

Lemma convolution_descriptor_defaults_witness :
  exists data,
    convolution_contents volume_convolution_descriptor = Some data
    /\ nd_pad data = [1; 0; 2]
    /\ nd_stride data = [1; 1; 1]
    /\ nd_dilation data = [1; 1; 1]
    /\ convolution_group_count volume_convolution_descriptor = 1.
Proof.
  assert (Hrun : CreateConvolutionDescriptor (P := model_platform)
                   volume_convolution
                 = Returned volume_convolution_descriptor)
    by (vm_compute; reflexivity).
  destruct (convolution_descriptor_defaults (P := model_platform)
              volume_convolution volume_convolution_descriptor Hrun)
    as (data & Hc & _ & Hp & Hs & Hd & _ & _ & _ & _ & _ & _ & Hg).
  exists data. repeat split; assumption.
Defined.

(** ** Errors of the output descriptor *)

Lemma all_ones_read_back_iff (c : ConvolutionNdContents) (param : list Z) :
  convolution_well_formed c ->
  length param = length (nd_pad c) ->
  all_ones (nd_rank c) (fill_array zero_init (take 6 param)) = true
  <-> Forall (fun v => v = 1) param.
Proof.
  intros (Hrank & _ & _ & Hmax) Hlen.
  unfold all_ones, fill_array. rewrite Hrank, Nat2Z.id.
  rewrite (take_ge param 6) by lia.
  rewrite (take_ge param CUDNN_DIM_MAX) by (unfold CUDNN_DIM_MAX; lia).
  rewrite take_app_le by lia. rewrite take_ge by lia.
  rewrite <- Is_true_true, forallb_True.
  apply Forall_iff. intros v. rewrite Is_true_true. apply Z.eqb_eq.
Qed.

Section OutputErrors.
Context {P : Platform}.

(** For a 4-D input, [CreateOutputDescriptor] has no fatal check of its
    own: on an engine that creates descriptors and a populated input it
    returns, with a descriptor or with the engine's error, whatever the
    format, the filter and the convolution are. *)
Theorem output_descriptor_4d_never_aborts
    (format : cudnnTensorFormat_t) (input : TensorDescriptor)
    (filter : FilterDescriptor) (convolution : ConvolutionDescriptor)
    (t : TensorDescriptorData) :
  cudnnCreateTensorDescriptor = CUDNN_STATUS_SUCCESS ->
  tensor_contents input = Some t ->
  tensor_rank t = 4 ->
  (exists desc,
      CreateOutputDescriptor format input filter convolution
        = Returned (Value desc))
  \/ (exists st,
        st <> CUDNN_STATUS_SUCCESS
        /\ CreateOutputDescriptor format input filter convolution
            = Returned (Failure ("cuDNN error '" +:+ cudnnGetErrorString st
                                 +:+ "'"))).
Proof.
  intros Hcreate Ht H4.
  unfold CreateOutputDescriptor, CreateEmptyTensorDescriptor,
    GetTensorDataType, GetTensorDescriptorData.
  rewrite Ht, Hcreate, GetStatus_success.
  cbn [outcome_bind CHECK_OK_STATUS tensor_rank tensor_data_type].
  rewrite H4. cbn [Z.eqb Pos.eqb].
  destruct (cudnnGetConvolution2dForwardOutputDim convolution input filter)
    as [st [[[n c] h] w]].
  rewrite (GetStatus_cases st).
  destruct (decide (st = CUDNN_STATUS_SUCCESS)) as [_|Hst];
    cbn [RETURN_IF_ERROR_STATUS]; [| right; exists st; split; [exact Hst | reflexivity]].
  unfold cudnnSetTensor4dDescriptor.
  rewrite (GetStatus_cases (cudnnSetTensor4dDescriptor_status _ _ _ _ _ _)).
  destruct (decide (cudnnSetTensor4dDescriptor_status format
                      (tensor_data_type t) n c h w = CUDNN_STATUS_SUCCESS))
    as [_|Hst]; cbn [RETURN_IF_ERROR_STATUS].
  - left. eexists. reflexivity.
  - right. eexists. split; [exact Hst | reflexivity].
Qed.

(** For an input of another rank, a format other than NCHW is answered
    with a structured error before the filter or the convolution is
    looked at, whereas in the NCHW format a filter of another format, a
    stride or a dilation other than 1, or a group count other than 1
    ends the process in a fatal check. *)
Theorem output_descriptor_packed_rejections
    (format : cudnnTensorFormat_t) (input : TensorDescriptor)
    (filter : FilterDescriptor) (convolution : ConvolutionDescriptor)
    (t : TensorDescriptorData) :
  cudnnCreateTensorDescriptor = CUDNN_STATUS_SUCCESS ->
  tensor_contents input = Some t ->
  tensor_rank t <> 4 ->
  (format <> CUDNN_TENSOR_NCHW ->
     CreateOutputDescriptor format input filter convolution =
       Returned (Failure "Can only create NCHW for non-4D output descriptor."))
  /\ (format = CUDNN_TENSOR_NCHW ->
      forall f c,
        filter_contents filter = Some f ->
        convolution_contents convolution = Some c ->
        convolution_well_formed c ->
        filter_format f <> CUDNN_TENSOR_NCHW
        \/ ~ Forall (fun v => v = 1) (nd_dilation c)
        \/ ~ Forall (fun v => v = 1) (nd_stride c)
        \/ convolution_group_count convolution <> 1 ->
        exists msg,
          CreateOutputDescriptor format input filter convolution =
            Aborted msg).
Proof.
  intros Hcreate Ht H4.
  unfold CreateOutputDescriptor, CreateEmptyTensorDescriptor,
    GetTensorDescriptorData.
  rewrite Ht, Hcreate, GetStatus_success.
  cbn [outcome_bind CHECK_OK_STATUS tensor_rank tensor_data_type].
  destruct (Z.eqb_spec (tensor_rank t) 4) as [|_]; [contradiction |].
  split.
  - intros Hformat. rewrite bool_decide_eq_false_2 by exact Hformat.
    reflexivity.
  - intros -> f c Hf Hc Hwf Hbad.
    unfold GetFilterDescriptorData, GetConvolutionDescriptorData.
    rewrite Hf, Hc.
    cbn [bool_decide decide_rel negb outcome_bind filter_format conv_rank
         conv_dilation conv_stride conv_group_count].
    rewrite bool_decide_eq_true_2 by reflexivity. cbn [negb].
    destruct (decide (filter_format f = CUDNN_TENSOR_NCHW)) as [Hff|Hff].
    2: { rewrite bool_decide_eq_false_2 by exact Hff.
         eexists. reflexivity. }
    rewrite bool_decide_eq_true_2 by exact Hff. cbn [CHECK outcome_bind].
    destruct Hwf as (Hrank & Hslen & Hdlen & Hmax).
    assert (Hwf : convolution_well_formed c) by (repeat split; assumption).
    destruct (all_ones (nd_rank c)
                (fill_array zero_init (take 6 (nd_dilation c)))) eqn:Hd.
    2: { eexists. reflexivity. }
    cbn [CHECK outcome_bind].
    destruct (all_ones (nd_rank c)
                (fill_array zero_init (take 6 (nd_stride c)))) eqn:Hs.
    2: { eexists. reflexivity. }
    cbn [CHECK outcome_bind].
    destruct (Z.eqb_spec (convolution_group_count convolution) 1) as [Hg|Hg].
    2: { eexists. reflexivity. }
    apply (all_ones_read_back_iff c _ Hwf Hdlen) in Hd.
    apply (all_ones_read_back_iff c _ Hwf Hslen) in Hs.
    destruct Hbad as [?|[?|[?|?]]]; contradiction.
Qed.

End OutputErrors.

Lemma output_descriptor_4d_never_aborts_witness :
  (exists desc,
      CreateOutputDescriptor (P := model_platform) CUDNN_TENSOR_NHWC
        float_4x4_tensor volume_filter_descriptor grouped_volume_convolution
        = Returned (Value desc))
  \/ (exists st,
        st <> CUDNN_STATUS_SUCCESS
        /\ CreateOutputDescriptor (P := model_platform) CUDNN_TENSOR_NHWC
              float_4x4_tensor volume_filter_descriptor
              grouped_volume_convolution
            = Returned (Failure ("cuDNN error '"
                                 +:+ model_error_string st
                                 +:+ "'"))).
Proof.
  apply (output_descriptor_4d_never_aborts (P := model_platform)
           CUDNN_TENSOR_NHWC float_4x4_tensor volume_filter_descriptor
           grouped_volume_convolution
           {| tensor_data_type := CUDNN_DATA_FLOAT;
              tensor_rank := 4;
              tensor_dimensions := [1; 1; 4; 4];
              tensor_strides := [16; 16; 4; 1] |});
    reflexivity.
Defined.

Lemma output_descriptor_packed_rejections_witness :
  CreateOutputDescriptor (P := model_platform) CUDNN_TENSOR_NHWC
    volume_tensor volume_filter_descriptor grouped_volume_convolution =
    Returned (Failure "Can only create NCHW for non-4D output descriptor.")
  /\ exists msg,
       CreateOutputDescriptor (P := model_platform) CUDNN_TENSOR_NCHW
         volume_tensor volume_filter_descriptor grouped_volume_convolution =
         Aborted msg.
Proof.
  assert (H4 : tensor_rank volume_tensor_data <> 4) by (cbn; lia).
  split.
  - apply (proj1 (output_descriptor_packed_rejections (P := model_platform)
                    CUDNN_TENSOR_NHWC volume_tensor volume_filter_descriptor
                    grouped_volume_convolution volume_tensor_data
                    eq_refl eq_refl H4)).
    discriminate.
  - apply (proj2 (output_descriptor_packed_rejections (P := model_platform)
                    CUDNN_TENSOR_NCHW volume_tensor volume_filter_descriptor
                    grouped_volume_convolution volume_tensor_data
                    eq_refl eq_refl H4)
             eq_refl volume_filter_data volume_convolution_contents
             eq_refl eq_refl).
    + repeat split; cbn; lia.
    + right. right. right. cbn. lia.
Defined.

(** ** Transforming and converting tensors *)

Lemma GetPointerVariant_pointee {P : Platform} data data_type v :
  GetPointerVariant data data_type = Returned v -> pointee_type v = data_type.
Proof. destruct data_type; intros [= <-] || discriminate; reflexivity. Qed.

Lemma GetPointerVariant_Aborted {P : Platform} data data_type msg :
  GetPointerVariant data data_type = Aborted msg -> msg = "Not yet implemented".
Proof. destruct data_type; intros [= <-] || discriminate; reflexivity. Qed.

Section TransformProperties.
Context {P : Platform} {T : TransformPlatform}.

Lemma TransformTensor_run alpha beta src_desc src_data dst_desc dst_data t log :
  tensor_contents dst_desc = Some t ->
  let stored value := ScalingFactor_of_data_type value (tensor_data_type t) in
  TransformTensor alpha beta src_desc src_data dst_desc dst_data log =
    (Returned (GetStatus (cudnnTransformTensor (stored alpha) src_desc src_data
                            (stored beta) dst_desc dst_data)),
     log ++ [TransformTensorCall (stored alpha) (stored beta) src_desc src_data
               dst_desc dst_data]).
Proof.
  intros Ht stored.
  unfold TransformTensor, tio_bind, tio_lift, tio_call, tio_ret,
    ScalingFactor_of_tensor, GetTensorDescriptorData.
  rewrite Ht. cbn [outcome_bind tensor_data_type]. fold (stored alpha) (stored beta).
  destruct (GetStatus _); reflexivity.
Qed.

Lemma TransformTensor_unset alpha beta src_desc src_data dst_desc dst_data log :
  tensor_contents dst_desc = None ->
  TransformTensor alpha beta src_desc src_data dst_desc dst_data log =
    (Aborted "cuDNN error: tensor descriptor was never set", log).
Proof.
  intros Ht.
  unfold TransformTensor, tio_bind, tio_lift, ScalingFactor_of_tensor,
    GetTensorDescriptorData.
  rewrite Ht. reflexivity.
Qed.

(** [TransformTensor] on a populated destination makes one engine call,
    with [alpha] and [beta] stored as [double] when the destination holds
    doubles and as [float] otherwise; it never ends in a fatal check and
    is OK exactly when the engine reports success.  The overload without
    factors passes 1.0 and 0.0. *)
Theorem transform_scaling_follows_destination
    (alpha beta : c_double)
    (src_desc : TensorDescriptor) (src_data : DeviceMemory)
    (dst_desc : TensorDescriptor) (dst_data : DeviceMemory)
    (t : TensorDescriptorData) (log : list TransformCall) :
  tensor_contents dst_desc = Some t ->
  let stored (value : c_double) : ScalingFactor c_float c_double :=
    if decide (tensor_data_type t = CUDNN_DATA_DOUBLE) then double_value value
    else float_value (static_cast_float value) in
  let run := TransformTensor alpha beta src_desc src_data dst_desc dst_data log in
  snd run =
    log ++ [TransformTensorCall (stored alpha) (stored beta) src_desc src_data
              dst_desc dst_data]
  /\ (fst run = Returned OkStatus <->
       cudnnTransformTensor (stored alpha) src_desc src_data (stored beta)
         dst_desc dst_data = CUDNN_STATUS_SUCCESS)
  /\ (forall msg, fst run <> Aborted msg)
  /\ snd (TransformTensor_default src_desc src_data dst_desc dst_data log) =
       log ++ [TransformTensorCall (stored c_double_one) (stored c_double_zero)
                 src_desc src_data dst_desc dst_data].
Proof.
  intros Ht stored run. subst run. unfold TransformTensor_default.
  rewrite !(TransformTensor_run _ _ _ _ _ _ t log Ht). cbn [fst snd].
  split; [reflexivity | split; [| split; [discriminate | reflexivity]]].
  split; [intros [= H]; apply GetStatus_ok; exact H
         | intros H; f_equal; apply GetStatus_ok; exact H].
Qed.

(** [ConvertAndTransformTensor] never reaches the fatal "No conversion
    needed": the visitor is called on pointers of different types only. *)
Theorem conversion_is_never_needless
    (alpha beta : c_double)
    (src_desc : TensorDescriptor) (src_data : DeviceMemory)
    (dst_desc : TensorDescriptor) (dst_data : DeviceMemory)
    (log : list TransformCall) :
  fst (ConvertAndTransformTensor alpha beta src_desc src_data dst_desc
         dst_data log) <> Aborted "No conversion needed".
Proof.
  unfold ConvertAndTransformTensor, tio_bind, tio_lift, tio_ret, tio_call.
  unfold GetTensorDescriptorData at 1.
  destruct (tensor_contents src_desc) as [s|] eqn:Hs; [| cbn [fst CHECK CHECK_OK_STATUS outcome_bind]; discriminate].
  unfold GetTensorDescriptorData at 1.
  destruct (tensor_contents dst_desc) as [d|] eqn:Hd; [| cbn [fst CHECK CHECK_OK_STATUS outcome_bind]; discriminate].
  cbn [tensor_data_type tensor_rank tensor_dimensions tensor_strides].
  destruct (decide (tensor_data_type s = tensor_data_type d)) as [_|Hty].
  { rewrite (TransformTensor_run _ _ _ _ _ _ d _ Hd). cbn [fst]. discriminate. }
  destruct (tensor_rank s =? tensor_rank d); [| cbn [fst CHECK CHECK_OK_STATUS outcome_bind]; discriminate].
  cbn [CHECK]. unfold CreateEmptyTensorDescriptor.
  rewrite (GetStatus_cases cudnnCreateTensorDescriptor).
  destruct (decide (cudnnCreateTensorDescriptor = CUDNN_STATUS_SUCCESS));
    [| cbn [fst CHECK CHECK_OK_STATUS outcome_bind]; discriminate].
  cbn [CHECK_OK_STATUS outcome_bind]. unfold cudnnSetTensorNdDescriptor.
  rewrite (GetStatus_cases (cudnnSetTensorNdDescriptor_status _ _ _ _)).
  destruct (decide (cudnnSetTensorNdDescriptor_status _ _ _ _ = _));
    [| cbn [fst CHECK CHECK_OK_STATUS outcome_bind]; discriminate].
  unfold GetTensorSizeInBytes.
  destruct (cudnnGetTensorSizeInBytes _) as [st temp_size].
  rewrite (GetStatus_cases st).
  destruct (decide (st = CUDNN_STATUS_SUCCESS)); [| cbn [fst CHECK CHECK_OK_STATUS outcome_bind]; discriminate].
  cbn [CHECK_OK_STATUS outcome_bind].
  destruct (AllocateDeviceMemory temp_size) as [temp_data|msg]; [| cbn [fst CHECK CHECK_OK_STATUS outcome_bind]; discriminate].
  destruct (GetPointerVariant temp_data (tensor_data_type d)) as [dstp|msg]
    eqn:Hdst; [| rewrite (GetPointerVariant_Aborted _ _ _ Hdst); cbn [fst]; discriminate].
  destruct (GetPointerVariant src_data (tensor_data_type s)) as [srcp|msg]
    eqn:Hsrc; [| rewrite (GetPointerVariant_Aborted _ _ _ Hsrc); cbn [fst]; discriminate].
  unfold ConvertDeviceDataVisitor.
  rewrite (GetPointerVariant_pointee _ _ _ Hdst),
    (GetPointerVariant_pointee _ _ _ Hsrc).
  rewrite decide_False by congruence.
  unfold tio_call.
  destruct cudaDeviceSynchronize_status; [| cbn [fst CHECK CHECK_OK_STATUS outcome_bind]; discriminate].
  rewrite (TransformTensor_run _ _ _ _ _ _ d _ Hd). cbn [fst]. discriminate.
Qed.

Lemma read_back_take init l rank :
  rank = Z.of_nat (length l) -> (length l <= CUDNN_DIM_MAX)%nat ->
  take (Z.to_nat rank) (fill_array init l) = l.
Proof.
  intros -> Hmax. destruct (fill_array_fits init l Hmax) as (junk & -> & _).
  rewrite Nat2Z.id. apply take_app_length.
Qed.

Ltac ended_otherwise :=
  let H := fresh in
  intros H; cbn [fst CHECK CHECK_OK_STATUS outcome_bind] in H; discriminate H.

(** When source and destination differ in data type, a run of
    [ConvertAndTransformTensor] that ends well has found equal ranks,
    asked the engine for the size of a temporary tensor of the
    destination's type with the source's dimensions and strides,
    allocated it, converted [size / sizeof(Dst)] elements scaled by
    [alpha], synchronised the device, and transformed the temporary into
    the destination with the factors 1.0 and [beta]. *)
Theorem conversion_applies_alpha_once
    (alpha beta : c_double)
    (src_desc : TensorDescriptor) (src_data : DeviceMemory)
    (dst_desc : TensorDescriptor) (dst_data : DeviceMemory)
    (s d : TensorDescriptorData) (log : list TransformCall) :
  tensor_contents src_desc = Some s ->
  tensor_contents dst_desc = Some d ->
  tensor_well_formed s ->
  tensor_data_type s <> tensor_data_type d ->
  fst (ConvertAndTransformTensor alpha beta src_desc src_data dst_desc
         dst_data log) = Returned OkStatus ->
  let stored (value : c_double) : ScalingFactor c_float c_double :=
    if decide (tensor_data_type d = CUDNN_DATA_DOUBLE) then double_value value
    else float_value (static_cast_float value) in
  let temp_desc :=
    {| tensor_contents :=
         Some {| tensor_data_type := tensor_data_type d;
                 tensor_rank := tensor_rank s;
                 tensor_dimensions := tensor_dimensions s;
                 tensor_strides := tensor_strides s |} |} in
  tensor_rank s = tensor_rank d
  /\ exists temp_size temp_data dst_pointer src_pointer,
       cudnnGetTensorSizeInBytes temp_desc = (CUDNN_STATUS_SUCCESS, temp_size)
       /\ AllocateDeviceMemory temp_size = Value temp_data
       /\ GetPointerVariant temp_data (tensor_data_type d)
           = Returned dst_pointer
       /\ GetPointerVariant src_data (tensor_data_type s)
           = Returned src_pointer
       /\ snd (ConvertAndTransformTensor alpha beta src_desc src_data
                 dst_desc dst_data log) =
           log ++ [AllocateTemporaryCall temp_size;
                   ConvertDeviceDataCall alpha dst_pointer src_pointer
                     (temp_size / sizeof_element (tensor_data_type d));
                   DeviceSynchronizeCall;
                   TransformTensorCall (stored c_double_one) (stored beta)
                     temp_desc temp_data dst_desc dst_data].
Proof.
  intros Hs Hd (Hrank & Hlen & Hmax) Hty.
  assert (Hdims := read_back_take indeterminate_int _ _ Hrank Hmax).
  assert (Hstrides :
    take (Z.to_nat (tensor_rank s))
      (fill_array indeterminate_int (tensor_strides s)) = tensor_strides s).
  { apply read_back_take; lia. }
  unfold ConvertAndTransformTensor, tio_bind, tio_lift, tio_ret, tio_call,
    GetTensorDescriptorData.
  rewrite Hs, Hd.
  cbn [tensor_data_type tensor_rank tensor_dimensions tensor_strides].
  rewrite decide_False by exact Hty.
  destruct (Z.eqb_spec (tensor_rank s) (tensor_rank d)) as [Hranks|_];
    [| ended_otherwise].
  cbn [CHECK]. unfold CreateEmptyTensorDescriptor.
  rewrite (GetStatus_cases cudnnCreateTensorDescriptor).
  destruct (decide (cudnnCreateTensorDescriptor = CUDNN_STATUS_SUCCESS));
    [| ended_otherwise].
  cbn [CHECK_OK_STATUS outcome_bind]. unfold cudnnSetTensorNdDescriptor.
  rewrite Hdims, Hstrides.
  rewrite (GetStatus_cases (cudnnSetTensorNdDescriptor_status _ _ _ _)).
  destruct (decide (cudnnSetTensorNdDescriptor_status _ _ _ _ = _));
    [| ended_otherwise].
  unfold GetTensorSizeInBytes.
  destruct (cudnnGetTensorSizeInBytes _) as [st temp_size] eqn:Hsize.
  rewrite (GetStatus_cases st).
  destruct (decide (st = CUDNN_STATUS_SUCCESS)) as [->|_]; [| ended_otherwise].
  cbn [CHECK_OK_STATUS outcome_bind].
  destruct (AllocateDeviceMemory temp_size) as [temp_data|msg] eqn:Halloc;
    [| ended_otherwise].
  destruct (GetPointerVariant temp_data (tensor_data_type d)) as [dstp|msg]
    eqn:Hdst; [| ended_otherwise].
  destruct (GetPointerVariant src_data (tensor_data_type s)) as [srcp|msg]
    eqn:Hsrc; [| ended_otherwise].
  unfold ConvertDeviceDataVisitor.
  rewrite (GetPointerVariant_pointee _ _ _ Hdst),
    (GetPointerVariant_pointee _ _ _ Hsrc).
  rewrite decide_False by congruence.
  unfold tio_call.
  destruct cudaDeviceSynchronize_status; [| ended_otherwise].
  rewrite (TransformTensor_run _ _ _ _ _ _ d _ Hd). cbn [fst snd].
  intros _.
  split; [exact Hranks |].
  exists temp_size, temp_data, dstp, srcp.
  repeat split; try assumption.
  rewrite <- !app_assoc. reflexivity.
Qed.
End TransformProperties.

Lemma transform_scaling_follows_destination_witness :
  snd (TransformTensor (P := model_platform) (T := model_transform_platform)
         2 3 float_4x4_tensor 100 double_4x4_tensor 200 []) =
    [TransformTensorCall (P := model_platform)
       (double_value 2) (double_value 3) float_4x4_tensor 100
       double_4x4_tensor 200].
Proof.
  exact (proj1 (transform_scaling_follows_destination (P := model_platform)
                  (T := model_transform_platform) 2 3 float_4x4_tensor 100
                  double_4x4_tensor 200 _ [] eq_refl)).
Defined.

Lemma conversion_applies_alpha_once_witness :
  snd (ConvertAndTransformTensor (P := model_platform)
         (T := model_transform_platform)
         2 3 float_4x4_tensor 100 double_4x4_tensor 200 []) =
    [AllocateTemporaryCall (P := model_platform) 128;
     ConvertDeviceDataCall (P := model_platform) 2 (double_pointer 4096)
       (float_pointer 100) 16;
     DeviceSynchronizeCall (P := model_platform);
     TransformTensorCall (P := model_platform) (double_value 1)
       (double_value 3) double_4x4_tensor 4096 double_4x4_tensor 200].
Proof.
  destruct (conversion_applies_alpha_once (P := model_platform)
              (T := model_transform_platform) 2 3 float_4x4_tensor 100
              double_4x4_tensor 200 _ _ [] eq_refl eq_refl)
    as (_ & temp_size & temp_data & dst_pointer & src_pointer
        & Hsize & Halloc & Hdst & Hsrc & Hlog).
  - repeat split; cbn; unfold CUDNN_DIM_MAX; lia.
  - discriminate.
  - reflexivity.
  - injection Hsize as <-. injection Halloc as <-.
    injection Hdst as <-. injection Hsrc as <-. exact Hlog.
Defined.

(** ** Building a whole convolution *)

Lemma ASSIGN_OR_RETURN_STATUS_Value {A B} (expr : outcome (StatusOr A))
    (rest : A -> outcome (StatusOr B)) (b : B) :
  ASSIGN_OR_RETURN_STATUS expr rest = Returned (Value b) ->
  exists a, expr = Returned (Value a) /\ rest a = Returned (Value b).
Proof.
  unfold ASSIGN_OR_RETURN_STATUS.
  destruct expr as [[a|msg]|msg]; cbn [outcome_bind]; try discriminate.
  intros H. exists a. split; [reflexivity | exact H].
Qed.

Section WholeConvolution.
Context {P : Platform}.

Lemma CreateDeviceDataHelper_Returned data_type num_elements lower upper
    rand_gen r :
  CreateDeviceDataHelper data_type num_elements lower upper rand_gen
    = Returned r ->
  data_type = CUDNN_DATA_FLOAT \/ data_type = CUDNN_DATA_DOUBLE
  \/ data_type = CUDNN_DATA_HALF.
Proof. destruct data_type; cbn; intros H; try discriminate H; tauto. Qed.

Lemma CreateTensorData_Returned tensor lower upper rand_gen r :
  CreateTensorData tensor lower upper rand_gen = Returned r ->
  exists t,
    tensor_contents tensor = Some t
    /\ (tensor_data_type t = CUDNN_DATA_FLOAT
        \/ tensor_data_type t = CUDNN_DATA_DOUBLE
        \/ tensor_data_type t = CUDNN_DATA_HALF).
Proof.
  unfold CreateTensorData, GetTensorDataType, GetTensorNumElements,
    GetTensorDescriptorData.
  destruct (tensor_contents tensor) as [t|]; [| discriminate].
  cbn [outcome_bind tensor_data_type]. intros H.
  exists t. split; [reflexivity |].
  exact (CreateDeviceDataHelper_Returned _ _ _ _ _ _ H).
Qed.

Lemma CreateFilterData_Returned filter lower upper rand_gen r :
  CreateFilterData filter lower upper rand_gen = Returned r ->
  exists f,
    filter_contents filter = Some f
    /\ (filter_data_type f = CUDNN_DATA_FLOAT
        \/ filter_data_type f = CUDNN_DATA_DOUBLE
        \/ filter_data_type f = CUDNN_DATA_HALF).
Proof.
  unfold CreateFilterData, GetFilterDataType, GetFilterNumElements,
    GetFilterDescriptorData.
  destruct (filter_contents filter) as [f|]; [| discriminate].
  cbn [outcome_bind filter_data_type]. intros H.
  exists f. split; [reflexivity |].
  exact (CreateDeviceDataHelper_Returned _ _ _ _ _ _ H).
Qed.

(** A convolution that [CreateConvolution] returns is complete: its
    descriptors are the ones the four builders return for the parts of
    the configuration, its three buffers are the ones created for these
    descriptors, and the input, the filter and the output hold floats,
    doubles or halves, the only element types a buffer is created for. *)
Theorem created_convolution_is_complete
    (proto : proto_ConvolutionConfig) (data_lower data_upper : c_double)
    (rand_gen : RandomGenerator) (conv : Convolution) :
  CreateConvolution proto data_lower data_upper rand_gen
    = Returned (Value conv) ->
  let supported (data_type : cudnnDataType_t) :=
    data_type = CUDNN_DATA_FLOAT \/ data_type = CUDNN_DATA_DOUBLE
    \/ data_type = CUDNN_DATA_HALF in
  CreateTensorDescriptor (cfg_input proto)
    = Returned (convolution_input_desc conv)
  /\ CreateFilterDescriptor (cfg_filter proto)
      = Returned (convolution_filter_desc conv)
  /\ CreateConvolutionDescriptor (cfg_convolution proto)
      = Returned (convolution_conv_desc conv)
  /\ CreateOutputDescriptor_config proto (convolution_input_desc conv)
        (convolution_filter_desc conv) (convolution_conv_desc conv)
      = Returned (Value (convolution_output_desc conv))
  /\ CreateTensorData (convolution_input_desc conv) data_lower data_upper
        rand_gen = Returned (Value (convolution_input_data conv))
  /\ CreateFilterData (convolution_filter_desc conv) data_lower data_upper
        rand_gen = Returned (Value (convolution_filter_data conv))
  /\ CreateTensorData (convolution_output_desc conv) data_lower data_upper
        rand_gen = Returned (Value (convolution_output_data conv))
  /\ populated_convolution (convolution_conv_desc conv)
  /\ (exists input filter output,
        tensor_contents (convolution_input_desc conv) = Some input
        /\ filter_contents (convolution_filter_desc conv) = Some filter
        /\ tensor_contents (convolution_output_desc conv) = Some output
        /\ supported (tensor_data_type input)
        /\ supported (filter_data_type filter)
        /\ supported (tensor_data_type output)).
Proof.
  intros H supported. unfold CreateConvolution in H.
  destruct ((CUDNN_MAJOR <? 7) && _) in H; [discriminate |].
  through_checks.
  apply ASSIGN_OR_RETURN_STATUS_Value in H as (output_desc & Houtput & H).
  apply ASSIGN_OR_RETURN_STATUS_Value in H as (input_data & Hinput_data & H).
  apply ASSIGN_OR_RETURN_STATUS_Value in H as (filter_data & Hfilter_data & H).
  apply ASSIGN_OR_RETURN_STATUS_Value in H as (output_data & Houtput_data & H).
  through_checks. subst conv.
  cbn [convolution_input_desc convolution_filter_desc convolution_output_desc
       convolution_conv_desc convolution_input_data convolution_filter_data
       convolution_output_data].
  destruct (CreateTensorData_Returned _ _ _ _ _ Hinput_data)
    as (input & Hi & Hit).
  destruct (CreateFilterData_Returned _ _ _ _ _ Hfilter_data)
    as (filter & Hf & Hft).
  destruct (CreateTensorData_Returned _ _ _ _ _ Houtput_data)
    as (output & Ho & Hot).
  repeat (split; [assumption |]).
  split; [eapply CreateConvolutionDescriptor_Returned; eassumption |].
  exists input, filter, output. repeat split; assumption.
Qed.

End WholeConvolution.

Lemma created_convolution_is_complete_witness :
  CreateConvolution (P := model_platform) volume_config 0 1 tt
    = Returned (Value volume_convolution_aggregate)
  /\ CreateOutputDescriptor_config (P := model_platform) volume_config
       volume_tensor volume_filter_descriptor volume_convolution_descriptor
     = Returned (Value (convolution_output_desc volume_convolution_aggregate))
  /\ populated_convolution volume_convolution_descriptor.
Proof.
  assert (Hrun : CreateConvolution (P := model_platform) volume_config 0 1 tt
                 = Returned (Value volume_convolution_aggregate))
    by (vm_compute; reflexivity).
  destruct (created_convolution_is_complete (P := model_platform)
              volume_config 0 1 tt volume_convolution_aggregate Hrun)
    as (_ & _ & _ & Houtput & _ & _ & _ & Hconv & _).
  split; [exact Hrun | split; [exact Houtput | exact Hconv]].
Defined.

(** ** Defaults of a convolution and the output descriptor *)

Section DefaultConvolution.
Context {P : Platform}.

Lemma pad_to_ones rank l :
  Forall (fun v => v = 1) l -> Forall (fun v => v = 1) (pad_to rank 1 l).
Proof.
  intros Hl. unfold pad_to. apply Forall_app. split; [exact Hl |].
  apply Forall_replicate. reflexivity.
Qed.

(** A convolution built from a configuration whose strides and
    dilations are all 1 or left out, and whose group count is 1, or is
    left out on an engine whose fresh descriptors have the group count
    1, passes every check of the non-4-D branch of
    [CreateOutputDescriptor]: with a populated NCHW filter the call
    returns, with a descriptor or with the engine's error. *)
Theorem built_convolution_passes_output_checks
    (proto : proto_ConvolutionDescriptor) (convolution : ConvolutionDescriptor)
    (input : TensorDescriptor) (filter : FilterDescriptor)
    (t : TensorDescriptorData) (f : FilterDescriptorData) :
  Forall (fun v => v = 1) (cd_filter_stride proto) ->
  Forall (fun v => v = 1) (cd_dilation proto) ->
  cd_group_count proto <= 1 ->
  (cd_group_count proto <= 0 ->
   cudnnCreateConvolutionDescriptor_group_count = 1) ->
  (length (cd_pad proto) <= 6)%nat ->
  (length (cd_filter_stride proto) <= 6)%nat ->
  (length (cd_dilation proto) <= 6)%nat ->
  CreateConvolutionDescriptor proto = Returned convolution ->
  cudnnCreateTensorDescriptor = CUDNN_STATUS_SUCCESS ->
  tensor_contents input = Some t ->
  tensor_rank t <> 4 ->
  filter_contents filter = Some f ->
  filter_format f = CUDNN_TENSOR_NCHW ->
  exists result,
    CreateOutputDescriptor CUDNN_TENSOR_NCHW input filter convolution
      = Returned result.
Proof.
  intros Hstride Hdilation Hgroup Hfresh Hpl Hsl Hdl Hbuilt Hcreate Ht H4 Hf
    Hfmt.
  rewrite (CreateConvolutionDescriptor_stored proto convolution Hbuilt).
  set (rank := Z.max _ _).
  assert (Hp : Z.of_nat (length (cd_pad proto)) <= rank) by (subst rank; lia).
  assert (Hs : Z.of_nat (length (cd_filter_stride proto)) <= rank)
    by (subst rank; lia).
  assert (Hd : Z.of_nat (length (cd_dilation proto)) <= rank)
    by (subst rank; lia).
  match goal with
  | |- context [Some ?contents] =>
      match type of contents with
      | ConvolutionNdContents => set (c := contents)
      end
  end.
  assert (Hwf : convolution_well_formed c).
  { unfold convolution_well_formed. subst c.
    cbn [nd_rank nd_pad nd_stride nd_dilation].
    rewrite !length_pad_to by assumption. subst rank. lia. }
  unfold CreateOutputDescriptor, CreateEmptyTensorDescriptor,
    GetTensorDescriptorData, GetFilterDescriptorData,
    GetConvolutionDescriptorData.
  rewrite Ht, Hf, Hcreate, GetStatus_success.
  cbn [outcome_bind CHECK_OK_STATUS tensor_rank tensor_data_type
       convolution_contents convolution_group_count convolution_math_type
       filter_format conv_rank conv_dilation conv_stride conv_group_count].
  destruct (Z.eqb_spec (tensor_rank t) 4) as [|_]; [contradiction |].
  rewrite bool_decide_eq_true_2 by reflexivity. cbn [negb].
  rewrite Hfmt, bool_decide_eq_true_2 by reflexivity.
  rewrite (all_ones_read_back c (nd_dilation c) Hwf).
  2: { subst c. cbn [nd_pad nd_dilation].
       rewrite !length_pad_to by assumption. reflexivity. }
  2: { subst c. cbn [nd_dilation]. apply pad_to_ones. exact Hdilation. }
  rewrite (all_ones_read_back c (nd_stride c) Hwf).
  2: { subst c. cbn [nd_pad nd_stride].
       rewrite !length_pad_to by assumption. reflexivity. }
  2: { subst c. cbn [nd_stride]. apply pad_to_ones. exact Hstride. }
  assert (Hg : ((if 0 <? cd_group_count proto then cd_group_count proto
                 else cudnnCreateConvolutionDescriptor_group_count)
                =? 1) = true).
  { destruct (Z.ltb_spec 0 (cd_group_count proto)) as [Hset|Hunset];
      apply Z.eqb_eq; [lia | exact (Hfresh Hunset)]. }
  rewrite Hg. cbn [CHECK outcome_bind].
  unfold cudnnSetTensorNdDescriptor.
  destruct (GetStatus _); cbn [RETURN_IF_ERROR_STATUS]; eexists; reflexivity.
Qed.
End DefaultConvolution.

Lemma built_convolution_passes_output_checks_witness :
  exists result,
    CreateOutputDescriptor (P := model_platform) CUDNN_TENSOR_NCHW
      volume_tensor volume_filter_descriptor volume_convolution_descriptor
      = Returned result.
Proof.
  assert (Hnone : Forall (fun v : Z => v = 1) []) by apply List.Forall_nil.
  assert (Hgroup : cd_group_count volume_convolution <= 1) by (cbn; lia).
  assert (Hfresh : cd_group_count volume_convolution <= 0 ->
            cudnnCreateConvolutionDescriptor_group_count (Platform := model_platform)
            = 1) by reflexivity.
  assert (Hpad : (length (cd_pad volume_convolution) <= 6)%nat) by (cbn; lia).
  assert (Hlen : (length (@nil Z) <= 6)%nat) by (cbn; lia).
  assert (H4 : tensor_rank volume_tensor_data <> 4) by (cbn; lia).
  exact (built_convolution_passes_output_checks (P := model_platform)
           volume_convolution volume_convolution_descriptor volume_tensor
           volume_filter_descriptor volume_tensor_data volume_filter_data
           Hnone Hnone Hgroup Hfresh Hpad Hlen Hlen (proj2 builders_on_volume)
           eq_refl eq_refl H4 eq_refl eq_refl).
Defined.

Section DirectTransform.
Context {P : Platform} {T : TransformPlatform}.

(** Between tensors of the same data type [ConvertAndTransformTensor] is
    [TransformTensor]: one engine call with [alpha] and [beta], no
    temporary, no conversion, and no comparison of the ranks. *)
Theorem same_type_transforms_directly
    (alpha beta : c_double)
    (src_desc : TensorDescriptor) (src_data : DeviceMemory)
    (dst_desc : TensorDescriptor) (dst_data : DeviceMemory)
    (s d : TensorDescriptorData) (log : list TransformCall) :
  tensor_contents src_desc = Some s ->
  tensor_contents dst_desc = Some d ->
  tensor_data_type s = tensor_data_type d ->
  let stored (value : c_double) : ScalingFactor c_float c_double :=
    if decide (tensor_data_type d = CUDNN_DATA_DOUBLE) then double_value value
    else float_value (static_cast_float value) in
  ConvertAndTransformTensor alpha beta src_desc src_data dst_desc dst_data log
    = TransformTensor alpha beta src_desc src_data dst_desc dst_data log
  /\ snd (ConvertAndTransformTensor alpha beta src_desc src_data dst_desc
            dst_data log) =
      log ++ [TransformTensorCall (stored alpha) (stored beta) src_desc
                src_data dst_desc dst_data].
Proof.
  intros Hs Hd Hty stored.
  assert (Hsame :
    ConvertAndTransformTensor alpha beta src_desc src_data dst_desc dst_data log
    = TransformTensor alpha beta src_desc src_data dst_desc dst_data log).
  { unfold ConvertAndTransformTensor, tio_bind, tio_lift,
      GetTensorDescriptorData.
    rewrite Hs, Hd. cbn [tensor_data_type].
    rewrite decide_True by exact Hty. reflexivity. }
  split; [exact Hsame |].
  rewrite Hsame, (TransformTensor_run _ _ _ _ _ _ d log Hd). reflexivity.
Qed.

End DirectTransform.

Lemma same_type_transforms_directly_witness :
  snd (ConvertAndTransformTensor (P := model_platform)
         (T := model_transform_platform)
         2 3 float_4x4_tensor 100 float_4x4_tensor 200 []) =
    [TransformTensorCall (P := model_platform) (float_value 2)
       (float_value 3) float_4x4_tensor 100 float_4x4_tensor 200].
Proof.
  exact (proj2 (same_type_transforms_directly (P := model_platform)
                  (T := model_transform_platform) 2 3 float_4x4_tensor 100
                  float_4x4_tensor 200 _ _ [] eq_refl eq_refl eq_refl)).
Defined.
